(** * TrueNAS Fleet Monitor: the metric log, its key decoder, the latest-value
    projection, the fleet summaries, the alert log and the ingestion webhook
    of [backend.py], embedded in Rocq, with the fleet views, the dashboard
    summary and the users table.

    Tables are lists of rows in insertion order, Python dictionaries are
    association lists in insertion order, SQL text timestamps of the fixed
    form [YYYY-MM-DD HH:MM:SS] are the number of seconds they denote (their
    text order is their chronological order), REAL values are rationals. *)

From Stdlib Require Import String Ascii List Bool Arith ZArith QArith Lia.
From Stdlib Require Import Permutation Sorted DecimalString OrderedTypeEx.
Import ListNotations.

Local Open Scope string_scope.
Local Open Scope list_scope.
Local Open Scope Z_scope.

(* ================================================================= *)
(** ** Python string primitives used by the endpoints *)

Module Py.

(** [s.split('_', 1)]: cut at the first underscore, one element when there
    is none. *)
Fixpoint split1 (s : string) : list string :=
  match s with
  | EmptyString => [EmptyString]
  | String c s' =>
      if Ascii.eqb c "_" then [EmptyString; s']
      else match split1 s' with
           | h :: t => String c h :: t
           | [] => [String c EmptyString]
           end
  end.

(** [s.rsplit('_', 1)]: cut at the last underscore, one element when there
    is none. *)
Fixpoint rsplit1 (s : string) : list string :=
  match s with
  | EmptyString => [EmptyString]
  | String c s' =>
      match rsplit1 s' with
      | [l; r] => [String c l; r]
      | _ => if Ascii.eqb c "_" then [EmptyString; s'] else [String c s']
      end
  end.

(** [c.upper()] on an ASCII letter. *)
Definition upper_char (c : ascii) : ascii :=
  let n := nat_of_ascii c in
  if (97 <=? n)%nat && (n <=? 122)%nat then ascii_of_nat (n - 32) else c.

(** [s.upper()] *)
Fixpoint upper (s : string) : string :=
  match s with
  | EmptyString => EmptyString
  | String c s' => String (upper_char c) (upper s')
  end.

(** [str(n)], as an f-string prints an int. *)
Definition str_of_int (n : Z) : string :=
  NilZero.string_of_int (Z.to_int n).

(** ['_' in s] *)
Fixpoint has_underscore (s : string) : bool :=
  match s with
  | EmptyString => false
  | String c s' => Ascii.eqb c "_" || has_underscore s'
  end.

(** A [string] holds the UTF-8 bytes of a text: every character has one
    leading byte, followed by continuation bytes [10xxxxxx] when it is not
    ASCII. *)
Definition is_continuation (c : ascii) : bool :=
  let n := nat_of_ascii c in (128 <=? n)%nat && (n <? 192)%nat.

(** [len(s)]: the number of characters of [s]. *)
Fixpoint len (s : string) : nat :=
  match s with
  | EmptyString => O
  | String c s' => if is_continuation c then len s' else S (len s')
  end.

End Py.

(* ================================================================= *)
(** ** SQLite scalar functions and operators used by the queries *)

Module Sql.

(** ASCII case folding of [LIKE]. *)
Definition fold_case (c : ascii) : ascii := Py.upper_char c.

(** [s LIKE pat]: [%] matches any run of characters, [_] any single
    character, every other character itself up to ASCII case. *)
Fixpoint like (pat s : string) : bool :=
  match pat with
  | EmptyString => match s with EmptyString => true | _ => false end
  | String p pat' =>
      if Ascii.eqb p "%" then
        (fix any (t : string) : bool :=
           like pat' t ||
           match t with
           | EmptyString => false
           | String _ t' => any t'
           end) s
      else
        match s with
        | EmptyString => false
        | String c s' =>
            (Ascii.eqb p "_" || Ascii.eqb (fold_case p) (fold_case c))
            && like pat' s'
        end
  end.

(** [LENGTH(s)]: the number of characters of [s], not of its bytes. *)
Definition length (s : string) : nat := Py.len s.

(** [INSTR(s || '_', '_') - 1]: the number of characters before the first
    underscore of [s], its length when it has none. *)
Fixpoint instr_underscore_pred (s : string) : nat :=
  match s with
  | EmptyString => O
  | String c s' =>
      if Ascii.eqb c "_" then O
      else if Py.is_continuation c then instr_underscore_pred s'
      else S (instr_underscore_pred s')
  end.

(** [SUBSTR(s, 1, n)] for [n >= 0]: the first [n] characters of [s], each
    with its continuation bytes. *)
Fixpoint substr1 (s : string) (n : nat) : string :=
  match s with
  | EmptyString => EmptyString
  | String c s' =>
      if Py.is_continuation c then String c (substr1 s' n)
      else match n with
           | O => EmptyString
           | S n' => String c (substr1 s' n')
           end
  end.

(** [SUBSTR(name, 1, LENGTH(name) - LENGTH(suffix))]; the queries guard it
    by a [LIKE] that makes the length difference non-negative, and a
    negative length yields the empty string as well. *)
Definition strip_suffix_len (name suffix : string) : string :=
  substr1 name (length name - length suffix).

(** [COUNT(DISTINCT e)] over the values of a text expression. *)
Definition count_distinct (l : list string) : Z :=
  Z.of_nat (List.length (nodup string_dec l)).

(** [datetime('now', '-h hours')] in seconds. *)
Definition hours_ago (now hours : Z) : Z := now - 3600 * hours.

(** [datetime('now', '-d days')] in seconds. *)
Definition days_ago (now days : Z) : Z := now - 86400 * days.

End Sql.

(* ================================================================= *)
(** ** Key decoder: the split inlined in each endpoint *)

(** [get_system_disks], [get_all_disks]:
    [parts = m['metric_name'].rsplit('_', 1)]. *)
Definition disk_decode (metric_name : string) : string * string :=
  match Py.rsplit1 metric_name with
  | [disk_id; attr] => (disk_id, attr)
  | _ => (metric_name, "value")
  end.

(** [get_system_replication], [get_all_replication]: the same split. *)
Definition replication_decode (metric_name : string) : string * string :=
  match Py.rsplit1 metric_name with
  | [task_id; attr] => (task_id, attr)
  | _ => (metric_name, "value")
  end.

(** [get_system_pools]: [parts = m['metric_name'].split('_', 1)]. *)
Definition system_pool_decode (metric_name : string) : string * string :=
  let parts := Py.split1 metric_name in
  if (1 <=? List.length parts)%nat then
    (hd EmptyString parts,
     if (1 <? List.length parts)%nat then nth 1 parts EmptyString else "value")
  else (metric_name, "value").

(** [get_all_pools]: the same lines once more. *)
Definition all_pools_decode (metric_name : string) : string * string :=
  let parts := Py.split1 metric_name in
  if (1 <=? List.length parts)%nat then
    (hd EmptyString parts,
     if (1 <? List.length parts)%nat then nth 1 parts EmptyString else "value")
  else (metric_name, "value").

(** The resource kinds that have a decoder. *)
Inductive resource_kind : Type := Disk | Replication | Pool | PoolHealth.

Definition metric_type_of (k : resource_kind) : string :=
  match k with
  | Disk => "disk"
  | Replication => "replication"
  | Pool => "pool"
  | PoolHealth => "pool_health"
  end.

Definition decode (k : resource_kind) (raw_name : string) : string * string :=
  match k with
  | Disk => disk_decode raw_name
  | Replication => replication_decode raw_name
  | Pool | PoolHealth => system_pool_decode raw_name
  end.

(* ================================================================= *)
(** ** Tables *)

(** A JSON object, as [json.dumps] stores it and [json.loads] reads it back. *)
Definition json_dict : Type := list (string * string).

(** Row of [systems]. *)
Record system_row : Type := {
  sys_id : string;
  sys_name : string;
  sys_hostname : option string;
  sys_version : option string;
  sys_last_seen : Z;
  sys_client_name : option string
}.

(** Row of [metrics]; [m_id] is the AUTOINCREMENT key, the insertion
    sequence. *)
Record metric_row : Type := {
  m_id : Z;
  m_system_id : string;
  m_timestamp : Z;
  m_metric_type : string;
  m_metric_name : string;
  m_value : Q;
  m_unit : option string;
  m_metadata : option json_dict
}.

(** Row of [alerts]. *)
Record alert_row : Type := {
  a_id : Z;
  a_system_id : string;
  a_timestamp : Z;
  a_severity : string;
  a_message : string;
  a_acknowledged : bool;
  a_ticket_id : option string
}.

Record database : Type := {
  systems : list system_row;
  metrics : list metric_row;
  alerts : list alert_row
}.

(** [value > c] and [value = c] on REAL columns. *)
Definition Qgt_bool (a b : Q) : bool := negb (Qle_bool a b).
Definition Qlt_bool (a b : Q) : bool := negb (Qle_bool b a).

(* ================================================================= *)
(** ** Result sets *)

(** [ORDER BY metric_name, timestamp DESC]: names in byte order, then newest
    first.  The statement names no further column. *)
Definition by_name_time_desc (a b : metric_row) : bool :=
  match String.compare (m_metric_name a) (m_metric_name b) with
  | Lt => true
  | Eq => m_timestamp b <=? m_timestamp a
  | Gt => false
  end.

(** [ORDER BY timestamp DESC] *)
Definition by_time_desc (a b : metric_row) : bool :=
  m_timestamp b <=? m_timestamp a.

(** What [cursor.fetchall()] may return for a [SELECT ... ORDER BY]: the
    selected rows, each once, in an order that respects the ORDER BY terms.
    Rows that agree on every term may come in any order. *)
Definition fetchall {A : Type} (selected : list A)
    (order : A -> A -> bool) (rows : list A) : Prop :=
  Permutation selected rows /\
  StronglySorted (fun a b => order a b = true) rows.

(** One admissible answer, the one a stable sort of the table scan gives:
    rows that agree on every ORDER BY term stay in insertion order. *)
Fixpoint insert_sorted {A : Type} (order : A -> A -> bool)
    (m : A) (l : list A) : list A :=
  match l with
  | [] => [m]
  | x :: l' => if order x m then x :: insert_sorted order m l' else m :: l
  end.

Definition order_by {A : Type} (order : A -> A -> bool)
    (l : list A) : list A :=
  fold_left (fun acc m => insert_sorted order m acc) l [].

(** [timestamp > datetime('now', '-h hours')] *)
Definition newer_than (now hours : Z) (m : metric_row) : bool :=
  Sql.hours_ago now hours <? m_timestamp m.

(** WHERE clause of [get_system_metrics]. *)
Definition system_metrics_where (now : Z) (system_id : string)
    (metric_type : option string) (hours : Z) (m : metric_row) : bool :=
  (m_system_id m =? system_id)%string && newer_than now hours m &&
  match metric_type with
  | Some t => if (t =? "")%string then true else (m_metric_type m =? t)%string
  | None => true
  end.

(** [get_system_metrics]: the rows the endpoint may answer with. *)
Definition get_system_metrics (db : database) (now : Z) (system_id : string)
    (metric_type : option string) (hours : Z) (rows : list metric_row) : Prop :=
  fetchall (filter (system_metrics_where now system_id metric_type hours)
                   (metrics db))
           by_time_desc rows.

(** WHERE clause of [get_system_disks], of the statement
    [get_system_replication] executes (one metric type each) and of
    [get_system_pools] (two types, [hours] fixed to 24). *)
Definition kind_where (now : Z) (system_id : string) (types : list string)
    (hours : Z) (m : metric_row) : bool :=
  (m_system_id m =? system_id)%string &&
  existsb (String.eqb (m_metric_type m)) types &&
  newer_than now hours m.

(* ================================================================= *)
(** ** Latest-value projection and history: the grouping loop *)

(** Python dictionaries, in insertion order. *)
Fixpoint dict_get {V : Type} (k : string) (d : list (string * V)) : option V :=
  match d with
  | [] => None
  | (k', v) :: d' => if (k' =? k)%string then Some v else dict_get k d'
  end.

Definition dict_mem {V : Type} (k : string) (d : list (string * V)) : bool :=
  match dict_get k d with Some _ => true | None => false end.

(** [d[k] = f(d[k])] for a key that is present. *)
Fixpoint dict_update {V : Type} (k : string) (f : V -> V)
    (d : list (string * V)) : list (string * V) :=
  match d with
  | [] => []
  | (k', v) :: d' =>
      if (k' =? k)%string then (k', f v) :: d' else (k', v) :: dict_update k f d'
  end.

(** [{'value', 'unit', 'timestamp', 'metadata'}] *)
Record attr_value : Type := {
  av_value : Q;
  av_unit : option string;
  av_timestamp : Z;
  av_metadata : option json_dict
}.

(** [{'attribute', 'value', 'timestamp'}] *)
Record history_point : Type := {
  hp_attribute : string;
  hp_value : Q;
  hp_timestamp : Z
}.

(** One value of [disks], [tasks] or [pools]; [e_id] is the key the source
    calls ['disk_id'], ['task_id'] or ['pool_name']. *)
Record entity_entry : Type := {
  e_id : string;
  e_system_id : string;
  e_last_updated : Z;
  e_metrics : list (string * attr_value);
  e_history : list history_point
}.

Definition point_of (m : metric_row) : attr_value :=
  {| av_value := m_value m; av_unit := m_unit m;
     av_timestamp := m_timestamp m; av_metadata := m_metadata m |}.

(** The part of the loop body after the split. *)
Definition record_point (attr : string) (m : metric_row)
    (e : entity_entry) : entity_entry :=
  {| e_id := e_id e;
     e_system_id := e_system_id e;
     e_last_updated := e_last_updated e;
     e_metrics :=
       if dict_mem attr (e_metrics e) then e_metrics e
       else e_metrics e ++ [(attr, point_of m)];
     e_history :=
       e_history e ++ [{| hp_attribute := attr; hp_value := m_value m;
                          hp_timestamp := m_timestamp m |}] |}.

(** One iteration of [for m in metrics:]. *)
Definition group_step (split : string -> string * string) (system_id : string)
    (acc : list (string * entity_entry)) (m : metric_row)
    : list (string * entity_entry) :=
  let '(eid, attr) := split (m_metric_name m) in
  let acc' :=
    if dict_mem eid acc then acc
    else acc ++ [(eid, {| e_id := eid; e_system_id := system_id;
                          e_last_updated := m_timestamp m;
                          e_metrics := []; e_history := [] |})] in
  dict_update eid (record_point attr m) acc'.

Definition group_rows (split : string -> string * string) (system_id : string)
    (rows : list metric_row) : list (string * entity_entry) :=
  fold_left (group_step split system_id) rows [].

(** [get_system_disks]: [rows] is what the query fetched. *)
Definition get_system_disks (system_id : string) (rows : list metric_row)
    : list entity_entry :=
  map snd (group_rows disk_decode system_id rows).

Definition system_disks_query (db : database) (now : Z) (system_id : string)
    (hours : Z) (rows : list metric_row) : Prop :=
  fetchall (filter (kind_where now system_id ["disk"] hours) (metrics db))
           by_name_time_desc rows.

(** [get_system_pools] *)
Definition get_system_pools (system_id : string) (rows : list metric_row)
    : list entity_entry :=
  map snd (group_rows system_pool_decode system_id rows).

Definition system_pools_query (db : database) (now : Z) (system_id : string)
    (rows : list metric_row) : Prop :=
  fetchall (filter (kind_where now system_id ["pool"; "pool_health"] 24)
                   (metrics db))
           by_name_time_desc rows.

(** The value a client reads at [entry['metrics'][attr]] of the entry whose
    id is [eid]. *)
Definition latest_of (out : list entity_entry) (eid attr : string)
    : option attr_value :=
  match find (fun e => (e_id e =? eid)%string) out with
  | Some e => dict_get attr (e_metrics e)
  | None => None
  end.

(** The metric types the endpoints of a kind select. *)
Definition kind_types (k : resource_kind) : list string :=
  match k with
  | Disk => ["disk"]
  | Replication => ["replication"]
  | Pool | PoolHealth => ["pool"; "pool_health"]
  end.

(** The per-system views that fetch their rows and answer with the
    grouped list: [get_system_disks] and [get_system_pools].  The third,
    [get_system_replication], never fetches a row; it is modelled with the
    requests, below. *)
Inductive system_view : Type := SystemDisks | SystemPools.

Definition view_kind (v : system_view) : resource_kind :=
  match v with
  | SystemDisks => Disk
  | SystemPools => Pool
  end.

(** The window of the view's query: the [hours] parameter of
    [get_system_disks]; 24 hours in [get_system_pools], which has no such
    parameter. *)
Definition view_hours (v : system_view) (hours : Z) : Z :=
  match v with
  | SystemDisks => hours
  | SystemPools => 24
  end.

Definition project (v : system_view) (system_id : string)
    (rows : list metric_row) : list entity_entry :=
  map snd (group_rows (decode (view_kind v)) system_id rows).

(** The rows the WHERE clause of the view selects. *)
Definition selected (v : system_view) (db : database) (now : Z)
    (system_id : string) (hours : Z) : list metric_row :=
  filter (kind_where now system_id (kind_types (view_kind v))
                     (view_hours v hours))
         (metrics db).

Definition projection_query (v : system_view) (db : database) (now : Z)
    (system_id : string) (hours : Z) (rows : list metric_row) : Prop :=
  fetchall (selected v db now system_id hours) by_name_time_desc rows.

(** [acc[eid]['metrics'][attr]], when both keys are present. *)
Definition lookup (acc : list (string * entity_entry)) (eid attr : string)
    : option attr_value :=
  match dict_get eid acc with
  | Some e => dict_get attr (e_metrics e)
  | None => None
  end.

(** Every dictionary key is the id stored in its entry. *)
Definition keyed (acc : list (string * entity_entry)) : Prop :=
  Forall (fun ke => e_id (snd ke) = fst ke) acc.

(** Whether a row's name decodes to the pair [(eid, attr)]. *)
Definition decodes_to (split : string -> string * string) (eid attr : string)
    (m : metric_row) : bool :=
  let '(e, a) := split (m_metric_name m) in
  (e =? eid)%string && (a =? attr)%string.

(* ================================================================= *)
(** ** Fleet views: [get_all_disks], [get_all_replication], [get_all_pools] *)

(** A row of [metrics m JOIN systems s ON m.system_id = s.id]. *)
Definition joined_row : Type := metric_row * system_row.

Definition join_systems (db : database) : list joined_row :=
  flat_map (fun m => map (pair m)
                       (filter (fun s => (sys_id s =? m_system_id m)%string)
                               (systems db)))
           (metrics db).

(** [WHERE m.metric_type = ... AND m.timestamp > datetime('now', '-24 hours')] *)
Definition fleet_where (now : Z) (types : list string) (r : joined_row) : bool :=
  existsb (String.eqb (m_metric_type (fst r))) types && newer_than now 24 (fst r).

(** [ORDER BY m.system_id, m.metric_name, m.timestamp DESC] *)
Definition by_system_name_time_desc (a b : joined_row) : bool :=
  match String.compare (m_system_id (fst a)) (m_system_id (fst b)) with
  | Lt => true
  | Eq => by_name_time_desc (fst a) (fst b)
  | Gt => false
  end.

Definition fleet_query (types : list string) (db : database) (now : Z)
    (rows : list joined_row) : Prop :=
  fetchall (filter (fleet_where now types) (join_systems db))
           by_system_name_time_desc rows.

(** [{'disk_id': ..., 'attributes': {...}}] (['task_id'], ['pool_name']) *)
Record fleet_entity : Type := {
  fe_id : string;
  fe_attributes : list (string * attr_value)
}.

(** [{'system_id', 'system_name', 'client_name', 'disks': {...}}]
    (['tasks'], ['pools']) *)
Record fleet_system : Type := {
  fs_system_id : string;
  fs_system_name : string;
  fs_client_name : option string;
  fs_entities : list (string * fleet_entity)
}.

(** [if disk_id not in systems_disks[system_id]['disks']: ...] *)
Definition ensure_entity (eid : string) (fs : fleet_system) : fleet_system :=
  if dict_mem eid (fs_entities fs) then fs
  else {| fs_system_id := fs_system_id fs;
          fs_system_name := fs_system_name fs;
          fs_client_name := fs_client_name fs;
          fs_entities := fs_entities fs ++
                         [(eid, {| fe_id := eid; fe_attributes := [] |})] |}.

(** [if attr not in ...['attributes']: ...['attributes'][attr] = {...}] *)
Definition store_attribute (attr : string) (m : metric_row)
    (e : fleet_entity) : fleet_entity :=
  if dict_mem attr (fe_attributes e) then e
  else {| fe_id := fe_id e;
          fe_attributes := fe_attributes e ++ [(attr, point_of m)] |}.

Definition store_in_system (eid attr : string) (m : metric_row)
    (fs : fleet_system) : fleet_system :=
  {| fs_system_id := fs_system_id fs;
     fs_system_name := fs_system_name fs;
     fs_client_name := fs_client_name fs;
     fs_entities := dict_update eid (store_attribute attr m) (fs_entities fs) |}.

(** One iteration of the loop of a fleet view. *)
Definition fleet_step (split : string -> string * string)
    (acc : list (string * fleet_system)) (r : joined_row)
    : list (string * fleet_system) :=
  let m := fst r in
  let system_id := m_system_id m in
  let acc' :=
    if dict_mem system_id acc then acc
    else acc ++ [(system_id, {| fs_system_id := system_id;
                                fs_system_name := sys_name (snd r);
                                fs_client_name := sys_client_name (snd r);
                                fs_entities := [] |})] in
  let '(eid, attr) := split (m_metric_name m) in
  dict_update system_id (store_in_system eid attr m)
    (dict_update system_id (ensure_entity eid) acc').

Definition fleet_group (split : string -> string * string)
    (rows : list joined_row) : list (string * fleet_system) :=
  fold_left (fleet_step split) rows [].

Definition get_all_disks (rows : list joined_row) : list fleet_system :=
  map snd (fleet_group disk_decode rows).

Definition get_all_replication (rows : list joined_row) : list fleet_system :=
  map snd (fleet_group replication_decode rows).

Definition get_all_pools (rows : list joined_row) : list fleet_system :=
  map snd (fleet_group all_pools_decode rows).

(** [entities[eid]['attributes'][attr]], when both keys are present. *)
Definition entity_lookup (ents : list (string * fleet_entity))
    (eid attr : string) : option attr_value :=
  match dict_get eid ents with
  | Some e => dict_get attr (fe_attributes e)
  | None => None
  end.

Definition fleet_lookup (acc : list (string * fleet_system))
    (system_id eid attr : string) : option attr_value :=
  match dict_get system_id acc with
  | Some fs => entity_lookup (fs_entities fs) eid attr
  | None => None
  end.

(** The value a client of a fleet view reads for a system, entity and
    attribute. *)
Definition fleet_latest_of (out : list fleet_system)
    (system_id eid attr : string) : option attr_value :=
  match find (fun fs => (fs_system_id fs =? system_id)%string) out with
  | Some fs => entity_lookup (fs_entities fs) eid attr
  | None => None
  end.

(** Every key of a fleet dictionary is the system id stored in its entry. *)
Definition fleet_keyed (acc : list (string * fleet_system)) : Prop :=
  Forall (fun kf => fs_system_id (snd kf) = fst kf) acc.

(** Whether a joined row belongs to a system and decodes to a pair. *)
Definition fleet_decodes_to (split : string -> string * string)
    (system_id eid attr : string) (r : joined_row) : bool :=
  (m_system_id (fst r) =? system_id)%string && decodes_to split eid attr (fst r).

(* ================================================================= *)
(** ** Fleet summaries *)

(** [system_id || '_' || metric_name] *)
Definition row_key (m : metric_row) : string :=
  m_system_id m ++ "_" ++ m_metric_name m.

(** [system_id || '_' || SUBSTR(metric_name, 1,
      INSTR(metric_name || '_', '_') - 1)] *)
Definition prefix_key (m : metric_row) : string :=
  m_system_id m ++ "_" ++
  Sql.substr1 (m_metric_name m) (Sql.instr_underscore_pred (m_metric_name m)).

(** [system_id || '_' || SUBSTR(metric_name, 1,
      LENGTH(metric_name) - LENGTH(suffix))] *)
Definition stripped_key (suffix : string) (m : metric_row) : string :=
  m_system_id m ++ "_" ++ Sql.strip_suffix_len (m_metric_name m) suffix.

(** [SELECT COUNT(DISTINCT key) FROM metrics WHERE cond] *)
Definition count_distinct_where (key : metric_row -> string)
    (cond : metric_row -> bool) (rows : list metric_row) : Z :=
  Sql.count_distinct (map key (filter cond rows)).

(** [timestamp = (SELECT MAX(timestamp) FROM metrics m2
      WHERE m2.system_id = m1.system_id AND m2.metric_name = m1.metric_name)];
    the subquery ranges over the whole table and contains [m1]. *)
Definition is_newest_of_name (rows : list metric_row) (m1 : metric_row) : bool :=
  forallb (fun m2 =>
             negb ((m_system_id m2 =? m_system_id m1)%string &&
                   (m_metric_name m2 =? m_metric_name m1)%string)
             || (m_timestamp m2 <=? m_timestamp m1))
          rows.

Definition is_type (t : string) (m : metric_row) : bool :=
  (m_metric_type m =? t)%string.

(** Disk rules of [get_disks_summary]. *)
Definition total_disks_where (now : Z) (m : metric_row) : bool :=
  is_type "disk" m && newer_than now 24 m.

Definition temp_warnings_where (now : Z) (m : metric_row) : bool :=
  is_type "disk" m && Sql.like "%_temperature" (m_metric_name m) &&
  Qgt_bool (m_value m) (45 # 1) && newer_than now 1 m.

Definition temp_critical_where (now : Z) (m : metric_row) : bool :=
  is_type "disk" m && Sql.like "%_temperature" (m_metric_name m) &&
  Qgt_bool (m_value m) (55 # 1) && newer_than now 1 m.

Definition smart_failures_where (now : Z) (m : metric_row) : bool :=
  is_type "disk" m && Sql.like "%_smart_status" (m_metric_name m) &&
  Qeq_bool (m_value m) (0 # 1) && newer_than now 24 m.

(** The counters of the dictionary [get_disks_summary] returns; the keys
    ['avg_temperature'] and ['hottest_disk'] are floating-point call-outs and
    are not part of the record. *)
Record disks_summary : Type := {
  total_disks : Z;
  healthy_disks : Z;
  warnings : Z;
  critical : Z;
  smart_failures : Z
}.

Definition get_disks_summary (db : database) (now : Z) : disks_summary :=
  let total_disks := count_distinct_where prefix_key (total_disks_where now) (metrics db) in
  let temp_warnings := count_distinct_where row_key (temp_warnings_where now) (metrics db) in
  let temp_critical := count_distinct_where row_key (temp_critical_where now) (metrics db) in
  let smart_failures := count_distinct_where row_key (smart_failures_where now) (metrics db) in
  {| total_disks := total_disks;
     healthy_disks := total_disks - temp_warnings - smart_failures;
     warnings := temp_warnings;
     critical := temp_critical + smart_failures;
     smart_failures := smart_failures |}.

(** Replication rules of [get_replication_summary];
    [strftime('%s', 'now', '-24 hours')] is [now - 86400]. *)
Definition total_tasks_where (now : Z) (m : metric_row) : bool :=
  is_type "replication" m && Sql.like "%_status" (m_metric_name m) &&
  newer_than now 24 m.

Definition failed_tasks_where (now : Z) (m : metric_row) : bool :=
  is_type "replication" m && Sql.like "%_status" (m_metric_name m) &&
  Qeq_bool (m_value m) (0 # 1) && newer_than now 24 m.

Definition stale_tasks_where (rows : list metric_row) (now : Z)
    (m : metric_row) : bool :=
  is_type "replication" m && Sql.like "%_last_run" (m_metric_name m) &&
  is_newest_of_name rows m &&
  Qlt_bool (m_value m) (inject_Z (Sql.hours_ago now 24)).

(** The counters of [get_replication_summary]; ['last_success'] and
    ['oldest_stale'] are call-outs and are not part of the record. *)
Record replication_summary : Type := {
  total_tasks : Z;
  healthy_tasks : Z;
  failed_tasks : Z;
  stale_tasks : Z
}.

Definition get_replication_summary (db : database) (now : Z)
    : replication_summary :=
  let total_tasks := count_distinct_where (stripped_key "_status") (total_tasks_where now) (metrics db) in
  let failed_tasks := count_distinct_where row_key (failed_tasks_where now) (metrics db) in
  let stale_tasks := count_distinct_where (stripped_key "_last_run") (stale_tasks_where (metrics db) now) (metrics db) in
  let healthy_tasks := total_tasks - failed_tasks - stale_tasks in
  let healthy_tasks := if healthy_tasks <? 0 then 0 else healthy_tasks in
  {| total_tasks := total_tasks;
     healthy_tasks := healthy_tasks;
     failed_tasks := failed_tasks;
     stale_tasks := stale_tasks |}.

(** Pool rules of [get_pools_summary]; [seven_days_ago] is
    [time.time() - 7 * 24 * 3600], taken to the second. *)
Definition total_pools_where (now : Z) (m : metric_row) : bool :=
  (is_type "pool" m || is_type "pool_health" m) &&
  Sql.like "%_total" (m_metric_name m) && newer_than now 24 m.

Definition degraded_pools_where (now : Z) (m : metric_row) : bool :=
  is_type "pool_health" m && Sql.like "%_state" (m_metric_name m) &&
  Qeq_bool (m_value m) (0 # 1) && newer_than now 24 m.

Definition needs_scrub_where (rows : list metric_row) (now : Z)
    (m : metric_row) : bool :=
  is_type "pool_health" m && Sql.like "%_scrub_last" (m_metric_name m) &&
  is_newest_of_name rows m &&
  Qlt_bool (m_value m) (inject_Z (now - 7 * 24 * 3600)).

Definition active_resilvers_where (now : Z) (m : metric_row) : bool :=
  is_type "pool_health" m && Sql.like "%_resilver_status" (m_metric_name m) &&
  Qeq_bool (m_value m) (1 # 1) && newer_than now 1 m.

(** The counters of [get_pools_summary]; ['capacity_warnings'] and the two
    terabyte sums are floating-point quotients and are not part of the
    record. *)
Record pools_summary : Type := {
  total_pools : Z;
  healthy_pools : Z;
  degraded_pools : Z;
  needs_scrub : Z;
  active_resilvers : Z
}.

Definition get_pools_summary (db : database) (now : Z) : pools_summary :=
  let total_pools := count_distinct_where prefix_key (total_pools_where now) (metrics db) in
  let degraded_pools := count_distinct_where row_key (degraded_pools_where now) (metrics db) in
  let needs_scrub := count_distinct_where (stripped_key "_scrub_last") (needs_scrub_where (metrics db) now) (metrics db) in
  let active_resilvers := count_distinct_where row_key (active_resilvers_where now) (metrics db) in
  let healthy_pools := total_pools - degraded_pools - needs_scrub in
  let healthy_pools := if healthy_pools <? 0 then 0 else healthy_pools in
  {| total_pools := total_pools;
     healthy_pools := healthy_pools;
     degraded_pools := degraded_pools;
     needs_scrub := needs_scrub;
     active_resilvers := active_resilvers |}.

(** The log restricted to one system: what a summary query sees once
    [AND system_id = ?] is added to its WHERE clause. *)
Definition rows_of_system (system_id : string) (rows : list metric_row)
    : list metric_row :=
  filter (fun m => (m_system_id m =? system_id)%string) rows.


Definition sum_Z (l : list Z) : Z := fold_right Z.add 0 l.

(** The database with the metric log of one system only. *)
Definition restrict_to (system_id : string) (db : database) : database :=
  {| systems := systems db;
     metrics := rows_of_system system_id (metrics db);
     alerts := alerts db |}.

(** A counter of a fleet summary is the sum, over the systems [ids], of the
    same counter computed on each system's own rows. *)
Definition sums_over_systems (counter : database -> Z) (db : database)
    (ids : list string) : Prop :=
  counter db = sum_Z (map (fun s => counter (restrict_to s db)) ids).

(* ================================================================= *)
(** ** Requests: a connection, its uncommitted work, and exceptions *)

(** What a handler can raise. *)
Inductive exn : Type :=
| HTTPException (status_code : Z) (detail : string)
| TypeError (msg : string)
| ProgrammingError (msg : string).

Inductive outcome (A : Type) : Type :=
| Returned (a : A)
| Raised (e : exn).
Arguments Returned {A} a.
Arguments Raised {A} e.

(** [sqlite3.connect(DB_PATH)]: [durable] is the database file, [working]
    is the file as this connection sees it, with its uncommitted
    statements applied. *)
Record connection : Type := {
  durable : database;
  working : database
}.

Module Request.

Definition t (A : Type) : Type := connection -> outcome A * connection.

Definition ret {A : Type} (a : A) : t A := fun c => (Returned a, c).

Definition bind {A B : Type} (m : t A) (k : A -> t B) : t B :=
  fun c => match m c with
           | (Returned a, c') => k a c'
           | (Raised e, c') => (Raised e, c')
           end.

(** [raise e] *)
Definition raise {A : Type} (e : exn) : t A := fun c => (Raised e, c).

(** [cursor.execute(stmt)]; the statement answers with its row count. *)
Definition execute (stmt : database -> database * nat) : t nat :=
  fun c => let '(w, n) := stmt (working c) in
           (Returned n, {| durable := durable c; working := w |}).

(** [conn.commit()] *)
Definition commit : t unit :=
  fun c => (Returned tt, {| durable := working c; working := working c |}).

(** [conn.close()]: uncommitted statements are rolled back. *)
Definition close : t unit :=
  fun c => (Returned tt, {| durable := durable c; working := durable c |}).

(** [for x in xs: body(x)] *)
Fixpoint for_each {A : Type} (xs : list A) (body : A -> t unit) : t unit :=
  match xs with
  | [] => ret tt
  | x :: xs' => bind (body x) (fun _ => for_each xs' body)
  end.

(** [iter(xs)] of an [Optional[List]]: [None] is not iterable. *)
Definition iterable {A : Type} (xs : option (list A)) : t (list A) :=
  match xs with
  | Some l => ret l
  | None => raise (TypeError "'NoneType' object is not iterable")
  end.

(** One request against the database file: open a connection, run the
    handler, and keep what was committed; a connection that is dropped
    without [commit] leaves the file as it was. *)
Definition serve {A : Type} (handler : t A) (db : database)
    : outcome A * database :=
  let '(o, c) := handler {| durable := db; working := db |} in
  (o, durable c).

End Request.

Notation "x <- m ;; k" := (Request.bind m (fun x => k))
  (at level 61, m at next level, right associativity).
Notation "m ;;; k" := (Request.bind m (fun _ => k))
  (at level 61, right associativity).

(* ================================================================= *)
(** ** The per-system replication view *)





(* ================================================================= *)
(** ** Alert log *)

(** The row an UPDATE with [WHERE id = j] leaves in place of [a]. *)
Definition updated (j : Z) (set : alert_row -> alert_row) (a : alert_row)
    : alert_row :=
  if a_id a =? j then set a else a.

(** [UPDATE alerts SET ... WHERE id = ?] with its [cursor.rowcount]. *)
Definition update_alert (alert_id : Z) (set : alert_row -> alert_row)
    (db : database) : database * nat :=
  ({| systems := systems db;
      metrics := metrics db;
      alerts := map (updated alert_id set) (alerts db) |},
   List.length (filter (fun a => a_id a =? alert_id) (alerts db))).

Definition set_acknowledged (a : alert_row) : alert_row :=
  {| a_id := a_id a; a_system_id := a_system_id a;
     a_timestamp := a_timestamp a; a_severity := a_severity a;
     a_message := a_message a;
     a_acknowledged := true; a_ticket_id := a_ticket_id a |}.

Definition set_ticket (ticket_id : string) (a : alert_row) : alert_row :=
  {| a_id := a_id a; a_system_id := a_system_id a;
     a_timestamp := a_timestamp a; a_severity := a_severity a;
     a_message := a_message a;
     a_acknowledged := true; a_ticket_id := Some ticket_id |}.

(** [{"status": "ok", "alert_id": alert_id}] *)
Record ack_response : Type := { ack_alert_id : Z }.

(** [acknowledge_alert] *)
Definition acknowledge_alert (alert_id : Z) : Request.t ack_response :=
  rowcount <- Request.execute (update_alert alert_id set_acknowledged) ;;
  if (rowcount =? 0)%nat then
    Request.close ;;;
    Request.raise (HTTPException 404 "Alert not found")
  else
    Request.commit ;;;
    Request.close ;;;
    Request.ret {| ack_alert_id := alert_id |}.

(** [{"status": "ok", "ticket_id": ..., "psa": ..., "message": ...}] *)
Record ticket_response : Type := {
  tr_ticket_id : string;
  tr_psa : string
}.

(** [create_ticket] *)
Definition create_ticket (alert_id : Z) (psa : string)
    : Request.t ticket_response :=
  let mock_ticket_id :=
    (Py.upper psa ++ "-" ++ Py.str_of_int alert_id ++ "-001")%string in
  Request.execute (update_alert alert_id (set_ticket mock_ticket_id)) ;;;
  Request.commit ;;;
  Request.close ;;;
  Request.ret {| tr_ticket_id := mock_ticket_id; tr_psa := psa |}.

(* ================================================================= *)
(** ** Ingestion webhook *)

Record SystemInfo : Type := {
  si_id : string;
  si_name : string;
  si_hostname : option string;
  si_version : option string;
  si_client_name : option string
}.

Record MetricData : Type := {
  md_system_id : string;
  md_metric_type : string;
  md_metric_name : string;
  md_value : Q;
  md_unit : option string;
  md_metadata : option json_dict
}.

Record AlertData : Type := {
  ad_system_id : string;
  ad_severity : string;
  ad_message : string
}.

(** [Optional[List[...]] = []]: a body may carry [null] for either list. *)
Record WebhookPayload : Type := {
  system : SystemInfo;
  payload_metrics : option (list MetricData);
  payload_alerts : option (list AlertData)
}.

(** The next AUTOINCREMENT key: one more than the largest key in use (no
    statement of the program deletes a row). *)
Definition next_id (ids : list Z) : Z := 1 + fold_right Z.max 0 ids.

(** [INSERT INTO systems ... ON CONFLICT(id) DO UPDATE SET ...] *)
Definition upsert_system (s : SystemInfo) (now : Z) (db : database)
    : database * nat :=
  let row := {| sys_id := si_id s; sys_name := si_name s;
                sys_hostname := si_hostname s; sys_version := si_version s;
                sys_last_seen := now; sys_client_name := si_client_name s |} in
  ({| systems :=
        if existsb (fun r => (sys_id r =? si_id s)%string) (systems db)
        then map (fun r => if (sys_id r =? si_id s)%string then row else r)
                 (systems db)
        else systems db ++ [row];
      metrics := metrics db;
      alerts := alerts db |}, 1%nat).

(** [json.dumps(metric.metadata) if metric.metadata else None] *)
Definition stored_metadata (md : option json_dict) : option json_dict :=
  match md with
  | None => None
  | Some [] => None
  | Some d => Some d
  end.

(** [INSERT INTO metrics (system_id, metric_type, metric_name, value, unit,
    metadata)]; the timestamp column takes its default. *)
Definition insert_metric (metric : MetricData) (now : Z) (db : database)
    : database * nat :=
  ({| systems := systems db;
      metrics := metrics db ++
        [{| m_id := next_id (map m_id (metrics db));
            m_system_id := md_system_id metric;
            m_timestamp := now;
            m_metric_type := md_metric_type metric;
            m_metric_name := md_metric_name metric;
            m_value := md_value metric;
            m_unit := md_unit metric;
            m_metadata := stored_metadata (md_metadata metric) |}];
      alerts := alerts db |}, 1%nat).

(** [INSERT INTO alerts (system_id, severity, message)] *)
Definition insert_alert (alert : AlertData) (now : Z) (db : database)
    : database * nat :=
  ({| systems := systems db;
      metrics := metrics db;
      alerts := alerts db ++
        [{| a_id := next_id (map a_id (alerts db));
            a_system_id := ad_system_id alert;
            a_timestamp := now;
            a_severity := ad_severity alert;
            a_message := ad_message alert;
            a_acknowledged := false;
            a_ticket_id := None |}] |}, 1%nat).

(** [{"status": "ok", "metrics_received": ..., "alerts_received": ...}] *)
Record webhook_response : Type := {
  metrics_received : nat;
  alerts_received : nat
}.

(** [receive_metrics]; [now] is the clock of the request. *)
Definition receive_metrics (payload : WebhookPayload) (now : Z)
    : Request.t webhook_response :=
  Request.execute (upsert_system (system payload) now) ;;;
  ms <- Request.iterable (payload_metrics payload) ;;
  Request.for_each ms
    (fun metric => Request.execute (insert_metric metric now) ;;; Request.ret tt) ;;;
  als <- Request.iterable (payload_alerts payload) ;;
  Request.for_each als
    (fun alert => Request.execute (insert_alert alert now) ;;; Request.ret tt) ;;;
  Request.commit ;;;
  Request.close ;;;
  Request.ret {| metrics_received := List.length ms;
                 alerts_received := List.length als |}.

(** The operations of the program that write the alert table. *)
Inductive alert_op : Type :=
| OpAcknowledge (alert_id : Z)
| OpCreateTicket (alert_id : Z) (psa : string)
| OpIngest (payload : WebhookPayload) (now : Z).

Definition run_op (op : alert_op) (db : database) : database :=
  match op with
  | OpAcknowledge i => snd (Request.serve (acknowledge_alert i) db)
  | OpCreateTicket i psa => snd (Request.serve (create_ticket i psa) db)
  | OpIngest p now => snd (Request.serve (receive_metrics p now) db)
  end.

(** [SELECT acknowledged FROM alerts WHERE id = ?] *)
Definition alert_acknowledged (alert_id : Z) (db : database) : option bool :=
  option_map a_acknowledged
    (find (fun a => a_id a =? alert_id) (alerts db)).

Definition alert_ticket (alert_id : Z) (db : database) : option (option string) :=
  option_map a_ticket_id
    (find (fun a => a_id a =? alert_id) (alerts db)).

(* ================================================================= *)
(** ** What it means for a batch to be recorded *)

Definition system_row_of (s : SystemInfo) (now : Z) : system_row :=
  {| sys_id := si_id s; sys_name := si_name s;
     sys_hostname := si_hostname s; sys_version := si_version s;
     sys_last_seen := now; sys_client_name := si_client_name s |}.

(** [row] is the metrics row that holds the fact [md], written at [now]. *)
Definition metric_stored (now : Z) (md : MetricData) (row : metric_row) : Prop :=
  m_system_id row = md_system_id md /\
  m_timestamp row = now /\
  m_metric_type row = md_metric_type md /\
  m_metric_name row = md_metric_name md /\
  m_value row = md_value md /\
  m_unit row = md_unit md /\
  m_metadata row = stored_metadata (md_metadata md).

(** [row] is the alerts row that holds the fact [ad], written at [now]. *)
Definition alert_stored (now : Z) (ad : AlertData) (row : alert_row) : Prop :=
  a_system_id row = ad_system_id ad /\
  a_timestamp row = now /\
  a_severity row = ad_severity ad /\
  a_message row = ad_message ad /\
  a_acknowledged row = false /\
  a_ticket_id row = None.

(** The uncommitted state of a connection once every statement of the batch
    has run. *)
Definition batch_applied (s : SystemInfo) (ms : list MetricData)
    (als : list AlertData) (now : Z) (db : database) : database :=
  fold_left (fun w a => fst (insert_alert a now w)) als
    (fold_left (fun w m => fst (insert_metric m now w)) ms
       (fst (upsert_system s now db))).

(* ================================================================= *)
(** ** History and entity discovery: what the grouping loop leaves *)

(** Whether a row's name decodes to the entity [eid]. *)
Definition entity_is (split : string -> string * string) (eid : string)
    (m : metric_row) : bool :=
  (fst (split (m_metric_name m)) =? eid)%string.

(** The point a row adds to its entity's ['history']. *)
Definition history_point_of (split : string -> string * string)
    (m : metric_row) : history_point :=
  {| hp_attribute := snd (split (m_metric_name m));
     hp_value := m_value m;
     hp_timestamp := m_timestamp m |}.

(** [acc[eid]['history']], when the key is present. *)
Definition history_of (acc : list (string * entity_entry)) (eid : string)
    : option (list history_point) :=
  option_map e_history (dict_get eid acc).

(** The entry of [eid] in the list an endpoint returns. *)
Definition entry_of (out : list entity_entry) (eid : string)
    : option entity_entry :=
  find (fun e => (e_id e =? eid)%string) out.

(** Keys occur once, at both levels of the dictionary the loop builds. *)
Definition distinct_keys (acc : list (string * entity_entry)) : Prop :=
  NoDup (map fst acc) /\
  Forall (fun ke => NoDup (map fst (e_metrics (snd ke)))) acc.

(* ================================================================= *)
(** ** Read endpoints over systems and alerts *)

(** [ORDER BY name] *)
Definition by_sys_name (a b : system_row) : bool :=
  match String.compare (sys_name a) (sys_name b) with
  | Gt => false
  | _ => true
  end.

(** [get_systems]: the rows the endpoint may answer with. *)
Definition get_systems (db : database) (rows : list system_row) : Prop :=
  fetchall (systems db) by_sys_name rows.

(** The columns of an alert that no statement of the program updates. *)
Definition alert_fact (a : alert_row) : Z * string * Z * string * string :=
  (a_id a, a_system_id a, a_timestamp a, a_severity a, a_message a).

(** Keys are unique in every table: what PRIMARY KEY asks of each. *)
Definition unique_keys (db : database) : Prop :=
  NoDup (map sys_id (systems db)) /\
  NoDup (map m_id (metrics db)) /\
  NoDup (map a_id (alerts db)).

(** The database after a sequence of write requests. *)
Definition run_ops (ops : list alert_op) (db : database) : database :=
  fold_left (fun d op => run_op op d) ops db.

(* ================================================================= *)
(** ** [get_alerts] and [get_dashboard_summary] *)

(** A row of [alerts a JOIN systems s ON a.system_id = s.id]. *)
Definition alert_joined_row : Type := alert_row * system_row.

Definition join_alert_systems (db : database) : list alert_joined_row :=
  flat_map (fun a => map (pair a)
                       (filter (fun s => (sys_id s =? a_system_id a)%string)
                               (systems db)))
           (alerts db).

(** [WHERE a.acknowledged = ?], added when [acknowledged is not None]. *)
Definition alerts_where (acknowledged : option bool) (r : alert_joined_row)
    : bool :=
  match acknowledged with
  | Some b => Bool.eqb (a_acknowledged (fst r)) b
  | None => true
  end.

(** [ORDER BY a.timestamp DESC] *)
Definition by_alert_time_desc (a b : alert_joined_row) : bool :=
  a_timestamp (fst b) <=? a_timestamp (fst a).

(** [get_alerts]: the rows the endpoint may answer with. *)
Definition alerts_query (db : database) (acknowledged : option bool)
    (rows : list alert_joined_row) : Prop :=
  fetchall (filter (alerts_where acknowledged) (join_alert_systems db))
           by_alert_time_desc rows.

(** [SELECT a.*, s.name as system_name]: one dictionary of the answer. *)
Record listed_alert : Type := {
  la_alert : alert_row;
  la_system_name : string
}.

Definition get_alerts (rows : list alert_joined_row) : list listed_alert :=
  map (fun r => {| la_alert := fst r; la_system_name := sys_name (snd r) |})
      rows.

(** Whether the join finds a system for the alert. *)
Definition registered (db : database) (a : alert_row) : bool :=
  existsb (fun s => (sys_id s =? a_system_id a)%string) (systems db).

(** [SELECT k, COUNT( * ) ... GROUP BY k]: one row for each distinct value of
    [k], with the number of rows that carry it. *)
Definition group_count (keys : list string) : list (string * Z) :=
  map (fun k => (k, Z.of_nat (count_occ string_dec keys k)))
      (nodup string_dec keys).

(** [d[k] = v] *)
Definition dict_set {V : Type} (k : string) (v : V) (d : list (string * V))
    : list (string * V) :=
  if dict_mem k d then dict_update k (fun _ => v) d else d ++ [(k, v)].

(** [dict(pairs)] *)
Definition dict_of_pairs {V : Type} (pairs : list (string * V))
    : list (string * V) :=
  fold_left (fun d kv => dict_set (fst kv) (snd kv) d) pairs [].

(** [d.get(k, default)] *)
Definition dict_get_default {V : Type} (k : string) (default : V)
    (d : list (string * V)) : V :=
  match dict_get k d with Some v => v | None => default end.

(** [last_seen > datetime('now', '-1 hour')].  The column holds
    [datetime.utcnow().isoformat()], text of the form
    [YYYY-MM-DDTHH:MM:SS], and the bound is text of the form
    [YYYY-MM-DD HH:MM:SS]; the two are compared as text: the ten characters
    of the date decide, and on equal dates the letter [T] sorts after the
    space.  A timestamp in seconds falls on day [t / 86400]. *)
Definition seen_after (now : Z) (s : system_row) : bool :=
  Sql.hours_ago now 1 / 86400 <=? sys_last_seen s / 86400.

(** [alerts_by_severity] *)
Definition alerts_by_severity (db : database) : list (string * Z) :=
  dict_of_pairs
    (group_count
       (map a_severity (filter (fun a => negb (a_acknowledged a)) (alerts db)))).

(** The dictionary [get_dashboard_summary] returns, its ['alerts'] entry
    flattened; ['total_storage_tb'] is a floating-point quotient and is not
    part of the record. *)
Record dashboard_summary : Type := {
  total_systems : Z;
  healthy_systems : Z;
  stale_systems : Z;
  alerts_critical : Z;
  alerts_warning : Z;
  alerts_info : Z
}.

Definition get_dashboard_summary (db : database) (now : Z)
    : dashboard_summary :=
  let total_systems := Z.of_nat (List.length (systems db)) in
  let healthy_systems :=
    Z.of_nat (List.length (filter (seen_after now) (systems db))) in
  let alerts_by_severity := alerts_by_severity db in
  {| total_systems := total_systems;
     healthy_systems := healthy_systems;
     stale_systems := total_systems - healthy_systems;
     alerts_critical := dict_get_default "critical" 0 alerts_by_severity;
     alerts_warning := dict_get_default "warning" 0 alerts_by_severity;
     alerts_info := dict_get_default "info" 0 alerts_by_severity |}.

(** The number of unacknowledged alerts of one severity in the table. *)
Definition unacknowledged (sev : string) (db : database) : Z :=
  Z.of_nat (List.length
    (filter (fun a => negb (a_acknowledged a) && (a_severity a =? sev)%string)
            (alerts db))).

(** The number of entries of one severity in an answer of [get_alerts]. *)
Definition listed_count (sev : string) (out : list listed_alert) : Z :=
  Z.of_nat (List.length
    (filter (fun l => (a_severity (la_alert l) =? sev)%string) out)).

(* ================================================================= *)
(** ** Users: authentication and user management *)

(** Row of [users]. *)
Record user_row : Type := {
  u_id : Z;
  u_email : string;
  u_hashed_password : string;
  u_full_name : option string;
  u_role : string;
  u_is_active : bool;
  u_must_change_password : bool;
  u_created_at : Z;
  u_created_by : option Z
}.

Record UserCreate : Type := {
  uc_email : string;
  uc_full_name : option string;
  uc_role : string;
  uc_password : string
}.

Record UserUpdate : Type := {
  uu_full_name : option string;
  uu_role : option string;
  uu_is_active : option bool
}.

Record UserResponse : Type := {
  ur_id : Z;
  ur_email : string;
  ur_full_name : option string;
  ur_role : string;
  ur_is_active : bool;
  ur_created_at : Z
}.

Record PasswordChange : Type := {
  pc_current_password : string;
  pc_new_password : string
}.

(** [UserResponse(id=u["id"], ...)] *)
Definition user_response (u : user_row) : UserResponse :=
  {| ur_id := u_id u; ur_email := u_email u; ur_full_name := u_full_name u;
     ur_role := u_role u; ur_is_active := u_is_active u;
     ur_created_at := u_created_at u |}.

(** [get_user_by_email]: [SELECT * FROM users WHERE email = ?], [fetchone]. *)
Definition get_user_by_email (email : string) (users : list user_row)
    : option user_row :=
  find (fun u => (u_email u =? email)%string) users.

(** [get_user_by_id] *)
Definition get_user_by_id (user_id : Z) (users : list user_row)
    : option user_row :=
  find (fun u => u_id u =? user_id) users.

(** [get_current_user]; [sub] is the ["sub"] entry of the decoded token,
    [None] when [jwt.decode] rejects the token or the entry is missing. *)
Definition get_current_user (sub : option string) (users : list user_row)
    : outcome user_row :=
  match sub with
  | None => Raised (HTTPException 401 "Could not validate credentials")
  | Some email =>
      match get_user_by_email email users with
      | None => Raised (HTTPException 401 "Could not validate credentials")
      | Some user =>
          if negb (u_is_active user)
          then Raised (HTTPException 400 "Inactive user")
          else Returned user
      end
  end.

(** [require_role(allowed_roles)] *)
Definition require_role (allowed_roles : list string) (sub : option string)
    (users : list user_row) : outcome user_row :=
  match get_current_user sub users with
  | Raised e => Raised e
  | Returned current_user =>
      if negb (existsb (String.eqb (u_role current_user)) allowed_roles)
      then Raised (HTTPException 403 "Insufficient permissions")
      else Returned current_user
  end.

(** [seed_admin_user]; [hashed] is what [get_password_hash("admin")]
    returned, [now] the clock. *)
Definition seed_admin_user (hashed : string) (now : Z)
    (users : list user_row) : list user_row :=
  if (List.length users =? 0)%nat then
    users ++
    [{| u_id := next_id (map u_id users);
        u_email := "admin@truenas-mon.local";
        u_hashed_password := hashed;
        u_full_name := Some "Administrator";
        u_role := "admin";
        u_is_active := true;
        u_must_change_password := true;
        u_created_at := now;
        u_created_by := None |}]
  else users.

(** [UPDATE users SET ... WHERE id = ?] *)
Definition update_users (user_id : Z) (set : user_row -> user_row)
    (users : list user_row) : list user_row :=
  map (fun u => if u_id u =? user_id then set u else u) users.

(** [create_user]; [hashed_password] is what [get_password_hash] returned
    for the password of the request. *)
Definition create_user (user_data : UserCreate) (hashed_password : string)
    (now : Z) (current_user : user_row) (users : list user_row)
    : outcome UserResponse * list user_row :=
  match get_user_by_email (uc_email user_data) users with
  | Some _ => (Raised (HTTPException 400 "Email already registered"), users)
  | None =>
      if negb (existsb (String.eqb (uc_role user_data))
                       ["admin"; "operator"; "viewer"])
      then (Raised (HTTPException 400
                      "Invalid role. Must be admin, operator, or viewer"),
            users)
      else
        let user_id := next_id (map u_id users) in
        let users' :=
          users ++
          [{| u_id := user_id;
              u_email := uc_email user_data;
              u_hashed_password := hashed_password;
              u_full_name := uc_full_name user_data;
              u_role := uc_role user_data;
              u_is_active := true;
              u_must_change_password := false;
              u_created_at := now;
              u_created_by := Some (u_id current_user) |}] in
        match get_user_by_id user_id users' with
        | Some new_user => (Returned (user_response new_user), users')
        | None =>
            (Raised (TypeError "'NoneType' object is not subscriptable"),
             users')
        end
  end.

(** The SET list [update_user] builds, applied to one row. *)
Definition apply_update (user_data : UserUpdate) (u : user_row) : user_row :=
  {| u_id := u_id u;
     u_email := u_email u;
     u_hashed_password := u_hashed_password u;
     u_full_name := match uu_full_name user_data with
                    | Some n => Some n
                    | None => u_full_name u
                    end;
     u_role := match uu_role user_data with
               | Some r => r
               | None => u_role u
               end;
     u_is_active := match uu_is_active user_data with
                    | Some b => b
                    | None => u_is_active u
                    end;
     u_must_change_password := u_must_change_password u;
     u_created_at := u_created_at u;
     u_created_by := u_created_by u |}.

(** The checks [update_user] runs on [user_data.role] when it is given. *)
Definition check_role (user_id : Z) (user_data : UserUpdate)
    (current_user : user_row) : option exn :=
  match uu_role user_data with
  | Some role =>
      if negb (existsb (String.eqb role) ["admin"; "operator"; "viewer"])
      then Some (HTTPException 400 "Invalid role")
      else if (user_id =? u_id current_user) && negb (role =? "admin")%string
           then Some (HTTPException 400 "Cannot change your own role")
           else None
  | None => None
  end.

(** [not updates] *)
Definition no_updates (user_data : UserUpdate) : bool :=
  match uu_full_name user_data, uu_role user_data, uu_is_active user_data with
  | None, None, None => true
  | _, _, _ => false
  end.

(** [update_user] *)
Definition update_user (user_id : Z) (user_data : UserUpdate)
    (current_user : user_row) (users : list user_row)
    : outcome UserResponse * list user_row :=
  match get_user_by_id user_id users with
  | None => (Raised (HTTPException 404 "User not found"), users)
  | Some _ =>
      if (user_id =? u_id current_user) &&
         match uu_is_active user_data with
         | Some false => true
         | _ => false
         end
      then (Raised (HTTPException 400 "Cannot deactivate your own account"),
            users)
      else
        match check_role user_id user_data current_user with
        | Some e => (Raised e, users)
        | None =>
            if no_updates user_data
            then (Raised (HTTPException 400 "No fields to update"), users)
            else
              let users' :=
                update_users user_id (apply_update user_data) users in
              match get_user_by_id user_id users' with
              | Some updated_user =>
                  (Returned (user_response updated_user), users')
              | None =>
                  (Raised (TypeError "'NoneType' object is not subscriptable"),
                   users')
              end
        end
  end.

Definition set_inactive (u : user_row) : user_row :=
  {| u_id := u_id u; u_email := u_email u;
     u_hashed_password := u_hashed_password u;
     u_full_name := u_full_name u; u_role := u_role u;
     u_is_active := false;
     u_must_change_password := u_must_change_password u;
     u_created_at := u_created_at u; u_created_by := u_created_by u |}.

(** [delete_user] *)
Definition delete_user (user_id : Z) (current_user : user_row)
    (users : list user_row) : outcome unit * list user_row :=
  match get_user_by_id user_id users with
  | None => (Raised (HTTPException 404 "User not found"), users)
  | Some _ =>
      if user_id =? u_id current_user
      then (Raised (HTTPException 400 "Cannot delete your own account"), users)
      else (Returned tt, update_users user_id set_inactive users)
  end.

Definition set_password (hashed : string) (u : user_row) : user_row :=
  {| u_id := u_id u; u_email := u_email u;
     u_hashed_password := hashed;
     u_full_name := u_full_name u; u_role := u_role u;
     u_is_active := u_is_active u;
     u_must_change_password := u_must_change_password u;
     u_created_at := u_created_at u; u_created_by := u_created_by u |}.

(** [reset_user_password]; [hashed] is what [get_password_hash] returned
    for the temporary password. *)
Definition reset_user_password (user_id : Z) (hashed : string)
    (users : list user_row) : outcome unit * list user_row :=
  match get_user_by_id user_id users with
  | None => (Raised (HTTPException 404 "User not found"), users)
  | Some _ => (Returned tt, update_users user_id (set_password hashed) users)
  end.

Definition set_changed_password (new_hash : string) (u : user_row) : user_row :=
  {| u_id := u_id u; u_email := u_email u;
     u_hashed_password := new_hash;
     u_full_name := u_full_name u; u_role := u_role u;
     u_is_active := u_is_active u;
     u_must_change_password := false;
     u_created_at := u_created_at u; u_created_by := u_created_by u |}.

(** What [login] puts in the token and in its answer. *)
Record login_response : Type := {
  token_sub : string;
  token_role : string;
  lr_must_change_password : bool
}.

Section Authentication.

(** [bcrypt.checkpw] *)
Variable checkpw : string -> string -> bool.

(** [verify_password] *)
Definition verify_password (plain_password hashed_password : string) : bool :=
  checkpw plain_password hashed_password.

(** [authenticate_user] *)
Definition authenticate_user (email password : string)
    (users : list user_row) : option user_row :=
  match get_user_by_email email users with
  | None => None
  | Some user =>
      if negb (verify_password password (u_hashed_password user)) then None
      else if negb (u_is_active user) then None
      else Some user
  end.

(** [login] *)
Definition login (username password : string) (users : list user_row)
    : outcome login_response :=
  match authenticate_user username password users with
  | None => Raised (HTTPException 401 "Incorrect email or password")
  | Some user =>
      Returned {| token_sub := u_email user; token_role := u_role user;
                  lr_must_change_password := u_must_change_password user |}
  end.

(** [change_password]; [new_hash] is what [get_password_hash] returned for
    the new password. *)
Definition change_password (password_data : PasswordChange)
    (new_hash : string) (current_user : user_row) (users : list user_row)
    : outcome unit * list user_row :=
  if negb (verify_password (pc_current_password password_data)
                           (u_hashed_password current_user))
  then (Raised (HTTPException 400 "Current password is incorrect"), users)
  else if (Py.len (pc_new_password password_data) <? 8)%nat
  then (Raised (HTTPException 400
                  "Password must be at least 8 characters long"), users)
  else (Returned tt,
        update_users (u_id current_user) (set_changed_password new_hash) users).

(** A request to one of the endpoints that write the users table, with
    the values its call-outs returned. *)
Inductive user_request : Type :=
| ChangePassword (password_data : PasswordChange) (new_hash : string)
| CreateUser (user_data : UserCreate) (hashed_password : string) (now : Z)
| UpdateUser (user_id : Z) (user_data : UserUpdate)
| DeleteUser (user_id : Z)
| ResetUserPassword (user_id : Z) (hashed : string).

(** The exception a request ended with, if any. *)
Definition status {A : Type} (r : outcome A * list user_row)
    : option exn * list user_row :=
  match r with
  | (Returned _, users) => (None, users)
  | (Raised e, users) => (Some e, users)
  end.

(** [Depends(require_role(["admin"]))] in front of a handler. *)
Definition as_admin (sub : option string) (users : list user_row)
    (handler : user_row -> option exn * list user_row)
    : option exn * list user_row :=
  match require_role ["admin"] sub users with
  | Raised e => (Some e, users)
  | Returned current_user => handler current_user
  end.

(** An endpoint: its dependency ([get_current_user] or
    [require_role(["admin"])]) and then its handler. *)
Definition serve_user (sub : option string) (req : user_request)
    (users : list user_row) : option exn * list user_row :=
  match req with
  | ChangePassword password_data new_hash =>
      match get_current_user sub users with
      | Raised e => (Some e, users)
      | Returned current_user =>
          status (change_password password_data new_hash current_user users)
      end
  | CreateUser user_data hashed_password now =>
      as_admin sub users (fun current_user =>
        status (create_user user_data hashed_password now current_user users))
  | UpdateUser user_id user_data =>
      as_admin sub users (fun current_user =>
        status (update_user user_id user_data current_user users))
  | DeleteUser user_id =>
      as_admin sub users (fun current_user =>
        status (delete_user user_id current_user users))
  | ResetUserPassword user_id hashed =>
      as_admin sub users (fun _ =>
        status (reset_user_password user_id hashed users))
  end.

(** A sequence of requests, each with the subject of its token. *)
Definition serve_users (reqs : list (option string * user_request))
    (users : list user_row) : list user_row :=
  fold_left (fun us r => snd (serve_user (fst r) (snd r) us)) reqs users.

End Authentication.

(** What the schema and the handlers' checks ask of the table:
    [id INTEGER PRIMARY KEY], [email TEXT UNIQUE], and a role of the three. *)
Definition users_ok (users : list user_row) : Prop :=
  NoDup (map u_id users) /\
  NoDup (map u_email users) /\
  Forall (fun u => In (u_role u) ["admin"; "operator"; "viewer"]) users.

(** Some user of the table can manage users. *)
Definition active_admin (u : user_row) : bool :=
  u_is_active u && (u_role u =? "admin")%string.

(** What one request does to the table: every row keeps its key, its email
    and its place, a row changes only as the statement of the request sets
    it, and at most one row is added. *)
Inductive row_change (sub : option string) (users : list user_row)
    : user_request -> user_row -> user_row -> Prop :=
| change_none req u : row_change sub users req u u
| change_password_of pd new_hash cu u :
    get_current_user sub users = Returned cu ->
    u_id u = u_id cu ->
    row_change sub users (ChangePassword pd new_hash) u
               (set_changed_password new_hash u)
| change_update user_id user_data cu u :
    require_role ["admin"] sub users = Returned cu ->
    u_id u = user_id ->
    (user_id = u_id cu -> uu_is_active user_data <> Some false) ->
    check_role user_id user_data cu = None ->
    row_change sub users (UpdateUser user_id user_data) u
               (apply_update user_data u)
| change_delete user_id cu u :
    require_role ["admin"] sub users = Returned cu ->
    u_id u = user_id -> user_id <> u_id cu ->
    row_change sub users (DeleteUser user_id) u (set_inactive u)
| change_reset user_id hashed u :
    u_id u = user_id ->
    row_change sub users (ResetUserPassword user_id hashed) u
               (set_password hashed u).

(** The row a request may add. *)
Definition added_by (sub : option string) (users : list user_row)
    (req : user_request) (row : user_row) : Prop :=
  exists user_data hashed_password now cu,
    req = CreateUser user_data hashed_password now /\
    require_role ["admin"] sub users = Returned cu /\
    get_user_by_email (uc_email user_data) users = None /\
    In (uc_role user_data) ["admin"; "operator"; "viewer"] /\
    row = {| u_id := next_id (map u_id users);
             u_email := uc_email user_data;
             u_hashed_password := hashed_password;
             u_full_name := uc_full_name user_data;
             u_role := uc_role user_data;
             u_is_active := true;
             u_must_change_password := false;
             u_created_at := now;
             u_created_by := Some (u_id cu) |}.

(* ================================================================= *)
(** ** The fleet views, by resource kind *)

(** [get_all_disks], [get_all_replication] and [get_all_pools] run the same
    loop with the decoder of their kind. *)
Definition fleet_project (k : resource_kind) (rows : list joined_row)
    : list fleet_system :=
  map snd (fleet_group (decode k) rows).

(** The joined row an entry of a fleet view took its system from. *)
Definition fleet_origin (rows : list joined_row) (fs : fleet_system) : Prop :=
  exists r, In r rows /\ m_system_id (fst r) = fs_system_id fs /\
            fs_system_name fs = sys_name (snd r) /\
            fs_client_name fs = sys_client_name (snd r).

(* ================================================================= *)
(** ** Single-row queries of the summaries: hottest disk, last success *)

(** [s.replace(old, new)] for a non-empty [old]: occurrences are replaced
    from the left and do not overlap; [skip] counts the characters of an
    occurrence still to be dropped. *)
Fixpoint replace_from (old new : string) (skip : nat) (s : string) : string :=
  match s with
  | EmptyString => EmptyString
  | String c s' =>
      match skip with
      | S n => replace_from old new n s'
      | O =>
          if String.prefix old s
          then (new ++ replace_from old new (String.length old - 1) s')%string
          else String c (replace_from old new 0 s')
      end
  end.

Definition str_replace (old new s : string) : string :=
  replace_from old new 0 s.

(** WHERE clause of the hottest-disk query of [get_disks_summary]. *)
Definition hottest_where (now : Z) (m : metric_row) : bool :=
  is_type "disk" m && Sql.like "%_temperature" (m_metric_name m) &&
  newer_than now 1 m.

(** [ORDER BY value DESC] *)
Definition by_value_desc (a b : metric_row) : bool :=
  Qle_bool (m_value b) (m_value a).

(** The rows the hottest-disk query may answer with, before [LIMIT 1]. *)
Definition hottest_query (db : database) (now : Z) (rows : list metric_row)
    : Prop :=
  fetchall (filter (hottest_where now) (metrics db)) by_value_desc rows.

(** [{'disk': ..., 'temperature': ..., 'system_id': ...}] *)
Record hottest : Type := {
  hd_disk : string;
  hd_temperature : Q;
  hd_system_id : string
}.

(** [hottest_disk] of [get_disks_summary]: [fetchone()] after [LIMIT 1]. *)
Definition hottest_disk (rows : list metric_row) : option hottest :=
  match rows with
  | [] => None
  | m :: _ =>
      Some {| hd_disk := str_replace "_temperature" "" (m_metric_name m);
              hd_temperature := m_value m;
              hd_system_id := m_system_id m |}
  end.

(** WHERE clause of the last-success query of [get_replication_summary]. *)
Definition last_success_where (now : Z) (m : metric_row) : bool :=
  is_type "replication" m && Sql.like "%_status" (m_metric_name m) &&
  Qeq_bool (m_value m) (2 # 1) && (Sql.days_ago now 7 <? m_timestamp m).

Definition last_success_query (db : database) (now : Z)
    (rows : list metric_row) : Prop :=
  fetchall (filter (last_success_where now) (metrics db)) by_time_desc rows.

(** [last_success_row[3] if last_success_row else None] *)
Definition last_success (rows : list metric_row) : option Z :=
  match rows with
  | [] => None
  | m :: _ => Some (m_timestamp m)
  end.

(* ================================================================= *)
(** ** The rules of the queries, read as properties of one row *)

(** A windowed rule: the metric types it reads, the [LIKE] pattern of the
    metric name when it has one, the test on the value, and the length of
    its window in hours. *)
Record windowed_rule : Type := {
  rule_types : list string;
  rule_pattern : option string;
  rule_value : Q -> Prop;
  rule_hours : Z
}.

Definition any_value (_ : Q) : Prop := True.

(** A row satisfies a windowed rule at [now]: its timestamp is strictly
    later than [now] minus the window. *)
Definition satisfies (now : Z) (r : windowed_rule) (m : metric_row) : Prop :=
  In (m_metric_type m) (rule_types r) /\
  match rule_pattern r with
  | Some pat => Sql.like pat (m_metric_name m) = true
  | None => True
  end /\
  rule_value r (m_value m) /\
  now - 3600 * rule_hours r < m_timestamp m.



(** WHERE clause of the sub-select of the capacity-warning count of
    [get_pools_summary]; the count itself divides two floating-point
    readings and is not modelled. *)
Definition capacity_rows_where (now : Z) (m : metric_row) : bool :=
  is_type "pool" m && Sql.like "%_used" (m_metric_name m) &&
  newer_than now 1 m.

(* ================================================================= *)
(** ** Sample rows and databases for the worked examples *)

Definition mk_metric (id : Z) (system_id : string) (timestamp : Z)
    (metric_type metric_name : string) (value : Q) : metric_row :=
  {| m_id := id; m_system_id := system_id; m_timestamp := timestamp;
     m_metric_type := metric_type; m_metric_name := metric_name;
     m_value := value; m_unit := None; m_metadata := None |}.

Definition metrics_db (rows : list metric_row) : database :=
  {| systems := []; metrics := rows; alerts := [] |}.

(** The clock of the examples, in seconds. *)
Definition t_now : Z := 1000000.

(** A temperature reading taken exactly one hour before [t_now] and one
    taken a second later. *)
Definition boundary_row : metric_row :=
  mk_metric 1 "nas1" (t_now - 3600) "disk" "ada0_temperature" (40 # 1).
Definition inside_row : metric_row :=
  mk_metric 2 "nas1" (t_now - 3599) "disk" "ada0_temperature" (41 # 1).
Definition boundary_db : database := metrics_db [boundary_row; inside_row].

(** One disk that is both hot and failing its SMART check. *)
Definition hot_failing_db : database :=
  metrics_db
    [mk_metric 1 "nas1" (t_now - 60) "disk" "ada0_temperature" (60 # 1);
     mk_metric 2 "nas1" (t_now - 60) "disk" "ada0_smart_status" (0 # 1)].

Definition mk_alert (id : Z) (acknowledged : bool) : alert_row :=
  {| a_id := id; a_system_id := "nas1"; a_timestamp := t_now - 60;
     a_severity := "warning"; a_message := "pool tank is 85% full";
     a_acknowledged := acknowledged; a_ticket_id := None |}.

Definition alerts_db (rows : list alert_row) : database :=
  {| systems := []; metrics := []; alerts := rows |}.

(** A batch for system ["nas1"] whose only metric names a system that was
    never registered. *)
Definition foreign_metric : MetricData :=
  {| md_system_id := "ghost"; md_metric_type := "disk";
     md_metric_name := "ada0_temperature"; md_value := 40 # 1;
     md_unit := Some "C"; md_metadata := None |}.

Definition nas1_info : SystemInfo :=
  {| si_id := "nas1"; si_name := "NAS one"; si_hostname := None;
     si_version := None; si_client_name := None |}.

Definition foreign_batch : WebhookPayload :=
  {| system := nas1_info;
     payload_metrics := Some [foreign_metric];
     payload_alerts := Some [] |}.

(** The same batch with [null] for its alert list. *)
Definition broken_batch : WebhookPayload :=
  {| system := nas1_info;
     payload_metrics := Some [foreign_metric];
     payload_alerts := None |}.

Definition empty_db : database :=
  {| systems := []; metrics := []; alerts := [] |}.

(** Two readings of one disk written within the same second. *)
Definition tie_first : metric_row :=
  mk_metric 1 "nas1" (t_now - 60) "disk" "ada0_temperature" (40 # 1).
Definition tie_second : metric_row :=
  mk_metric 2 "nas1" (t_now - 60) "disk" "ada0_temperature" (50 # 1).
Definition tie_db : database := metrics_db [tie_first; tie_second].

(** A metric named after the bare disk and a newer one with the explicit
    ["_value"] suffix. *)
Definition bare_old : metric_row :=
  mk_metric 1 "nas1" (t_now - 120) "disk" "ada0" (1 # 1).
Definition suffixed_new : metric_row :=
  mk_metric 2 "nas1" (t_now - 60) "disk" "ada0_value" (2 # 1).
Definition shadow_db : database := metrics_db [bare_old; suffixed_new].

(** A disk that read 50 degrees half an hour ago and 40 degrees ten minutes
    ago. *)
Definition hot_old : metric_row :=
  mk_metric 1 "nas1" (t_now - 1800) "disk" "ada0_temperature" (50 # 1).
Definition cool_new : metric_row :=
  mk_metric 2 "nas1" (t_now - 600) "disk" "ada0_temperature" (40 # 1).
Definition cooled_db : database := metrics_db [hot_old; cool_new].

(** Two systems, one hot disk each. *)
Definition two_systems_db : database :=
  metrics_db
    [mk_metric 1 "nas1" (t_now - 60) "disk" "ada0_temperature" (50 # 1);
     mk_metric 2 "nas2" (t_now - 60) "disk" "ada0_temperature" (58 # 1)].

(** The two tied readings in a database where ["nas1"] is registered. *)
Definition nas1_row : system_row :=
  {| sys_id := "nas1"; sys_name := "NAS one"; sys_hostname := None;
     sys_version := None; sys_last_seen := t_now - 60;
     sys_client_name := None |}.

Definition tie_fleet_db : database :=
  {| systems := [nas1_row]; metrics := [tie_first; tie_second]; alerts := [] |}.

(** Two systems whose ids and metric names concatenate to one key. *)
Definition colliding_db : database :=
  metrics_db
    [mk_metric 1 "site" (t_now - 60) "disk" "a_ada0_temperature" (50 # 1);
     mk_metric 2 "site_a" (t_now - 60) "disk" "ada0_temperature" (50 # 1)].

(** A batch of system ["nas1"] with one temperature reading of its own. *)
Definition own_metric : MetricData :=
  {| md_system_id := "nas1"; md_metric_type := "disk";
     md_metric_name := "ada0_temperature"; md_value := 44 # 1;
     md_unit := Some "C"; md_metadata := None |}.

Definition own_batch : WebhookPayload :=
  {| system := nas1_info;
     payload_metrics := Some [own_metric];
     payload_alerts := Some [] |}.

(** The row the batch leaves in a log that held two rows. *)
Definition own_row : metric_row :=
  {| m_id := 3; m_system_id := "nas1"; m_timestamp := t_now;
     m_metric_type := "disk"; m_metric_name := "ada0_temperature";
     m_value := 44 # 1; m_unit := Some "C"; m_metadata := None |}.

(** A registered system with one open warning, and a critical alert that
    names a system no batch ever registered. *)
Definition ghost_alert : alert_row :=
  {| a_id := 2; a_system_id := "ghost"; a_timestamp := t_now - 30;
     a_severity := "critical"; a_message := "pool tank is DEGRADED";
     a_acknowledged := false; a_ticket_id := None |}.

Definition alerts_fleet_db : database :=
  {| systems := [nas1_row]; metrics := [];
     alerts := [mk_alert 1 false; ghost_alert] |}.

(** A system last seen shortly after midnight, looked at late the same
    day: [t_now] is 13:46:40 of its day. *)
Definition seen_at_midnight : system_row :=
  {| sys_id := "nas1"; sys_name := "NAS one"; sys_hostname := None;
     sys_version := None; sys_last_seen := t_now - 49000;
     sys_client_name := None |}.

(** A password check that reads the hash as the password after a fixed
    prefix, for the worked examples. *)
Definition plain_checkpw (plain hashed : string) : bool :=
  (hashed =? "h:" ++ plain)%string.

Definition root_user : user_row :=
  {| u_id := 1; u_email := "admin@truenas-mon.local";
     u_hashed_password := "h:admin"; u_full_name := Some "Administrator";
     u_role := "admin"; u_is_active := true; u_must_change_password := true;
     u_created_at := t_now - 600; u_created_by := None |}.

Definition viewer_user : user_row :=
  {| u_id := 2; u_email := "ops@example.org";
     u_hashed_password := "h:viewer-pass"; u_full_name := None;
     u_role := "viewer"; u_is_active := true; u_must_change_password := false;
     u_created_at := t_now - 300; u_created_by := Some 1 |}.

Definition two_users : list user_row := [root_user; viewer_user].

(** The letter e with an acute accent, two bytes in UTF-8, and a password
    of four of them: eight bytes, four characters. *)
Definition e_acute : string :=
  String (ascii_of_nat 195) (String (ascii_of_nat 169) EmptyString).

Definition short_wide_password : string :=
  (e_acute ++ e_acute ++ e_acute ++ e_acute)%string.

(** Two successful runs of one task in the same second, and an older one. *)
Definition success_db : database :=
  metrics_db
    [mk_metric 1 "nas1" (t_now - 7200) "replication" "offsite_status" (2 # 1);
     mk_metric 2 "nas1" (t_now - 60) "replication" "offsite_status" (2 # 1);
     mk_metric 3 "nas2" (t_now - 60) "replication" "mirror_status" (2 # 1)].

(** One replication task of a registered system whose last run failed. *)
Definition failed_task_db : database :=
  {| systems := [nas1_row];
     metrics :=
       [mk_metric 1 "nas1" (t_now - 60) "replication" "offsite_status" (0 # 1)];
     alerts := [] |}.

(* ================================================================= *)
(** * Properties *)

Section KeyDecoderFacts.

Lemma rsplit1_no_underscore (s : string) :
  Py.has_underscore s = false -> Py.rsplit1 s = [s].
Proof.
  induction s as [|c s IH]; simpl; intros H; [reflexivity|].
  apply orb_false_iff in H as [Hc Hs].
  rewrite (IH Hs), Hc. reflexivity.
Qed.

Lemma rsplit1_last (l r : string) :
  Py.has_underscore r = false ->
  Py.rsplit1 (l ++ String "_" r) = [l; r].
Proof.
  intros Hr. induction l as [|c l IH]; simpl.
  - rewrite (rsplit1_no_underscore r Hr). reflexivity.
  - rewrite IH. reflexivity.
Qed.

Lemma split1_no_underscore (s : string) :
  Py.has_underscore s = false -> Py.split1 s = [s].
Proof.
  induction s as [|c s IH]; simpl; intros H; [reflexivity|].
  apply orb_false_iff in H as [Hc Hs].
  rewrite Hc, (IH Hs). reflexivity.
Qed.

Lemma split1_first (l r : string) :
  Py.has_underscore l = false ->
  Py.split1 (l ++ String "_" r) = [l; r].
Proof.
  induction l as [|c l IH]; simpl; intros H; [reflexivity|].
  apply orb_false_iff in H as [Hc Hl].
  rewrite Hc, (IH Hl). reflexivity.
Qed.

End KeyDecoderFacts.

(** C1. A disk or replication metric name is cut at its last underscore:
    the text before it is the entity id and the text after it, which holds
    no underscore, is the attribute; a name with no underscore is its own
    entity id and its attribute is the sentinel ["value"]. *)
Theorem decode_rightmost_split (k : resource_kind) (l r name : string) :
  k = Disk \/ k = Replication ->
  Py.has_underscore r = false ->
  Py.has_underscore name = false ->
  decode k (l ++ "_" ++ r) = (l, r) /\ decode k name = (name, "value").
Proof.
  intros Hk Hr Hname.
  assert (Hsplit : Py.rsplit1 (l ++ "_" ++ r) = [l; r])
    by (apply rsplit1_last; exact Hr).
  assert (Hnone : Py.rsplit1 name = [name])
    by (apply rsplit1_no_underscore; exact Hname).
  destruct Hk as [-> | ->];
    cbv [decode disk_decode replication_decode]; rewrite Hsplit, Hnone; auto.
Qed.

(** The ambiguous name of the specification: ["ada0_smart_status"] is entity
    ["ada0_smart"], attribute ["status"]. *)
Lemma decode_rightmost_split_witness :
  (Disk = Disk \/ Disk = Replication) /\
  Py.has_underscore "status" = false /\
  Py.has_underscore "ada0" = false /\
  decode Disk "ada0_smart_status" = ("ada0_smart", "status") /\
  decode Disk "ada0" = ("ada0", "value").
Proof.
  split; [left; reflexivity|].
  split; [reflexivity|].
  split; [reflexivity|].
  apply (decode_rightmost_split Disk "ada0_smart" "status" "ada0");
    [left; reflexivity | reflexivity | reflexivity].
Defined.

(** C6. A pool or pool_health metric name is cut at its first underscore:
    the text before it, which holds no underscore, is the pool name and all
    the rest is the attribute; the fleet view splits every name exactly as
    the per-system view does. *)
Theorem decode_leftmost_split (k : resource_kind) (l r name : string) :
  k = Pool \/ k = PoolHealth ->
  Py.has_underscore l = false ->
  decode k (l ++ "_" ++ r) = (l, r) /\
  all_pools_decode (l ++ "_" ++ r) = (l, r) /\
  all_pools_decode name = decode k name.
Proof.
  intros Hk Hl.
  assert (Hsplit : Py.split1 (l ++ "_" ++ r) = [l; r])
    by (apply split1_first; exact Hl).
  destruct Hk as [-> | ->];
    cbv [decode system_pool_decode all_pools_decode]; rewrite Hsplit; auto.
Qed.

Lemma decode_leftmost_split_witness :
  (PoolHealth = Pool \/ PoolHealth = PoolHealth) /\
  Py.has_underscore "tank" = false /\
  decode PoolHealth "tank_scrub_status" = ("tank", "scrub_status") /\
  all_pools_decode "tank_scrub_status" = ("tank", "scrub_status") /\
  all_pools_decode "tank" = decode PoolHealth "tank".
Proof.
  split; [right; reflexivity|].
  split; [reflexivity|].
  apply (decode_leftmost_split PoolHealth "tank" "scrub_status" "tank");
    [right; reflexivity | reflexivity].
Defined.

Section WindowFacts.

Lemma fetchall_In {A : Type} (selected rows : list A) order m :
  fetchall selected order rows -> (In m rows <-> In m selected).
Proof.
  intros [Hperm _]. split; intros H.
  - eapply Permutation_in; [apply Permutation_sym; exact Hperm | exact H].
  - eapply Permutation_in; [exact Hperm | exact H].
Qed.

Lemma newer_than_spec now hours m :
  newer_than now hours m = true <-> now - 3600 * hours < m_timestamp m.
Proof. unfold newer_than, Sql.hours_ago. apply Z.ltb_lt. Qed.

Lemma fetchall_singleton {A : Type} (order : A -> A -> bool) (m : A) :
  fetchall [m] order [m].
Proof.
  split; [apply Permutation_refl|].
  constructor; constructor.
Qed.

End WindowFacts.


Section SummaryFacts.

Lemma clamp_is_max (x : Z) : (if x <? 0 then 0 else x) = Z.max 0 x.
Proof. destruct (Z.ltb_spec x 0); lia. Qed.

Lemma count_distinct_nonneg (l : list string) : 0 <= Sql.count_distinct l.
Proof. unfold Sql.count_distinct. lia. Qed.

End SummaryFacts.

(** C5. The replication and the pool summary report
    [max 0 (total - failures - stale)], and the disk summary subtracts the
    warning counter and the SMART failures (never the critical counter) from
    the total; but the disk summary does not clamp: for one disk that is hot
    and fails its SMART check it reports [healthy_disks = -1]. *)
Theorem healthy_disks_not_clamped :
  (forall db now,
     healthy_tasks (get_replication_summary db now) =
     Z.max 0 (total_tasks (get_replication_summary db now)
              - failed_tasks (get_replication_summary db now)
              - stale_tasks (get_replication_summary db now))) /\
  (forall db now,
     healthy_pools (get_pools_summary db now) =
     Z.max 0 (total_pools (get_pools_summary db now)
              - degraded_pools (get_pools_summary db now)
              - needs_scrub (get_pools_summary db now))) /\
  (forall db now,
     healthy_disks (get_disks_summary db now) =
     total_disks (get_disks_summary db now)
     - warnings (get_disks_summary db now)
     - smart_failures (get_disks_summary db now)) /\
  total_disks (get_disks_summary hot_failing_db t_now) = 1 /\
  warnings (get_disks_summary hot_failing_db t_now) = 1 /\
  smart_failures (get_disks_summary hot_failing_db t_now) = 1 /\
  healthy_disks (get_disks_summary hot_failing_db t_now) = -1.
Proof.
  split; [|split; [|split]].
  - intros db now. unfold get_replication_summary; simpl. apply clamp_is_max.
  - intros db now. unfold get_pools_summary; simpl. apply clamp_is_max.
  - intros db now. reflexivity.
  - repeat split; vm_compute; reflexivity.
Qed.

Section AlertFacts.

Lemma database_eta (db : database) :
  {| systems := systems db; metrics := metrics db; alerts := alerts db |} = db.
Proof. destruct db; reflexivity. Qed.

Lemma update_alert_unknown (alert_id : Z) set (db : database) :
  (forall a, In a (alerts db) -> a_id a <> alert_id) ->
  update_alert alert_id set db = (db, 0%nat).
Proof.
  intros Hno. unfold update_alert.
  assert (Hmap : map (updated alert_id set) (alerts db) = alerts db).
  { rewrite <- (map_id (alerts db)) at 2. apply map_ext_in.
    intros a Ha. unfold updated. destruct (Z.eqb_spec (a_id a) alert_id) as [E|]; [|reflexivity].
    exfalso. exact (Hno a Ha E). }
  assert (Hcnt : filter (fun a => a_id a =? alert_id) (alerts db) = []).
  { revert Hno. generalize (alerts db) as l.
    induction l as [|a l IH]; intros Hno; [reflexivity|]. simpl.
    destruct (Z.eqb_spec (a_id a) alert_id) as [E|].
    - exfalso. apply (Hno a); [left; reflexivity | exact E].
    - apply IH. intros b Hb. apply Hno. right; exact Hb. }
  rewrite Hmap, Hcnt, database_eta. reflexivity.
Qed.

End AlertFacts.

(** C7. On an alert id that no row of the alert table carries, both
    handlers leave the table as it was; [acknowledge_alert] raises 404, but
    [create_ticket] checks no row count and answers with a ticket id. *)
Theorem unknown_alert_id (db : database) (alert_id : Z) (psa : string) :
  (forall a, In a (alerts db) -> a_id a <> alert_id) ->
  Request.serve (acknowledge_alert alert_id) db =
    (Raised (HTTPException 404 "Alert not found"), db) /\
  Request.serve (create_ticket alert_id psa) db =
    (Returned {| tr_ticket_id :=
                   (Py.upper psa ++ "-" ++ Py.str_of_int alert_id ++ "-001")%string;
                 tr_psa := psa |}, db).
Proof.
  intros Hno. split.
  - unfold Request.serve, acknowledge_alert, Request.bind, Request.execute.
    cbn [working durable]. rewrite (update_alert_unknown _ _ _ Hno). reflexivity.
  - unfold Request.serve, create_ticket, Request.bind, Request.execute.
    cbn [working durable]. rewrite (update_alert_unknown _ _ _ Hno). reflexivity.
Qed.

Lemma unknown_alert_id_witness :
  (forall a, In a (alerts (alerts_db [mk_alert 1 false])) -> a_id a <> 7) /\
  Request.serve (acknowledge_alert 7) (alerts_db [mk_alert 1 false]) =
    (Raised (HTTPException 404 "Alert not found"),
     alerts_db [mk_alert 1 false]) /\
  Request.serve (create_ticket 7 "halo") (alerts_db [mk_alert 1 false]) =
    (Returned {| tr_ticket_id := "HALO-7-001"; tr_psa := "halo" |},
     alerts_db [mk_alert 1 false]).
Proof.
  assert (Hno : forall a, In a (alerts (alerts_db [mk_alert 1 false])) ->
                          a_id a <> 7).
  { intros a [<- | []]. vm_compute. discriminate. }
  split; [exact Hno|].
  exact (unknown_alert_id (alerts_db [mk_alert 1 false]) 7 "halo" Hno).
Defined.

Section IngestFacts.

Lemma connection_eta (c : connection) :
  {| durable := durable c; working := working c |} = c.
Proof. destruct c; reflexivity. Qed.

(** A loop of single statements runs them in order on the uncommitted
    state and touches nothing else. *)
Lemma for_each_execute {A : Type} (stmt : A -> database -> database * nat)
    (xs : list A) (c : connection) :
  Request.for_each xs
    (fun x => Request.execute (stmt x) ;;; Request.ret tt) c =
  (Returned tt,
   {| durable := durable c;
      working := fold_left (fun w x => fst (stmt x w)) xs (working c) |}).
Proof.
  revert c. induction xs as [|x xs IH]; intros c.
  - simpl. unfold Request.ret. rewrite connection_eta. reflexivity.
  - cbn [Request.for_each fold_left].
    unfold Request.bind at 1. unfold Request.bind at 1.
    unfold Request.execute at 1.
    destruct (stmt x (working c)) as [w n] eqn:E.
    unfold Request.ret at 1. rewrite IH. reflexivity.
Qed.

(** What one webhook request leaves in the database file. *)
Lemma serve_receive_metrics (payload : WebhookPayload) (now : Z)
    (db : database) :
  Request.serve (receive_metrics payload now) db =
  match payload_metrics payload, payload_alerts payload with
  | Some ms, Some als =>
      (Returned {| metrics_received := List.length ms;
                   alerts_received := List.length als |},
       batch_applied (system payload) ms als now db)
  | _, _ => (Raised (TypeError "'NoneType' object is not iterable"), db)
  end.
Proof.
  unfold Request.serve, receive_metrics.
  unfold Request.bind at 1. unfold Request.execute at 1.
  cbn [working durable].
  destruct (upsert_system (system payload) now db) as [w0 n0] eqn:Eu.
  unfold Request.bind at 1.
  destruct (payload_metrics payload) as [ms|]; cbn [Request.iterable];
    [|reflexivity].
  unfold Request.ret at 1.
  unfold Request.bind at 1. rewrite for_each_execute. cbn [working durable].
  unfold Request.bind at 1.
  destruct (payload_alerts payload) as [als|]; cbn [Request.iterable];
    [|reflexivity].
  unfold Request.ret at 1.
  unfold Request.bind at 1. rewrite for_each_execute. cbn [working durable].
  unfold batch_applied. rewrite Eu. reflexivity.
Qed.

Lemma insert_metrics_shape (now : Z) (ms : list MetricData) (w : database) :
  exists rows,
    metrics (fold_left (fun w m => fst (insert_metric m now w)) ms w)
      = metrics w ++ rows /\
    Forall2 (metric_stored now) ms rows /\
    systems (fold_left (fun w m => fst (insert_metric m now w)) ms w)
      = systems w /\
    alerts (fold_left (fun w m => fst (insert_metric m now w)) ms w)
      = alerts w.
Proof.
  revert w. induction ms as [|m ms IH]; intros w.
  - exists []. simpl. rewrite app_nil_r. repeat split. constructor.
  - cbn [fold_left].
    destruct (IH (fst (insert_metric m now w))) as (rows & Hm & Hf & Hs & Ha).
    eexists (_ :: rows). rewrite Hm, Hs, Ha. cbn [insert_metric fst metrics systems alerts].
    rewrite <- app_assoc. split; [reflexivity|].
    split; [|split; reflexivity].
    constructor; [|exact Hf]. repeat split.
Qed.

Lemma insert_alerts_shape (now : Z) (als : list AlertData) (w : database) :
  exists rows,
    alerts (fold_left (fun w a => fst (insert_alert a now w)) als w)
      = alerts w ++ rows /\
    Forall2 (alert_stored now) als rows /\
    systems (fold_left (fun w a => fst (insert_alert a now w)) als w)
      = systems w /\
    metrics (fold_left (fun w a => fst (insert_alert a now w)) als w)
      = metrics w.
Proof.
  revert w. induction als as [|a als IH]; intros w.
  - exists []. simpl. rewrite app_nil_r. repeat split. constructor.
  - cbn [fold_left].
    destruct (IH (fst (insert_alert a now w))) as (rows & Hm & Hf & Hs & Ha).
    eexists (_ :: rows). rewrite Hm, Hs, Ha. cbn [insert_alert fst metrics systems alerts].
    rewrite <- app_assoc. split; [reflexivity|].
    split; [|split; reflexivity].
    constructor; [|exact Hf]. repeat split.
Qed.

Lemma upsert_system_recorded (s : SystemInfo) (now : Z) (db : database) :
  In (system_row_of s now) (systems (fst (upsert_system s now db))) /\
  (forall r, In r (systems (fst (upsert_system s now db))) ->
             r = system_row_of s now \/ In r (systems db)) /\
  metrics (fst (upsert_system s now db)) = metrics db /\
  alerts (fst (upsert_system s now db)) = alerts db.
Proof.
  cbn [upsert_system fst systems metrics alerts]. fold (system_row_of s now).
  split; [|split; [|split; reflexivity]].
  - destruct (existsb _ (systems db)) eqn:E.
    + apply existsb_exists in E as (r & Hr & Hid).
      apply in_map_iff. exists r. rewrite Hid. auto.
    + apply in_or_app. right. left. reflexivity.
  - intros r Hr. destruct (existsb _ (systems db)).
    + apply in_map_iff in Hr as (r0 & <- & Hr0).
      destruct (sys_id r0 =? si_id s)%string; auto.
    + apply in_app_or in Hr as [Hr | [<- | []]]; auto.
Qed.

Lemma metric_stored_system_ids (now : Z) (ms : list MetricData)
    (rows : list metric_row) :
  Forall2 (metric_stored now) ms rows ->
  map m_system_id rows = map md_system_id ms.
Proof.
  induction 1 as [|md row ms' rows' Hst _ IH]; [reflexivity|].
  simpl. rewrite IH. destruct Hst as (-> & _). reflexivity.
Qed.

(** The committed state of a batch, table by table. *)
Lemma batch_applied_shape (s : SystemInfo) (ms : list MetricData)
    (als : list AlertData) (now : Z) (db : database) :
  exists new_metrics new_alerts,
    systems (batch_applied s ms als now db)
      = systems (fst (upsert_system s now db)) /\
    metrics (batch_applied s ms als now db) = metrics db ++ new_metrics /\
    Forall2 (metric_stored now) ms new_metrics /\
    alerts (batch_applied s ms als now db) = alerts db ++ new_alerts /\
    Forall2 (alert_stored now) als new_alerts.
Proof.
  unfold batch_applied.
  destruct (upsert_system_recorded s now db) as (_ & _ & Hum & Hua).
  destruct (insert_metrics_shape now ms (fst (upsert_system s now db)))
    as (rm & Hm & Hfm & Hms & Hma).
  destruct (insert_alerts_shape now als
              (fold_left (fun w m => fst (insert_metric m now w)) ms
                 (fst (upsert_system s now db))))
    as (ra & Ha & Hfa & Has & Ham).
  exists rm, ra. rewrite Has, Ham, Ha, Hms, Hm, Hma, Hum, Hua. auto.
Qed.

End IngestFacts.

(** Metadata is stored whole: a dictionary of two entries keeps both, and
    only the empty and the absent dictionary are stored as NULL. *)
Example stored_metadata_keeps_every_entry :
  stored_metadata (Some [("serial", "WD-1"); ("model", "Red")])
  = Some [("serial", "WD-1"); ("model", "Red")] /\
  stored_metadata (Some []) = None /\
  stored_metadata None = None.
Proof. repeat split. Qed.

(** C9. One webhook request either returns, and then the system row with
    its new [last_seen], one metrics row per metric fact and one alerts row
    per alert fact are all in the database file, or raises, and then the
    file is exactly as it was before the request. *)
Theorem ingest_batch_is_atomic (payload : WebhookPayload) (now : Z)
    (db : database) :
  match Request.serve (receive_metrics payload now) db with
  | (Returned r, db') =>
      exists ms als new_metrics new_alerts,
        payload_metrics payload = Some ms /\
        payload_alerts payload = Some als /\
        metrics_received r = List.length ms /\
        alerts_received r = List.length als /\
        In (system_row_of (system payload) now) (systems db') /\
        metrics db' = metrics db ++ new_metrics /\
        Forall2 (metric_stored now) ms new_metrics /\
        alerts db' = alerts db ++ new_alerts /\
        Forall2 (alert_stored now) als new_alerts
  | (Raised e, db') => db' = db
  end.
Proof.
  rewrite serve_receive_metrics.
  destruct (payload_metrics payload) as [ms|]; [|reflexivity].
  destruct (payload_alerts payload) as [als|]; [|reflexivity].
  destruct (batch_applied_shape (system payload) ms als now db)
    as (nm & na & Hs & Hm & Hfm & Ha & Hfa).
  exists ms, als, nm, na.
  repeat (split; [first [reflexivity | assumption]|]).
  split; [|auto].
  rewrite Hs. apply upsert_system_recorded.
Qed.

(** A request that fails after its first statements: the connection had
    written the system row and a metric row, none of which reaches the
    file. *)
Example broken_batch_rolls_back :
  receive_metrics broken_batch t_now {| durable := empty_db; working := empty_db |}
  = (Raised (TypeError "'NoneType' object is not iterable"),
     {| durable := empty_db;
        working := {| systems := [system_row_of nas1_info t_now];
                      metrics := [{| m_id := 1; m_system_id := "ghost";
                                     m_timestamp := t_now;
                                     m_metric_type := "disk";
                                     m_metric_name := "ada0_temperature";
                                     m_value := 40 # 1; m_unit := Some "C";
                                     m_metadata := None |}];
                      alerts := [] |} |}) /\
  Request.serve (receive_metrics broken_batch t_now) empty_db
  = (Raised (TypeError "'NoneType' object is not iterable"), empty_db).
Proof. split; reflexivity. Qed.

(** C10. A metrics row is written under the [system_id] of its own metric
    fact; the only systems row the request writes is that of
    [payload.system], and nothing compares the two. *)
Theorem metric_rows_keep_their_own_system_id (payload : WebhookPayload)
    (now : Z) (db : database) (ms : list MetricData) (als : list AlertData) :
  payload_metrics payload = Some ms ->
  payload_alerts payload = Some als ->
  exists r db' new_metrics,
    Request.serve (receive_metrics payload now) db = (Returned r, db') /\
    metrics db' = metrics db ++ new_metrics /\
    map m_system_id new_metrics = map md_system_id ms /\
    In (system_row_of (system payload) now) (systems db') /\
    (forall s, In s (systems db') ->
               s = system_row_of (system payload) now \/ In s (systems db)).
Proof.
  intros Hms Hals. rewrite serve_receive_metrics, Hms, Hals.
  destruct (batch_applied_shape (system payload) ms als now db)
    as (nm & na & Hs & Hm & Hfm & _ & _).
  eexists _, _, nm. split; [reflexivity|].
  split; [exact Hm|]. split.
  - apply metric_stored_system_ids with (now := now). exact Hfm.
  - rewrite Hs. split; apply upsert_system_recorded.
Qed.

(** The batch of system ["nas1"] that carries a reading of system
    ["ghost"]. *)
Lemma metric_rows_keep_their_own_system_id_witness :
  payload_metrics foreign_batch = Some [foreign_metric] /\
  payload_alerts foreign_batch = Some [] /\
  exists r db' new_metrics,
    Request.serve (receive_metrics foreign_batch t_now) empty_db
      = (Returned r, db') /\
    metrics db' = metrics empty_db ++ new_metrics /\
    map m_system_id new_metrics = map md_system_id [foreign_metric] /\
    In (system_row_of (system foreign_batch) t_now) (systems db') /\
    (forall s, In s (systems db') ->
               s = system_row_of (system foreign_batch) t_now \/
               In s (systems empty_db)).
Proof.
  split; [reflexivity|]. split; [reflexivity|].
  exact (metric_rows_keep_their_own_system_id foreign_batch t_now empty_db
           [foreign_metric] [] eq_refl eq_refl).
Defined.

(** The same batch, evaluated: [last_seen] of ["nas1"] is set, the metric
    point belongs to ["ghost"], and no systems row has that id. *)
Example foreign_batch_outcome :
  map sys_id (systems (snd (Request.serve (receive_metrics foreign_batch t_now) empty_db)))
    = ["nas1"] /\
  map sys_last_seen (systems (snd (Request.serve (receive_metrics foreign_batch t_now) empty_db)))
    = [t_now] /\
  map m_system_id (metrics (snd (Request.serve (receive_metrics foreign_batch t_now) empty_db)))
    = ["ghost"].
Proof. repeat split. Qed.

Section AlertMachine.

Lemma update_alert_alerts j set db :
  alerts (fst (update_alert j set db)) = map (updated j set) (alerts db).
Proof. reflexivity. Qed.

Lemma find_updated (i j : Z) set (l : list alert_row) :
  (forall a, a_id (set a) = a_id a) ->
  find (fun a => a_id a =? i) (map (updated j set) l) =
  option_map (updated j set) (find (fun a => a_id a =? i) l).
Proof.
  intros Hid. induction l as [|a l IH]; [reflexivity|].
  cbn [map find].
  assert (E : a_id (updated j set a) = a_id a)
    by (unfold updated; destruct (a_id a =? j); auto).
  rewrite E. destruct (a_id a =? i); [reflexivity | exact IH].
Qed.

Lemma find_some_id (i : Z) (l : list alert_row) a :
  find (fun a => a_id a =? i) l = Some a -> a_id a = i.
Proof.
  intros H. apply find_some in H as [_ H]. apply Z.eqb_eq. exact H.
Qed.

Lemma rowcount_of_known (i : Z) set (db : database) b :
  alert_acknowledged i db = Some b ->
  (snd (update_alert i set db) =? 0)%nat = false.
Proof.
  unfold alert_acknowledged, update_alert. cbn [snd].
  generalize (alerts db) as l. induction l as [|a l IH]; [discriminate|].
  cbn [find filter]. destruct (a_id a =? i); [reflexivity | exact IH].
Qed.

(** An UPDATE by either handler keeps every acknowledged row
    acknowledged. *)
Lemma update_keeps_acknowledged (i j : Z) set (db : database) :
  (forall a, a_id (set a) = a_id a) ->
  (forall a, a_acknowledged (set a) = true) ->
  alert_acknowledged i db = Some true ->
  alert_acknowledged i (fst (update_alert j set db)) = Some true.
Proof.
  intros Hid Hack. unfold alert_acknowledged.
  rewrite update_alert_alerts, (find_updated i j set _ Hid).
  destruct (find _ (alerts db)) as [a|]; [|discriminate].
  cbn [option_map]. intros [= Ha]. f_equal.
  unfold updated. destruct (a_id a =? j); [apply Hack | exact Ha].
Qed.

(** An UPDATE of a known row by either handler leaves it acknowledged. *)
Lemma update_sets_acknowledged (i : Z) set (db : database) b :
  (forall a, a_id (set a) = a_id a) ->
  (forall a, a_acknowledged (set a) = true) ->
  alert_acknowledged i db = Some b ->
  alert_acknowledged i (fst (update_alert i set db)) = Some true.
Proof.
  intros Hid Hack. unfold alert_acknowledged.
  rewrite update_alert_alerts, (find_updated i i set _ Hid).
  destruct (find _ (alerts db)) as [a|] eqn:Ef; [|discriminate].
  cbn [option_map]. intros _. f_equal.
  unfold updated. rewrite (find_some_id _ _ _ Ef), Z.eqb_refl. apply Hack.
Qed.

Lemma updated_idempotent (j : Z) set (l : list alert_row) :
  (forall a, a_id (set a) = a_id a) ->
  (forall a, set (set a) = set a) ->
  map (updated j set) (map (updated j set) l) = map (updated j set) l.
Proof.
  intros Hid Hset. rewrite map_map. apply map_ext. intros a.
  unfold updated. destruct (a_id a =? j) eqn:E; [|rewrite E; reflexivity].
  rewrite Hid, E. apply Hset.
Qed.

Lemma serve_acknowledge_alert (j : Z) (db : database) :
  Request.serve (acknowledge_alert j) db =
  if (snd (update_alert j set_acknowledged db) =? 0)%nat
  then (Raised (HTTPException 404 "Alert not found"), db)
  else (Returned {| ack_alert_id := j |},
        fst (update_alert j set_acknowledged db)).
Proof.
  unfold Request.serve, acknowledge_alert.
  unfold Request.bind at 1. unfold Request.execute. cbn [working durable].
  destruct (update_alert j set_acknowledged db) as [w n]. cbn [fst snd].
  destruct (n =? 0)%nat; reflexivity.
Qed.

Lemma serve_create_ticket (j : Z) (psa : string) (db : database) :
  Request.serve (create_ticket j psa) db =
  (Returned {| tr_ticket_id :=
                 (Py.upper psa ++ "-" ++ Py.str_of_int j ++ "-001")%string;
               tr_psa := psa |},
   fst (update_alert j
          (set_ticket (Py.upper psa ++ "-" ++ Py.str_of_int j ++ "-001")%string)
          db)).
Proof.
  unfold Request.serve, create_ticket.
  unfold Request.bind at 1. unfold Request.execute. cbn [working durable].
  destruct (update_alert j _ db) as [w n]. reflexivity.
Qed.

Lemma find_app_some {A : Type} (f : A -> bool) (l l' : list A) a :
  find f l = Some a -> find f (l ++ l') = Some a.
Proof.
  induction l as [|x l IH]; [discriminate|].
  cbn [find app]. destruct (f x); [auto | exact IH].
Qed.

(** No operation of the program takes an acknowledged alert back. *)
Lemma run_op_keeps_acknowledged (op : alert_op) (db : database) (i : Z) :
  alert_acknowledged i db = Some true ->
  alert_acknowledged i (run_op op db) = Some true.
Proof.
  intros H. destruct op as [j | j psa | payload now]; cbn [run_op].
  - rewrite serve_acknowledge_alert.
    destruct (_ =? 0)%nat; cbn [snd]; [exact H|].
    apply update_keeps_acknowledged; auto.
  - rewrite serve_create_ticket. cbn [snd].
    apply update_keeps_acknowledged; auto.
  - rewrite serve_receive_metrics.
    destruct (payload_metrics payload) as [ms|]; [|exact H].
    destruct (payload_alerts payload) as [als|]; [|exact H].
    cbn [snd].
    destruct (batch_applied_shape (system payload) ms als now db)
      as (nm & na & _ & _ & _ & Ha & _).
    unfold alert_acknowledged in *. rewrite Ha.
    destruct (find _ (alerts db)) as [a|] eqn:Ef; [|discriminate].
    rewrite (find_app_some _ _ na _ Ef). exact H.
Qed.

End AlertMachine.

(** C8. For an alert that exists: [acknowledge_alert] returns and leaves it
    acknowledged; a second [acknowledge_alert] returns as well and changes
    nothing; [create_ticket] stores the ticket id and leaves the alert
    acknowledged; and once an alert is acknowledged, no acknowledge, ticket
    or ingestion request makes it unacknowledged again. *)
Theorem acknowledged_is_monotonic (db : database) (alert_id : Z) (b : bool)
    (psa : string) (op : alert_op) :
  alert_acknowledged alert_id db = Some b ->
  fst (Request.serve (acknowledge_alert alert_id) db)
    = Returned {| ack_alert_id := alert_id |} /\
  alert_acknowledged alert_id
    (snd (Request.serve (acknowledge_alert alert_id) db)) = Some true /\
  Request.serve (acknowledge_alert alert_id)
    (snd (Request.serve (acknowledge_alert alert_id) db))
    = (Returned {| ack_alert_id := alert_id |},
       snd (Request.serve (acknowledge_alert alert_id) db)) /\
  alert_acknowledged alert_id
    (snd (Request.serve (create_ticket alert_id psa) db)) = Some true /\
  alert_ticket alert_id
    (snd (Request.serve (create_ticket alert_id psa) db))
    = Some (Some (Py.upper psa ++ "-" ++ Py.str_of_int alert_id ++ "-001")%string) /\
  alert_acknowledged alert_id
    (run_op op (snd (Request.serve (acknowledge_alert alert_id) db)))
    = Some true /\
  (b = true -> alert_acknowledged alert_id (run_op op db) = Some true).
Proof.
  intros Hex.
  pose proof (rowcount_of_known alert_id set_acknowledged db b Hex) as Hrc.
  assert (Hack1 : alert_acknowledged alert_id
                    (fst (update_alert alert_id set_acknowledged db)) = Some true)
    by (apply (update_sets_acknowledged alert_id set_acknowledged db b); auto).
  rewrite serve_acknowledge_alert, Hrc. cbn [fst snd].
  split; [reflexivity|]. split; [exact Hack1|]. split.
  { rewrite serve_acknowledge_alert.
    rewrite (rowcount_of_known alert_id set_acknowledged _ true Hack1).
    f_equal. unfold update_alert. cbn [fst alerts systems metrics].
    rewrite updated_idempotent; auto. }
  rewrite serve_create_ticket. cbn [snd]. split.
  { apply (update_sets_acknowledged alert_id _ db b); auto. }
  split.
  { unfold alert_ticket. rewrite update_alert_alerts, find_updated by auto.
    unfold alert_acknowledged in Hex.
    destruct (find _ (alerts db)) as [a|] eqn:Ef; [|discriminate].
    cbn [option_map]. unfold updated.
    rewrite (find_some_id _ _ _ Ef), Z.eqb_refl. reflexivity. }
  split.
  { apply run_op_keeps_acknowledged. exact Hack1. }
  intros ->. apply run_op_keeps_acknowledged. exact Hex.
Qed.

Lemma acknowledged_is_monotonic_witness :
  alert_acknowledged 1 (alerts_db [mk_alert 1 false]) = Some false /\
  fst (Request.serve (acknowledge_alert 1) (alerts_db [mk_alert 1 false]))
    = Returned {| ack_alert_id := 1 |} /\
  alert_acknowledged 1
    (snd (Request.serve (acknowledge_alert 1) (alerts_db [mk_alert 1 false])))
    = Some true.
Proof.
  split; [reflexivity|].
  destruct (acknowledged_is_monotonic (alerts_db [mk_alert 1 false]) 1 false
              "halo" (OpAcknowledge 1) eq_refl) as (H1 & H2 & _).
  split; [exact H1 | exact H2].
Defined.

Section Dictionaries.

Context {V : Type}.

Lemma dict_get_app (k : string) (d d' : list (string * V)) :
  dict_get k (d ++ d') =
  match dict_get k d with Some v => Some v | None => dict_get k d' end.
Proof.
  induction d as [|[k0 v] d IH]; [reflexivity|].
  cbn [app dict_get]. destruct (k0 =? k)%string; [reflexivity | exact IH].
Qed.

Lemma dict_get_update (k k' : string) (f : V -> V) (d : list (string * V)) :
  dict_get k (dict_update k' f d) =
  if (k' =? k)%string then option_map f (dict_get k d) else dict_get k d.
Proof.
  induction d as [|[k0 v] d IH].
  - cbn. destruct (k' =? k)%string; reflexivity.
  - cbn [dict_update dict_get].
    destruct (String.eqb_spec k0 k') as [-> | Hne]; cbn [dict_get].
    + destruct (k' =? k)%string; reflexivity.
    + rewrite IH.
      destruct (String.eqb_spec k0 k) as [-> | Hne']; [|reflexivity].
      destruct (String.eqb_spec k' k) as [-> | _]; [congruence | reflexivity].
Qed.

Lemma dict_mem_get (k : string) (d : list (string * V)) :
  dict_mem k d = match dict_get k d with Some _ => true | None => false end.
Proof. reflexivity. Qed.

End Dictionaries.

Section Grouping.

Variable split : string -> string * string.
Variable system_id : string.

(** One iteration changes the looked-up value of a pair only when the
    pair had none and the row decodes to it. *)
Lemma lookup_group_step (acc : list (string * entity_entry))
    (m : metric_row) (eid attr : string) :
  lookup (group_step split system_id acc m) eid attr =
  match lookup acc eid attr with
  | Some v => Some v
  | None => if decodes_to split eid attr m then Some (point_of m) else None
  end.
Proof.
  unfold group_step, decodes_to, lookup.
  destruct (split (m_metric_name m)) as [e0 a0].
  rewrite dict_get_update.
  destruct (String.eqb_spec e0 eid) as [-> | Hne].
  - rewrite dict_mem_get.
    destruct (dict_get eid acc) as [e|] eqn:Eg.
    + rewrite Eg. cbn [option_map record_point e_metrics andb].
      rewrite dict_mem_get.
      destruct (dict_get a0 (e_metrics e)) as [v0|] eqn:Ea.
      * destruct (dict_get attr (e_metrics e)) as [v|] eqn:Ev; [reflexivity|].
        destruct (String.eqb_spec a0 attr) as [-> | _]; [congruence | reflexivity].
      * rewrite dict_get_app. cbn [dict_get].
        destruct (dict_get attr (e_metrics e)); reflexivity.
    + rewrite dict_get_app, Eg. cbn [dict_get]. rewrite String.eqb_refl.
      cbn [option_map record_point e_metrics dict_mem dict_get app andb].
      reflexivity.
  - cbn [andb].
    assert (E : dict_get eid
                  (if dict_mem e0 acc then acc
                   else acc ++ [(e0, {| e_id := e0; e_system_id := system_id;
                                        e_last_updated := m_timestamp m;
                                        e_metrics := []; e_history := [] |})])
                = dict_get eid acc).
    { destruct (dict_mem e0 acc); [reflexivity|].
      rewrite dict_get_app. cbn [dict_get].
      destruct (String.eqb_spec e0 eid); [contradiction|].
      destruct (dict_get eid acc); reflexivity. }
    rewrite E. destruct (dict_get eid acc) as [e|]; [|reflexivity].
    destruct (dict_get attr (e_metrics e)); reflexivity.
Qed.

(** The loop keeps, for every pair, the first row that decodes to it. *)
Lemma lookup_fold (rows : list metric_row)
    (acc : list (string * entity_entry)) (eid attr : string) :
  lookup (fold_left (group_step split system_id) rows acc) eid attr =
  match lookup acc eid attr with
  | Some v => Some v
  | None => option_map point_of (find (decodes_to split eid attr) rows)
  end.
Proof.
  revert acc. induction rows as [|m rows IH]; intros acc.
  - cbn. destruct (lookup acc eid attr); reflexivity.
  - cbn [fold_left find]. rewrite IH, lookup_group_step.
    destruct (lookup acc eid attr); [reflexivity|].
    destruct (decodes_to split eid attr m); reflexivity.
Qed.

Lemma keyed_update (k : string) f (acc : list (string * entity_entry)) :
  (forall e, e_id (f e) = e_id e) -> keyed acc -> keyed (dict_update k f acc).
Proof.
  intros Hf. induction 1 as [|[k0 e] acc Hk Hrest IH]; [constructor|].
  cbn [dict_update]. destruct (k0 =? k)%string.
  - constructor; [cbn in *; rewrite Hf; exact Hk | exact Hrest].
  - constructor; [exact Hk | exact IH].
Qed.

Lemma keyed_group_step acc m : keyed acc -> keyed (group_step split system_id acc m).
Proof.
  intros Hk. unfold group_step.
  destruct (split (m_metric_name m)) as [e0 a0].
  apply keyed_update; [reflexivity|].
  destruct (dict_mem e0 acc); [exact Hk|].
  apply Forall_app. split; [exact Hk|]. constructor; [reflexivity | constructor].
Qed.

Lemma keyed_group_rows rows : keyed (group_rows split system_id rows).
Proof.
  unfold group_rows.
  assert (H : forall acc, keyed acc ->
                keyed (fold_left (group_step split system_id) rows acc)).
  { induction rows as [|m rows IH]; intros acc Hk; [exact Hk|].
    cbn [fold_left]. apply IH, keyed_group_step, Hk. }
  apply H. constructor.
Qed.

Lemma find_keyed acc eid :
  keyed acc ->
  find (fun e => (e_id e =? eid)%string) (map snd acc) = dict_get eid acc.
Proof.
  induction 1 as [|[k0 e] acc Hk _ IH]; [reflexivity|].
  cbn [map snd find dict_get]. cbn in Hk. rewrite Hk.
  destruct (k0 =? eid)%string; [reflexivity | exact IH].
Qed.

(** What a client reads for a pair is the first fetched row that decodes
    to it. *)
Lemma latest_of_group_rows (rows : list metric_row) (eid attr : string) :
  latest_of (map snd (group_rows split system_id rows)) eid attr =
  option_map point_of (find (decodes_to split eid attr) rows).
Proof.
  unfold latest_of. rewrite (find_keyed _ _ (keyed_group_rows rows)).
  change (lookup (group_rows split system_id rows) eid attr =
          option_map point_of (find (decodes_to split eid attr) rows)).
  unfold group_rows. rewrite lookup_fold. reflexivity.
Qed.

End Grouping.

Section ProjectionFacts.

Lemma project_disks system_id rows :
  get_system_disks system_id rows = project SystemDisks system_id rows.
Proof. reflexivity. Qed.

Lemma project_pools system_id rows :
  get_system_pools system_id rows = project SystemPools system_id rows.
Proof. reflexivity. Qed.

Lemma query_disks db now system_id hours rows :
  system_disks_query db now system_id hours rows <->
  projection_query SystemDisks db now system_id hours rows.
Proof. reflexivity. Qed.

Lemma query_pools db now system_id hours rows :
  system_pools_query db now system_id rows <->
  projection_query SystemPools db now system_id hours rows.
Proof. reflexivity. Qed.


Lemma string_compare_refl (s : string) : String.compare s s = Eq.
Proof.
  pose proof (String.compare_antisym s s) as H.
  destruct (String.compare s s); [reflexivity | discriminate H | discriminate H].
Qed.

Lemma decodes_to_spec split eid attr m :
  decodes_to split eid attr m = true <-> split (m_metric_name m) = (eid, attr).
Proof.
  unfold decodes_to. destruct (split (m_metric_name m)) as [e a].
  rewrite andb_true_iff, !String.eqb_eq. split.
  - intros [-> ->]. reflexivity.
  - intros [= -> ->]. auto.
Qed.

Lemma find_first {A : Type} (f : A -> bool) (l : list A) (x : A) :
  find f l = Some x ->
  exists l1 l2, l = l1 ++ x :: l2 /\ (forall y, In y l1 -> f y = false).
Proof.
  induction l as [|a l IH]; [discriminate|].
  cbn [find]. destruct (f a) eqn:Ea.
  - intros [= ->]. exists [], l. split; [reflexivity | intros y []].
  - intros H. destruct (IH H) as (l1 & l2 & -> & Hl1).
    exists (a :: l1), l2. split; [reflexivity|].
    intros y [<- | Hy]; auto.
Qed.

Lemma sorted_after {A : Type} (R : A -> A -> Prop) (l1 l2 : list A) (x : A) :
  StronglySorted R (l1 ++ x :: l2) -> forall y, In y l2 -> R x y.
Proof.
  induction l1 as [|a l1 IH]; cbn [app]; intros H y Hy.
  - apply StronglySorted_inv in H as [_ H].
    rewrite Forall_forall in H. apply H, Hy.
  - apply StronglySorted_inv in H as [H _]. exact (IH H y Hy).
Qed.

(** In a result ordered by name and then by descending timestamp, a row
    is at least as new as every later row of the same name. *)
Lemma same_name_newer_first (a b : metric_row) :
  by_name_time_desc a b = true ->
  m_metric_name a = m_metric_name b ->
  m_timestamp b <= m_timestamp a.
Proof.
  unfold by_name_time_desc. intros H E.
  rewrite E, string_compare_refl in H. apply Z.leb_le. exact H.
Qed.

(** In an ordered answer, the first row that decodes to a pair is at least
    as new as every selected row of the pair that has its name. *)
Lemma first_match_is_newest (split : string -> string * string)
    (sel rows : list metric_row) (eid attr : string) (m : metric_row) :
  fetchall sel by_name_time_desc rows ->
  find (decodes_to split eid attr) rows = Some m ->
  forall m', In m' sel ->
             split (m_metric_name m') = (eid, attr) ->
             m_metric_name m = m_metric_name m' ->
             m_timestamp m' <= m_timestamp m.
Proof.
  intros Hq Ef m' Hin' Hd' Hname.
  destruct (find_first _ _ _ Ef) as (l1 & l2 & Hrows & Hl1).
  apply (fetchall_In _ _ _ m' Hq) in Hin'. rewrite Hrows in Hin'.
  apply in_app_or in Hin' as [Hin' | [<- | Hin']].
  - apply Hl1 in Hin'. apply decodes_to_spec in Hd'. congruence.
  - lia.
  - apply same_name_newer_first; [|exact Hname].
    destruct Hq as [_ Hs]. rewrite Hrows in Hs.
    exact (sorted_after _ _ _ _ Hs m' Hin').
Qed.

End ProjectionFacts.

Section Ordering.

Lemma string_compare_lt_trans (a b c : string) :
  String.compare a b = Lt -> String.compare b c = Lt -> String.compare a c = Lt.
Proof.
  intros Hab Hbc. apply String_as_OT.cmp_lt.
  apply String_as_OT.lt_trans with b; apply String_as_OT.cmp_lt; assumption.
Qed.

Lemma by_name_time_desc_total (a b : metric_row) :
  by_name_time_desc a b = false -> by_name_time_desc b a = true.
Proof.
  unfold by_name_time_desc.
  rewrite (String.compare_antisym (m_metric_name b) (m_metric_name a)).
  destruct (String.compare (m_metric_name a) (m_metric_name b)); cbn [CompOpp].
  - intros H. apply Z.leb_gt in H. apply Z.leb_le. lia.
  - discriminate.
  - reflexivity.
Qed.

Lemma by_name_time_desc_trans (a b c : metric_row) :
  by_name_time_desc a b = true -> by_name_time_desc b c = true ->
  by_name_time_desc a c = true.
Proof.
  unfold by_name_time_desc.
  destruct (String.compare (m_metric_name a) (m_metric_name b)) eqn:Eab;
    [| |discriminate];
    (destruct (String.compare (m_metric_name b) (m_metric_name c)) eqn:Ebc;
     [| |discriminate]); intros Hab Hbc.
  - apply String.compare_eq_iff in Eab. rewrite Eab, Ebc.
    apply Z.leb_le. apply Z.leb_le in Hab, Hbc. lia.
  - apply String.compare_eq_iff in Eab. rewrite Eab, Ebc. reflexivity.
  - apply String.compare_eq_iff in Ebc. rewrite <- Ebc, Eab. reflexivity.
  - rewrite (string_compare_lt_trans _ _ _ Eab Ebc). reflexivity.
Qed.

Context {A : Type}.
Variable order : A -> A -> bool.
Hypothesis order_total : forall a b, order a b = false -> order b a = true.
Hypothesis order_trans :
  forall a b c, order a b = true -> order b c = true -> order a c = true.

Lemma insert_sorted_perm (m : A) (l : list A) :
  Permutation (m :: l) (insert_sorted order m l).
Proof.
  induction l as [|x l IH]; [apply Permutation_refl|].
  cbn [insert_sorted]. destruct (order x m); [|apply Permutation_refl].
  apply perm_trans with (x :: m :: l); [apply perm_swap|].
  apply perm_skip. exact IH.
Qed.

Lemma insert_sorted_sorted (m : A) (l : list A) :
  StronglySorted (fun a b => order a b = true) l ->
  StronglySorted (fun a b => order a b = true) (insert_sorted order m l).
Proof.
  induction 1 as [|x l Hs IH Hx]; [repeat constructor|].
  cbn [insert_sorted]. destruct (order x m) eqn:E.
  - constructor; [exact IH|].
    apply Forall_forall. intros y Hy.
    apply (Permutation_in _ (Permutation_sym (insert_sorted_perm m l))) in Hy.
    destruct Hy as [<- | Hy]; [exact E|].
    rewrite Forall_forall in Hx. exact (Hx y Hy).
  - constructor; [constructor; assumption|].
    apply order_total in E. constructor; [exact E|].
    apply Forall_forall. intros y Hy. rewrite Forall_forall in Hx.
    exact (order_trans _ _ _ E (Hx y Hy)).
Qed.

(** The stable sort is one of the answers the database may give. *)
Lemma order_by_fetchall (l : list A) : fetchall l order (order_by order l).
Proof.
  unfold order_by.
  assert (H : forall acc,
            StronglySorted (fun a b => order a b = true) acc ->
            Permutation (acc ++ l)
              (fold_left (fun acc m => insert_sorted order m acc) l acc) /\
            StronglySorted (fun a b => order a b = true)
              (fold_left (fun acc m => insert_sorted order m acc) l acc)).
  { induction l as [|m l IH]; intros acc Hacc.
    - cbn [fold_left]. rewrite app_nil_r. split; [apply Permutation_refl | exact Hacc].
    - cbn [fold_left].
      destruct (IH (insert_sorted order m acc) (insert_sorted_sorted m acc Hacc))
        as [Hp Hs].
      split; [|exact Hs].
      apply perm_trans with (insert_sorted order m acc ++ l); [|exact Hp].
      apply perm_trans with ((m :: acc) ++ l).
      + apply Permutation_sym, Permutation_middle.
      + apply Permutation_app_tail, insert_sorted_perm. }
  destruct (H [] (SSorted_nil _)) as [Hp Hs]. split; assumption.
Qed.

End Ordering.

(** Every per-system query has an answer. *)
Lemma projection_query_answered (v : system_view) (db : database) (now : Z)
    (system_id : string) (hours : Z) :
  projection_query v db now system_id hours
    (order_by by_name_time_desc (selected v db now system_id hours)).
Proof.
  apply order_by_fetchall.
  - exact by_name_time_desc_total.
  - exact by_name_time_desc_trans.
Qed.

Ltac solve_fetchall :=
  split; [apply Permutation_refl | repeat (constructor; try reflexivity)].




(** A second way the reported value is not the newest of its pair: the
    names ["ada0"] and ["ada0_value"] decode to the same pair, the result
    is ordered by name first, and the older row of the shorter name is the
    one reported in every admissible order. *)
Example latest_shadowed_by_shorter_name :
  system_disks_query shadow_db t_now "nas1" 1 [bare_old; suffixed_new] /\
  ~ system_disks_query shadow_db t_now "nas1" 1 [suffixed_new; bare_old] /\
  disk_decode (m_metric_name bare_old) = ("ada0", "value") /\
  disk_decode (m_metric_name suffixed_new) = ("ada0", "value") /\
  m_timestamp bare_old < m_timestamp suffixed_new /\
  latest_of (get_system_disks "nas1" [bare_old; suffixed_new]) "ada0" "value"
    = Some (point_of bare_old).
Proof.
  split; [solve_fetchall|].
  split.
  { intros [_ Hs]. apply StronglySorted_inv in Hs as [_ Hs].
    apply Forall_inv in Hs. discriminate Hs. }
  repeat (split; [reflexivity|]). reflexivity.
Qed.

Section CountingFacts.

Variable key : metric_row -> string.







End CountingFacts.

Section FleetFacts.







End FleetFacts.


Section SentinelFacts.

Lemma rsplit1_two (s l r : string) :
  Py.rsplit1 s = [l; r] -> s = (l ++ "_" ++ r)%string.
Proof.
  revert l r. induction s as [|c s IH]; intros l r; [discriminate|].
  cbn [Py.rsplit1].
  destruct (Py.rsplit1 s) as [|x [|y [|z t]]] eqn:E.
  - destruct (Ascii.eqb_spec c "_") as [-> | _]; intros [= <- <-]; reflexivity.
  - destruct (Ascii.eqb_spec c "_") as [-> | _]; intros [= <- <-]; reflexivity.
  - intros [= <- <-]. rewrite (IH x y eq_refl). reflexivity.
  - destruct (Ascii.eqb_spec c "_") as [-> | _]; intros [= <- <-]; reflexivity.
Qed.

Lemma split1_shape (s : string) :
  (exists x, Py.split1 s = [x]) \/
  (exists x y, Py.split1 s = [x; y] /\ s = (x ++ "_" ++ y)%string).
Proof.
  induction s as [|c s IH]; [left; exists EmptyString; reflexivity|].
  cbn [Py.split1]. destruct (Ascii.eqb_spec c "_") as [-> | _].
  - right. exists EmptyString, s. split; reflexivity.
  - destruct IH as [(x & ->) | (x & y & -> & E)].
    + left. eexists. reflexivity.
    + right. exists (String c x), y. split; [reflexivity|].
      rewrite E at 1. reflexivity.
Qed.

(** A name that decodes to an attribute other than the sentinel is the
    entity id, an underscore and the attribute. *)
Lemma decode_not_sentinel (k : resource_kind) (name eid attr : string) :
  decode k name = (eid, attr) -> attr <> "value" ->
  name = (eid ++ "_" ++ attr)%string.
Proof.
  intros Hd Hne.
  assert (Hr : forall l r, Py.rsplit1 name = [l; r] -> (l, r) = (eid, attr) ->
                 name = (eid ++ "_" ++ attr)%string).
  { intros l r E [= <- <-]. apply rsplit1_two, E. }
  destruct k; cbn [decode] in Hd.
  - unfold disk_decode in Hd.
    destruct (Py.rsplit1 name) as [|x [|y [|z t]]] eqn:E;
      try (injection Hd as _ Ha; congruence).
    exact (Hr x y eq_refl Hd).
  - unfold replication_decode in Hd.
    destruct (Py.rsplit1 name) as [|x [|y [|z t]]] eqn:E;
      try (injection Hd as _ Ha; congruence).
    exact (Hr x y eq_refl Hd).
  - unfold system_pool_decode in Hd.
    destruct (split1_shape name) as [(x & E) | (x & y & E & ->)];
      rewrite E in Hd; cbn in Hd; injection Hd as <- <-; congruence.
  - unfold system_pool_decode in Hd.
    destruct (split1_shape name) as [(x & E) | (x & y & E & ->)];
      rewrite E in Hd; cbn in Hd; injection Hd as <- <-; congruence.
Qed.

End SentinelFacts.

(** For every pair whose attribute is not the sentinel ["value"], all rows
    of the pair carry one raw name, so the reported value is one of maximal
    timestamp. *)
Corollary latest_has_maximal_timestamp_named (v : system_view)
    (db : database) (now : Z) (system_id : string) (hours : Z)
    (rows : list metric_row) (eid attr : string) :
  projection_query v db now system_id hours rows ->
  attr <> "value" ->
  (exists m0, In m0 (selected v db now system_id hours) /\
              decode (view_kind v) (m_metric_name m0) = (eid, attr)) ->
  exists m,
    In m (selected v db now system_id hours) /\
    decode (view_kind v) (m_metric_name m) = (eid, attr) /\
    latest_of (project v system_id rows) eid attr = Some (point_of m) /\
    forall m', In m' (selected v db now system_id hours) ->
               decode (view_kind v) (m_metric_name m') = (eid, attr) ->
               m_timestamp m' <= m_timestamp m.
Proof.
  intros Hq Hne (m0 & Hm0 & Hd0).
  unfold project. rewrite latest_of_group_rows.
  destruct (find (decodes_to (decode (view_kind v)) eid attr) rows) as [m|] eqn:Ef.
  - destruct (find_some _ _ Ef) as [Hin Hdm].
    apply decodes_to_spec in Hdm.
    apply (fetchall_In _ _ _ m Hq) in Hin.
    exists m. repeat split; auto.
    intros m' Hin' Hd'.
    apply (first_match_is_newest (decode (view_kind v)) _ rows eid attr m Hq Ef);
      [exact Hin' | exact Hd' |].
    rewrite (decode_not_sentinel (view_kind v) _ eid attr Hdm Hne).
    rewrite (decode_not_sentinel (view_kind v) _ eid attr Hd' Hne). reflexivity.
  - exfalso.
    apply (fetchall_In _ _ _ m0 Hq) in Hm0.
    pose proof (find_none _ _ Ef m0 Hm0) as Hf.
    apply decodes_to_spec in Hd0. congruence.
Qed.


Section FleetGrouping.

Variable split : string -> string * string.

Lemma entity_lookup_store (eid attr : string) (m : metric_row)
    (fs : fleet_system) (eid' attr' : string) :
  entity_lookup (fs_entities (store_in_system eid attr m (ensure_entity eid fs)))
                eid' attr' =
  match entity_lookup (fs_entities fs) eid' attr' with
  | Some v => Some v
  | None => if (eid =? eid')%string && (attr =? attr')%string
            then Some (point_of m) else None
  end.
Proof.
  unfold entity_lookup, store_in_system, ensure_entity.
  cbn [fs_entities]. rewrite dict_get_update, dict_mem_get.
  destruct (String.eqb_spec eid eid') as [<- | Hne]; cbn [andb].
  - destruct (dict_get eid (fs_entities fs)) as [e|] eqn:Eg.
    + rewrite Eg. cbn [option_map]. unfold store_attribute.
      rewrite dict_mem_get.
      destruct (dict_get attr (fe_attributes e)) as [v0|] eqn:Ea.
      * destruct (dict_get attr' (fe_attributes e)) as [v|] eqn:Ev; [reflexivity|].
        destruct (String.eqb_spec attr attr') as [-> | _];
          [congruence | reflexivity].
      * cbn [fe_attributes]. rewrite dict_get_app. cbn [dict_get].
        destruct (dict_get attr' (fe_attributes e)); reflexivity.
    + cbn [fs_entities]. rewrite dict_get_app, Eg. cbn [dict_get].
      rewrite String.eqb_refl.
      cbn [option_map store_attribute fe_attributes dict_mem dict_get app].
      reflexivity.
  - assert (E : dict_get eid'
                  (fs_entities
                     (if match dict_get eid (fs_entities fs) with
                         | Some _ => true
                         | None => false
                         end
                      then fs
                      else {| fs_system_id := fs_system_id fs;
                              fs_system_name := fs_system_name fs;
                              fs_client_name := fs_client_name fs;
                              fs_entities :=
                                fs_entities fs ++
                                [(eid, {| fe_id := eid; fe_attributes := [] |})] |}))
                = dict_get eid' (fs_entities fs)).
    { destruct (dict_get eid (fs_entities fs)); [reflexivity|].
      cbn [fs_entities]. rewrite dict_get_app. cbn [dict_get].
      destruct (String.eqb_spec eid eid'); [contradiction|].
      destruct (dict_get eid' (fs_entities fs)); reflexivity. }
    rewrite E. destruct (dict_get eid' (fs_entities fs)) as [e|]; [|reflexivity].
    destruct (dict_get attr' (fe_attributes e)); reflexivity.
Qed.

Lemma fleet_lookup_step (acc : list (string * fleet_system)) (r : joined_row)
    (system_id eid attr : string) :
  fleet_lookup (fleet_step split acc r) system_id eid attr =
  match fleet_lookup acc system_id eid attr with
  | Some v => Some v
  | None => if fleet_decodes_to split system_id eid attr r
            then Some (point_of (fst r)) else None
  end.
Proof.
  unfold fleet_step, fleet_decodes_to, decodes_to, fleet_lookup.
  destruct (split (m_metric_name (fst r))) as [e0 a0].
  rewrite !dict_get_update, dict_mem_get.
  destruct (String.eqb_spec (m_system_id (fst r)) system_id) as [Es | Hne];
    cbn [andb].
  - rewrite Es.
    destruct (dict_get system_id acc) as [fs|] eqn:Eg.
    + rewrite Eg. cbn [option_map]. apply entity_lookup_store.
    + rewrite dict_get_app, Eg. cbn [dict_get]. rewrite String.eqb_refl.
      cbn [option_map]. rewrite entity_lookup_store. reflexivity.
  - assert (E : dict_get system_id
                  (if match dict_get (m_system_id (fst r)) acc with
                      | Some _ => true
                      | None => false
                      end
                   then acc
                   else acc ++
                        [(m_system_id (fst r),
                          {| fs_system_id := m_system_id (fst r);
                             fs_system_name := sys_name (snd r);
                             fs_client_name := sys_client_name (snd r);
                             fs_entities := [] |})])
                = dict_get system_id acc).
    { destruct (dict_get (m_system_id (fst r)) acc); [reflexivity|].
      rewrite dict_get_app. cbn [dict_get].
      destruct (String.eqb_spec (m_system_id (fst r)) system_id);
        [contradiction|].
      destruct (dict_get system_id acc); reflexivity. }
    rewrite E. destruct (dict_get system_id acc) as [fs|]; [|reflexivity].
    destruct (entity_lookup (fs_entities fs) eid attr); reflexivity.
Qed.

Lemma fleet_lookup_fold (rows : list joined_row)
    (acc : list (string * fleet_system)) (system_id eid attr : string) :
  fleet_lookup (fold_left (fleet_step split) rows acc) system_id eid attr =
  match fleet_lookup acc system_id eid attr with
  | Some v => Some v
  | None => option_map (fun r => point_of (fst r))
              (find (fleet_decodes_to split system_id eid attr) rows)
  end.
Proof.
  revert acc. induction rows as [|r rows IH]; intros acc.
  - cbn. destruct (fleet_lookup acc system_id eid attr); reflexivity.
  - cbn [fold_left find]. rewrite IH, fleet_lookup_step.
    destruct (fleet_lookup acc system_id eid attr); [reflexivity|].
    destruct (fleet_decodes_to split system_id eid attr r); reflexivity.
Qed.

Lemma fleet_keyed_update (k : string) f (acc : list (string * fleet_system)) :
  (forall fs, fs_system_id (f fs) = fs_system_id fs) ->
  fleet_keyed acc -> fleet_keyed (dict_update k f acc).
Proof.
  intros Hf. induction 1 as [|[k0 fs] acc Hk Hrest IH]; [constructor|].
  cbn [dict_update]. destruct (k0 =? k)%string.
  - constructor; [cbn in *; rewrite Hf; exact Hk | exact Hrest].
  - constructor; [exact Hk | exact IH].
Qed.

Lemma fleet_keyed_step acc r : fleet_keyed acc -> fleet_keyed (fleet_step split acc r).
Proof.
  intros Hk. unfold fleet_step.
  destruct (split (m_metric_name (fst r))) as [e0 a0].
  apply fleet_keyed_update; [reflexivity|].
  apply fleet_keyed_update.
  { intros fs. unfold ensure_entity. destruct (dict_mem e0 (fs_entities fs));
      reflexivity. }
  destruct (dict_mem (m_system_id (fst r)) acc); [exact Hk|].
  apply Forall_app. split; [exact Hk|]. constructor; [reflexivity | constructor].
Qed.

Lemma fleet_keyed_group rows : fleet_keyed (fleet_group split rows).
Proof.
  unfold fleet_group.
  assert (H : forall acc, fleet_keyed acc ->
                fleet_keyed (fold_left (fleet_step split) rows acc)).
  { induction rows as [|r rows IH]; intros acc Hk; [exact Hk|].
    cbn [fold_left]. apply IH, fleet_keyed_step, Hk. }
  apply H. constructor.
Qed.

Lemma find_fleet_keyed acc system_id :
  fleet_keyed acc ->
  find (fun fs => (fs_system_id fs =? system_id)%string) (map snd acc)
  = dict_get system_id acc.
Proof.
  induction 1 as [|[k0 fs] acc Hk _ IH]; [reflexivity|].
  cbn [map snd find dict_get]. cbn in Hk. rewrite Hk.
  destruct (k0 =? system_id)%string; [reflexivity | exact IH].
Qed.

(** What a client of a fleet view reads is the first fetched row of the
    system that decodes to the pair. *)
Lemma fleet_latest_of_group (rows : list joined_row)
    (system_id eid attr : string) :
  fleet_latest_of (map snd (fleet_group split rows)) system_id eid attr =
  option_map (fun r => point_of (fst r))
    (find (fleet_decodes_to split system_id eid attr) rows).
Proof.
  unfold fleet_latest_of. rewrite (find_fleet_keyed _ _ (fleet_keyed_group rows)).
  change (fleet_lookup (fleet_group split rows) system_id eid attr =
          option_map (fun r => point_of (fst r))
            (find (fleet_decodes_to split system_id eid attr) rows)).
  unfold fleet_group. rewrite fleet_lookup_fold. reflexivity.
Qed.

(** The fleet views report, like the per-system views, a row of maximal
    timestamp among the selected rows of the system that have its name. *)
Lemma fleet_latest_has_maximal_timestamp (types : list string)
    (db : database) (now : Z) (rows : list joined_row)
    (system_id eid attr : string) :
  fleet_query types db now rows ->
  (exists r0, In r0 (filter (fleet_where now types) (join_systems db)) /\
              fleet_decodes_to split system_id eid attr r0 = true) ->
  (forall r r', fleet_decodes_to split system_id eid attr r = true ->
                fleet_decodes_to split system_id eid attr r' = true ->
                m_metric_name (fst r) = m_metric_name (fst r')) ->
  exists r,
    In r (filter (fleet_where now types) (join_systems db)) /\
    fleet_decodes_to split system_id eid attr r = true /\
    fleet_latest_of (map snd (fleet_group split rows)) system_id eid attr
      = Some (point_of (fst r)) /\
    forall r', In r' (filter (fleet_where now types) (join_systems db)) ->
               fleet_decodes_to split system_id eid attr r' = true ->
               m_timestamp (fst r') <= m_timestamp (fst r).
Proof.
  intros Hq (r0 & Hr0 & Hd0) Hname.
  rewrite fleet_latest_of_group.
  destruct (find (fleet_decodes_to split system_id eid attr) rows) as [r|] eqn:Ef.
  - destruct (find_some _ _ Ef) as [Hin Hdr].
    apply (fetchall_In _ _ _ r Hq) in Hin.
    exists r. repeat split; auto.
    intros r' Hin' Hd'.
    destruct (find_first _ _ _ Ef) as (l1 & l2 & Hrows & Hl1).
    apply (fetchall_In _ _ _ r' Hq) in Hin'. rewrite Hrows in Hin'.
    apply in_app_or in Hin' as [Hin' | [<- | Hin']].
    + apply Hl1 in Hin'. congruence.
    + lia.
    + destruct Hq as [_ Hs]. rewrite Hrows in Hs.
      pose proof (sorted_after _ _ _ _ Hs r' Hin') as Hord.
      unfold by_system_name_time_desc in Hord.
      assert (Hsr : m_system_id (fst r) = system_id).
      { unfold fleet_decodes_to in Hdr. apply andb_true_iff in Hdr as [H _].
        apply String.eqb_eq. exact H. }
      assert (Hsr' : m_system_id (fst r') = system_id).
      { unfold fleet_decodes_to in Hd'. apply andb_true_iff in Hd' as [H _].
        apply String.eqb_eq. exact H. }
      rewrite Hsr, Hsr', string_compare_refl in Hord.
      apply same_name_newer_first; [exact Hord|].
      apply Hname; assumption.
  - exfalso.
    apply (fetchall_In _ _ _ r0 Hq) in Hr0.
    pose proof (find_none _ _ Ef r0 Hr0) as Hf. congruence.
Qed.

End FleetGrouping.

(** [get_all_disks] on the two readings written within one second: the
    earlier one is reported here as well. *)
Example get_all_disks_ignores_insertion_sequence :
  fleet_query ["disk"] tie_fleet_db t_now
    [(tie_first, nas1_row); (tie_second, nas1_row)] /\
  order_by by_system_name_time_desc
    (filter (fleet_where t_now ["disk"]) (join_systems tie_fleet_db))
    = [(tie_first, nas1_row); (tie_second, nas1_row)] /\
  fleet_latest_of
    (get_all_disks [(tie_first, nas1_row); (tie_second, nas1_row)])
    "nas1" "ada0" "temperature" = Some (point_of tie_first).
Proof.
  split; [solve_fetchall|]. split; reflexivity.
Qed.


(* ================================================================= *)
(** * Further properties of the code *)

Section SplitShapes.

Lemma rsplit1_shape (s : string) :
  Py.has_underscore s = true ->
  exists l r, Py.rsplit1 s = [l; r] /\ Py.has_underscore r = false.
Proof.
  induction s as [|c s IH]; [discriminate|].
  cbn [Py.has_underscore Py.rsplit1]. intros H.
  destruct (Py.has_underscore s) eqn:Es.
  - destruct (IH eq_refl) as (l & r & -> & Hr).
    exists (String c l), r. auto.
  - rewrite (rsplit1_no_underscore s Es).
    rewrite orb_false_r in H. rewrite H.
    exists EmptyString, s. auto.
Qed.

Lemma split1_with_underscore (s : string) :
  Py.has_underscore s = true ->
  exists l r, Py.split1 s = [l; r] /\ Py.has_underscore l = false /\
              s = (l ++ "_" ++ r)%string.
Proof.
  induction s as [|c s IH]; [discriminate|].
  cbn [Py.has_underscore Py.split1]. intros H.
  destruct (Ascii.eqb_spec c "_") as [-> | Hc].
  - exists EmptyString, s. auto.
  - cbn [orb] in H. destruct (IH H) as (l & r & -> & Hl & E).
    exists (String c l), r. split; [reflexivity|]. split.
    + cbn [Py.has_underscore]. rewrite Hl.
      destruct (Ascii.eqb_spec c "_"); [contradiction | reflexivity].
    + rewrite E at 1. reflexivity.
Qed.

(** The two halves of a decoded name with an underscore spell the name. *)
Lemma decode_join (k : resource_kind) (name : string) :
  Py.has_underscore name = true ->
  (fst (decode k name) ++ "_" ++ snd (decode k name))%string = name.
Proof.
  intros H. destruct k; cbn [decode].
  - unfold disk_decode.
    destruct (rsplit1_shape name H) as (l & r & E & _). rewrite E. cbn [fst snd].
    symmetry. apply rsplit1_two, E.
  - unfold replication_decode.
    destruct (rsplit1_shape name H) as (l & r & E & _). rewrite E. cbn [fst snd].
    symmetry. apply rsplit1_two, E.
  - unfold system_pool_decode.
    destruct (split1_with_underscore name H) as (l & r & E & _ & En).
    rewrite E. cbn. symmetry. exact En.
  - unfold system_pool_decode.
    destruct (split1_with_underscore name H) as (l & r & E & _ & En).
    rewrite E. cbn. symmetry. exact En.
Qed.

End SplitShapes.

(** X1. Decoding loses nothing of a name that holds an underscore: entity
    id, underscore and attribute spell the raw name again; for disks and
    replication tasks the attribute holds no underscore, for pools the
    entity id holds none. *)
Theorem decode_recomposes (k : resource_kind) (name : string) :
  Py.has_underscore name = true ->
  (fst (decode k name) ++ "_" ++ snd (decode k name))%string = name /\
  match k with
  | Disk | Replication => Py.has_underscore (snd (decode k name)) = false
  | Pool | PoolHealth => Py.has_underscore (fst (decode k name)) = false
  end.
Proof.
  intros H. split; [apply decode_join, H|].
  destruct k; cbn [decode].
  - unfold disk_decode.
    destruct (rsplit1_shape name H) as (l & r & -> & Hr). exact Hr.
  - unfold replication_decode.
    destruct (rsplit1_shape name H) as (l & r & -> & Hr). exact Hr.
  - unfold system_pool_decode.
    destruct (split1_with_underscore name H) as (l & r & -> & Hl & _). exact Hl.
  - unfold system_pool_decode.
    destruct (split1_with_underscore name H) as (l & r & -> & Hl & _). exact Hl.
Qed.

Lemma decode_recomposes_witness :
  Py.has_underscore "tank-backup_last_run" = true /\
  (fst (decode Replication "tank-backup_last_run") ++ "_" ++
   snd (decode Replication "tank-backup_last_run"))%string
    = "tank-backup_last_run" /\
  Py.has_underscore (snd (decode Replication "tank-backup_last_run")) = false.
Proof.
  split; [reflexivity|].
  exact (decode_recomposes Replication "tank-backup_last_run" eq_refl).
Defined.

(** X2. Two raw names that both hold an underscore and decode, under one
    resource kind, to the same entity and attribute are the same name. *)
Theorem decode_injective_with_underscore (k : resource_kind)
    (name1 name2 : string) :
  Py.has_underscore name1 = true ->
  Py.has_underscore name2 = true ->
  decode k name1 = decode k name2 ->
  name1 = name2.
Proof.
  intros H1 H2 E.
  rewrite <- (decode_join k name1 H1), <- (decode_join k name2 H2), E.
  reflexivity.
Qed.

Lemma decode_injective_with_underscore_witness :
  Py.has_underscore "ada0_temperature" = true /\
  Py.has_underscore "ada0_temperature" = true /\
  decode Disk "ada0_temperature" = decode Disk "ada0_temperature" /\
  "ada0_temperature" = "ada0_temperature".
Proof.
  repeat (split; [reflexivity|]).
  exact (decode_injective_with_underscore Disk "ada0_temperature"
           "ada0_temperature" eq_refl eq_refl eq_refl).
Defined.


Section HistoryFacts.

Variable split : string -> string * string.
Variable system_id : string.

Lemma history_group_step (acc : list (string * entity_entry))
    (m : metric_row) (eid : string) :
  history_of (group_step split system_id acc m) eid =
  if entity_is split eid m
  then Some (match history_of acc eid with Some h => h | None => [] end
             ++ [history_point_of split m])
  else history_of acc eid.
Proof.
  unfold group_step, entity_is, history_of, history_point_of.
  destruct (split (m_metric_name m)) as [e0 a0]. cbn [fst snd].
  rewrite dict_get_update, dict_mem_get.
  destruct (String.eqb_spec e0 eid) as [-> | Hne].
  - destruct (dict_get eid acc) as [e|] eqn:Eg.
    + rewrite Eg. reflexivity.
    + rewrite dict_get_app, Eg. cbn [dict_get]. rewrite String.eqb_refl.
      reflexivity.
  - destruct (dict_get e0 acc); [reflexivity|].
    rewrite dict_get_app. cbn [dict_get].
    destruct (String.eqb_spec e0 eid); [contradiction|].
    destruct (dict_get eid acc); reflexivity.
Qed.

Lemma history_fold (rows : list metric_row)
    (acc : list (string * entity_entry)) (eid : string) :
  history_of (fold_left (group_step split system_id) rows acc) eid =
  match history_of acc eid, filter (entity_is split eid) rows with
  | None, [] => None
  | None, l => Some (map (history_point_of split) l)
  | Some h, l => Some (h ++ map (history_point_of split) l)
  end.
Proof.
  revert acc. induction rows as [|m rows IH]; intros acc.
  - cbn. destruct (history_of acc eid); [rewrite app_nil_r|]; reflexivity.
  - cbn [fold_left filter]. rewrite IH, history_group_step.
    destruct (entity_is split eid m).
    + destruct (history_of acc eid) as [h|]; cbn [map].
      * rewrite <- app_assoc. reflexivity.
      * reflexivity.
    + reflexivity.
Qed.

(** The first row of an entity fixes its ['last_updated']. *)
Lemma last_updated_group_step (acc : list (string * entity_entry))
    (m : metric_row) (eid : string) :
  option_map e_last_updated (dict_get eid (group_step split system_id acc m)) =
  match option_map e_last_updated (dict_get eid acc) with
  | Some t => Some t
  | None => if entity_is split eid m then Some (m_timestamp m) else None
  end.
Proof.
  unfold group_step, entity_is.
  destruct (split (m_metric_name m)) as [e0 a0]. cbn [fst snd].
  rewrite dict_get_update, dict_mem_get.
  destruct (String.eqb_spec e0 eid) as [-> | Hne].
  - destruct (dict_get eid acc) as [e|] eqn:Eg.
    + rewrite Eg. reflexivity.
    + rewrite dict_get_app, Eg. cbn [dict_get]. rewrite String.eqb_refl.
      reflexivity.
  - destruct (dict_get e0 acc).
    + destruct (dict_get eid acc); reflexivity.
    + rewrite dict_get_app. cbn [dict_get].
      destruct (String.eqb_spec e0 eid); [contradiction|].
      destruct (dict_get eid acc); reflexivity.
Qed.

Lemma last_updated_fold (rows : list metric_row)
    (acc : list (string * entity_entry)) (eid : string) :
  option_map e_last_updated
    (dict_get eid (fold_left (group_step split system_id) rows acc)) =
  match option_map e_last_updated (dict_get eid acc) with
  | Some t => Some t
  | None => option_map m_timestamp (find (entity_is split eid) rows)
  end.
Proof.
  revert acc. induction rows as [|m rows IH]; intros acc.
  - cbn. destruct (option_map e_last_updated (dict_get eid acc)); reflexivity.
  - cbn [fold_left find]. rewrite IH, last_updated_group_step.
    destruct (option_map e_last_updated (dict_get eid acc)); [reflexivity|].
    destruct (entity_is split eid m); reflexivity.
Qed.

Lemma entry_of_group_rows (rows : list metric_row) (eid : string) :
  entry_of (map snd (group_rows split system_id rows)) eid =
  dict_get eid (group_rows split system_id rows).
Proof. apply find_keyed, keyed_group_rows. Qed.

End HistoryFacts.

(** X3. In the per-system disk and pool views, the history of an entity
    holds one point for every fetched row that decodes to the entity, in the
    order the rows were fetched, each with the row's attribute, value and
    timestamp; an entity is listed exactly when some fetched row decodes to
    it. *)
Theorem history_keeps_every_row (v : system_view) (system_id : string)
    (rows : list metric_row) (eid : string) :
  match entry_of (project v system_id rows) eid with
  | Some e =>
      e_history e = map (history_point_of (decode (view_kind v)))
                        (filter (entity_is (decode (view_kind v)) eid) rows) /\
      filter (entity_is (decode (view_kind v)) eid) rows <> []
  | None => filter (entity_is (decode (view_kind v)) eid) rows = []
  end.
Proof.
  unfold project. rewrite entry_of_group_rows.
  pose proof (history_fold (decode (view_kind v)) system_id rows [] eid) as H.
  unfold history_of in H. fold (group_rows (decode (view_kind v)) system_id rows) in H.
  cbn [dict_get option_map] in H.
  destruct (dict_get eid (group_rows (decode (view_kind v)) system_id rows)) as [e|];
    cbn [option_map] in H;
    destruct (filter (entity_is (decode (view_kind v)) eid) rows) as [|m l];
    try discriminate H.
  - injection H as H. split; [exact H | discriminate].
  - reflexivity.
Qed.


Section DictionaryKeys.

Context {V : Type}.

Lemma dict_get_none (k : string) (d : list (string * V)) :
  dict_get k d = None <-> ~ In k (map fst d).
Proof.
  induction d as [|[k0 v] d IH]; cbn [dict_get map fst In].
  - tauto.
  - destruct (String.eqb_spec k0 k) as [-> | Hne].
    + split; [discriminate | intros H; exfalso; apply H; left; reflexivity].
    + rewrite IH. tauto.
Qed.

Lemma dict_mem_false (k : string) (d : list (string * V)) :
  dict_mem k d = false -> ~ In k (map fst d).
Proof.
  unfold dict_mem. destruct (dict_get k d) eqn:E; [discriminate|].
  intros _. apply dict_get_none, E.
Qed.

Lemma dict_update_keys (k : string) (f : V -> V) (d : list (string * V)) :
  map fst (dict_update k f d) = map fst d.
Proof.
  induction d as [|[k0 v] d IH]; [reflexivity|].
  cbn [dict_update]. destruct (k0 =? k)%string; cbn [map fst];
    [reflexivity | rewrite IH; reflexivity].
Qed.

Lemma dict_update_Forall (Q : V -> Prop) (k : string) (f : V -> V)
    (d : list (string * V)) :
  (forall v, Q v -> Q (f v)) ->
  Forall (fun kv => Q (snd kv)) d ->
  Forall (fun kv => Q (snd kv)) (dict_update k f d).
Proof.
  intros Hf. induction 1 as [|[k0 v] d Hv Hd IH]; [constructor|].
  cbn [dict_update]. destruct (k0 =? k)%string.
  - constructor; [apply Hf, Hv | exact Hd].
  - constructor; [exact Hv | exact IH].
Qed.

Lemma NoDup_snoc (k : string) (l : list string) :
  NoDup l -> ~ In k l -> NoDup (l ++ [k]).
Proof.
  induction 1 as [|x l Hx Hl IH]; intros Hk.
  - constructor; [intros [] | constructor].
  - cbn [app]. constructor.
    + intros Hin. apply in_app_or in Hin as [Hin | [-> | []]];
        [exact (Hx Hin) | apply Hk; left; reflexivity].
    + apply IH. intros Hin. apply Hk. right. exact Hin.
Qed.

End DictionaryKeys.

Section DistinctKeys.

Variable split : string -> string * string.
Variable system_id : string.

Lemma distinct_keys_step (acc : list (string * entity_entry)) (m : metric_row) :
  distinct_keys acc -> distinct_keys (group_step split system_id acc m).
Proof.
  intros [Hk Hm]. unfold group_step, distinct_keys.
  destruct (split (m_metric_name m)) as [e0 a0].
  rewrite dict_update_keys. split.
  - destruct (dict_mem e0 acc) eqn:E; [exact Hk|].
    rewrite map_app. apply NoDup_snoc; [exact Hk | apply dict_mem_false, E].
  - apply (dict_update_Forall (fun e => NoDup (map fst (e_metrics e)))).
    + intros e He. cbn [record_point e_metrics].
      destruct (dict_mem a0 (e_metrics e)) eqn:E; [exact He|].
      rewrite map_app. apply NoDup_snoc; [exact He | apply dict_mem_false, E].
    + destruct (dict_mem e0 acc); [exact Hm|].
      apply Forall_app. split; [exact Hm|].
      constructor; [constructor | constructor].
Qed.

Lemma distinct_keys_group_rows (rows : list metric_row) :
  distinct_keys (group_rows split system_id rows).
Proof.
  unfold group_rows.
  assert (H : forall acc, distinct_keys acc ->
                distinct_keys (fold_left (group_step split system_id) rows acc)).
  { induction rows as [|m rows IH]; intros acc Hd; [exact Hd|].
    cbn [fold_left]. apply IH, distinct_keys_step, Hd. }
  apply H. split; constructor.
Qed.

Lemma keyed_ids (acc : list (string * entity_entry)) :
  keyed acc -> map e_id (map snd acc) = map fst acc.
Proof.
  induction 1 as [|[k e] acc Hk _ IH]; [reflexivity|].
  cbn [map snd fst]. cbn in Hk. rewrite Hk, IH. reflexivity.
Qed.

End DistinctKeys.

(** X4. The list the per-system disk or pool view returns names every
    entity once, every entry names each of its attributes once, and an
    entity is listed exactly when some fetched row decodes to it. *)
Theorem snapshot_lists_each_entity_once (v : system_view)
    (system_id : string) (rows : list metric_row) :
  NoDup (map e_id (project v system_id rows)) /\
  (forall e, In e (project v system_id rows) ->
             NoDup (map fst (e_metrics e))) /\
  (forall eid, In eid (map e_id (project v system_id rows)) <->
               exists m, In m rows /\ fst (decode (view_kind v) (m_metric_name m)) = eid).
Proof.
  unfold project.
  destruct (distinct_keys_group_rows (decode (view_kind v)) system_id rows) as [Hk Hm].
  pose proof (keyed_ids _ (keyed_group_rows (decode (view_kind v)) system_id rows)) as Hids.
  split; [rewrite Hids; exact Hk|]. split.
  - intros e He. apply in_map_iff in He as ([k0 e0] & <- & Hin).
    rewrite Forall_forall in Hm. exact (Hm _ Hin).
  - intros eid. rewrite Hids.
    pose proof (history_fold (decode (view_kind v)) system_id rows [] eid) as H.
    unfold history_of in H. fold (group_rows (decode (view_kind v)) system_id rows) in H.
    cbn [dict_get option_map] in H.
    destruct (dict_get eid (group_rows (decode (view_kind v)) system_id rows)) as [e|] eqn:Eg.
    + split; [intros _ | intros _].
      * destruct (filter (entity_is (decode (view_kind v)) eid) rows) as [|m l] eqn:Ef;
          [discriminate H|].
        assert (Hin : In m (filter (entity_is (decode (view_kind v)) eid) rows))
          by (rewrite Ef; left; reflexivity).
        apply filter_In in Hin as [Hin He]. exists m. split; [exact Hin|].
        apply String.eqb_eq. exact He.
      * destruct (in_dec string_dec eid
                    (map fst (group_rows (decode (view_kind v)) system_id rows)))
          as [Hi | Hi]; [exact Hi|].
        apply dict_get_none in Hi. congruence.
    + split.
      * intros Hin. apply dict_get_none in Eg. contradiction.
      * intros (m & Hin & He). exfalso.
        destruct (filter (entity_is (decode (view_kind v)) eid) rows) as [|m' l] eqn:Ef;
          [|discriminate H].
        assert (Hf : In m (filter (entity_is (decode (view_kind v)) eid) rows)).
        { apply filter_In. split; [exact Hin|]. apply String.eqb_eq. exact He. }
        rewrite Ef in Hf. destruct Hf.
Qed.


Section SortedFacts.

Context {A B : Type}.

Lemma StronglySorted_filter (R : A -> A -> Prop) (f : A -> bool) (l : list A) :
  StronglySorted R l -> StronglySorted R (filter f l).
Proof.
  induction 1 as [|a l Hs IH Ha]; [constructor|].
  cbn [filter]. destruct (f a); [|exact IH].
  constructor; [exact IH|].
  rewrite Forall_forall in *. intros x Hx.
  apply filter_In in Hx as [Hx _]. exact (Ha x Hx).
Qed.

Lemma StronglySorted_map (R : A -> A -> Prop) (R' : B -> B -> Prop)
    (P : A -> Prop) (g : A -> B) (l : list A) :
  (forall a b, P a -> P b -> R a b -> R' (g a) (g b)) ->
  Forall P l -> StronglySorted R l -> StronglySorted R' (map g l).
Proof.
  intros Hg HP. induction 1 as [|a l Hs IH Ha]; [constructor|].
  apply Forall_cons_iff in HP as [Pa Pl]. cbn [map].
  constructor; [exact (IH Pl)|].
  rewrite Forall_forall in *. intros y Hy.
  apply in_map_iff in Hy as (x & <- & Hx).
  exact (Hg a x Pa (Pl x Hx) (Ha x Hx)).
Qed.

Lemma filter_map_swap (g : A -> B) (f : B -> bool) (l : list A) :
  filter f (map g l) = map g (filter (fun a => f (g a)) l).
Proof.
  induction l as [|a l IH]; [reflexivity|].
  cbn [map filter]. destruct (f (g a)); cbn [map]; rewrite IH; reflexivity.
Qed.

End SortedFacts.

(** X5. In the per-system disk and pool views, the ['last_updated'] of an
    entity is the timestamp of the first fetched row of the entity: the
    newest row of the entity's first metric name in byte order, which need
    not be the entity's newest row. *)
Theorem last_updated_is_first_name_newest (v : system_view) (db : database)
    (now : Z) (system_id : string) (hours : Z) (rows : list metric_row)
    (eid : string) (t : Z) :
  projection_query v db now system_id hours rows ->
  option_map e_last_updated (entry_of (project v system_id rows) eid) = Some t ->
  exists m,
    In m (selected v db now system_id hours) /\
    fst (decode (view_kind v) (m_metric_name m)) = eid /\
    t = m_timestamp m /\
    forall m', In m' (selected v db now system_id hours) ->
               fst (decode (view_kind v) (m_metric_name m')) = eid ->
               String.compare (m_metric_name m) (m_metric_name m') <> Gt /\
               (m_metric_name m' = m_metric_name m ->
                m_timestamp m' <= m_timestamp m).
Proof.
  intros Hq Ht. unfold project in Ht. rewrite entry_of_group_rows in Ht.
  unfold group_rows in Ht. rewrite last_updated_fold in Ht.
  cbn [dict_get option_map] in Ht.
  destruct (find (entity_is (decode (view_kind v)) eid) rows) as [m|] eqn:Ef;
    [|discriminate Ht].
  injection Ht as <-.
  destruct (find_some _ _ Ef) as [Hin He].
  apply (fetchall_In _ _ _ m Hq) in Hin. apply String.eqb_eq in He.
  exists m. repeat split; auto.
  - destruct (find_first _ _ _ Ef) as (l1 & l2 & Hrows & Hl1).
    apply (fetchall_In _ _ _ m' Hq) in H. rewrite Hrows in H.
    apply in_app_or in H as [H | [<- | H]].
    + apply Hl1 in H. unfold entity_is in H. rewrite H0, String.eqb_refl in H.
      discriminate H.
    + rewrite string_compare_refl. discriminate.
    + destruct Hq as [_ Hs]. rewrite Hrows in Hs.
      pose proof (sorted_after _ _ _ _ Hs m' H) as Hord.
      unfold by_name_time_desc in Hord.
      destruct (String.compare (m_metric_name m) (m_metric_name m'));
        discriminate.
  - intros Hn.
    destruct (find_first _ _ _ Ef) as (l1 & l2 & Hrows & Hl1).
    apply (fetchall_In _ _ _ m' Hq) in H. rewrite Hrows in H.
    apply in_app_or in H as [H | [<- | H]].
    + apply Hl1 in H. unfold entity_is in H. rewrite H0, String.eqb_refl in H.
      discriminate H.
    + lia.
    + destruct Hq as [_ Hs]. rewrite Hrows in Hs.
      apply same_name_newer_first;
        [exact (sorted_after _ _ _ _ Hs m' H) | symmetry; exact Hn].
Qed.

Lemma last_updated_is_first_name_newest_witness :
  projection_query SystemDisks tie_db t_now "nas1" 1 [tie_first; tie_second] /\
  option_map e_last_updated
    (entry_of (project SystemDisks "nas1" [tie_first; tie_second]) "ada0")
    = Some (t_now - 60) /\
  exists m,
    In m (selected SystemDisks tie_db t_now "nas1" 1) /\
    fst (decode Disk (m_metric_name m)) = "ada0" /\
    t_now - 60 = m_timestamp m /\
    forall m', In m' (selected SystemDisks tie_db t_now "nas1" 1) ->
               fst (decode Disk (m_metric_name m')) = "ada0" ->
               String.compare (m_metric_name m) (m_metric_name m') <> Gt /\
               (m_metric_name m' = m_metric_name m ->
                m_timestamp m' <= m_timestamp m).
Proof.
  assert (Hq : projection_query SystemDisks tie_db t_now "nas1" 1
                 [tie_first; tie_second]) by solve_fetchall.
  split; [exact Hq|]. split; [reflexivity|].
  exact (last_updated_is_first_name_newest SystemDisks tie_db t_now "nas1" 1
           [tie_first; tie_second] "ada0" (t_now - 60) Hq eq_refl).
Defined.

(** X6. In the per-system disk and pool views, within the history of an
    entity, the points of one attribute other than the sentinel ["value"]
    come newest first. *)
Theorem history_newest_first_per_attribute (v : system_view) (db : database)
    (now : Z) (system_id : string) (hours : Z) (rows : list metric_row)
    (eid attr : string) (e : entity_entry) :
  projection_query v db now system_id hours rows ->
  attr <> "value" ->
  entry_of (project v system_id rows) eid = Some e ->
  StronglySorted (fun a b => hp_timestamp b <= hp_timestamp a)
    (filter (fun h => (hp_attribute h =? attr)%string) (e_history e)).
Proof.
  intros [_ Hs] Hne He. unfold project in He. rewrite entry_of_group_rows in He.
  pose proof (history_fold (decode (view_kind v)) system_id rows [] eid) as H.
  unfold history_of in H. fold (group_rows (decode (view_kind v)) system_id rows) in H.
  rewrite He in H. cbn [dict_get option_map] in H.
  assert (Hh : e_history e = map (history_point_of (decode (view_kind v)))
                               (filter (entity_is (decode (view_kind v)) eid) rows)).
  { destruct (filter (entity_is (decode (view_kind v)) eid) rows); [discriminate H|].
    injection H as H. exact H. }
  rewrite Hh, filter_map_swap.
  apply (StronglySorted_map (fun a b => by_name_time_desc a b = true) _
           (fun m => decode (view_kind v) (m_metric_name m) = (eid, attr))).
  - intros a b Ha Hb Hab. cbn [history_point_of hp_timestamp].
    apply same_name_newer_first; [exact Hab|].
    rewrite (decode_not_sentinel (view_kind v) _ eid attr Ha Hne).
    rewrite (decode_not_sentinel (view_kind v) _ eid attr Hb Hne). reflexivity.
  - apply Forall_forall. intros m Hm.
    apply filter_In in Hm as [Hm Ha]. apply filter_In in Hm as [_ Hent].
    cbn [history_point_of hp_attribute] in Ha.
    unfold entity_is in Hent. apply String.eqb_eq in Ha, Hent.
    destruct (decode (view_kind v) (m_metric_name m)). cbn [fst snd] in *. congruence.
  - apply StronglySorted_filter, StronglySorted_filter, Hs.
Qed.

Lemma history_newest_first_per_attribute_witness :
  projection_query SystemDisks cooled_db t_now "nas1" 1 [cool_new; hot_old] /\
  "temperature" <> "value" /\
  StronglySorted (fun a b => hp_timestamp b <= hp_timestamp a)
    (filter (fun h => (hp_attribute h =? "temperature")%string)
       [history_point_of disk_decode cool_new;
        history_point_of disk_decode hot_old]).
Proof.
  assert (Hq : projection_query SystemDisks cooled_db t_now "nas1" 1
                 [cool_new; hot_old]).
  { split; [apply perm_swap | repeat (constructor; try reflexivity)]. }
  split; [exact Hq|]. split; [discriminate|].
  exact (history_newest_first_per_attribute SystemDisks cooled_db t_now "nas1" 1
           [cool_new; hot_old] "ada0" "temperature" _ Hq
           ltac:(discriminate) eq_refl).
Defined.


Section WriterFacts.

Lemma next_id_above (ids : list Z) (i : Z) : In i ids -> i < next_id ids.
Proof.
  unfold next_id. induction ids as [|j ids IH]; [intros []|].
  cbn [fold_right]. intros [-> | H]; [lia|].
  specialize (IH H). lia.
Qed.

Lemma updated_fact (j : Z) (set : alert_row -> alert_row) (l : list alert_row) :
  (forall a, alert_fact (set a) = alert_fact a) ->
  map alert_fact (map (updated j set) l) = map alert_fact l.
Proof.
  intros Hset. rewrite map_map. apply map_ext. intros a.
  unfold updated. destruct (a_id a =? j); [apply Hset | reflexivity].
Qed.

(** What each writer leaves in the three tables. *)
Lemma run_op_tables (op : alert_op) (db : database) :
  (exists new_metrics, metrics (run_op op db) = metrics db ++ new_metrics) /\
  (exists new_alerts,
     map alert_fact (alerts (run_op op db))
       = map alert_fact (alerts db) ++ map alert_fact new_alerts).
Proof.
  destruct op as [j | j psa | payload now]; cbn [run_op].
  - rewrite serve_acknowledge_alert.
    destruct (_ =? 0)%nat; cbn [snd].
    + split; [exists [] | exists []]; cbn [map]; rewrite app_nil_r; reflexivity.
    + cbn [update_alert fst metrics alerts].
      split; [exists [] | exists []]; cbn [map]; rewrite app_nil_r;
        [reflexivity | apply updated_fact; reflexivity].
  - rewrite serve_create_ticket. cbn [snd update_alert fst metrics alerts].
    split; [exists [] | exists []]; cbn [map]; rewrite app_nil_r;
      [reflexivity | apply updated_fact; reflexivity].
  - rewrite serve_receive_metrics.
    destruct (payload_metrics payload) as [ms|];
      [destruct (payload_alerts payload) as [als|]|]; cbn [snd].
    + destruct (batch_applied_shape (system payload) ms als now db)
        as (nm & na & _ & Hm & _ & Ha & _).
      split; [exists nm; exact Hm | exists na; rewrite Ha, map_app; reflexivity].
    + split; [exists [] | exists []]; cbn [map]; rewrite app_nil_r; reflexivity.
    + split; [exists [] | exists []]; cbn [map]; rewrite app_nil_r; reflexivity.
Qed.

End WriterFacts.

(** X7. The log is append-only under every writer of the program
    (acknowledge, create-ticket, ingestion): the metric rows present before
    a request are all still there afterwards, unchanged and in place, and
    so are the id, system, timestamp, severity and message of every alert;
    a request only ever adds rows at the end. *)
Theorem log_is_append_only (ops : list alert_op) (db : database) :
  (exists new_metrics,
     metrics (fold_left (fun d op => run_op op d) ops db)
       = metrics db ++ new_metrics) /\
  (exists new_alerts,
     map alert_fact (alerts (fold_left (fun d op => run_op op d) ops db))
       = map alert_fact (alerts db) ++ map alert_fact new_alerts).
Proof.
  revert db. induction ops as [|op ops IH]; intros db.
  - cbn [fold_left]. split; [exists [] | exists []]; cbn [map];
      rewrite app_nil_r; reflexivity.
  - cbn [fold_left].
    destruct (IH (run_op op db)) as [(nm & Hm) (na & Ha)].
    destruct (run_op_tables op db) as [(nm0 & Hm0) (na0 & Ha0)].
    split.
    + exists (nm0 ++ nm). rewrite Hm, Hm0, app_assoc. reflexivity.
    + exists (na0 ++ na). rewrite Ha, Ha0, map_app, app_assoc. reflexivity.
Qed.


Section FreshIds.

Lemma Forall2_In_l {A B : Type} (R : A -> B -> Prop) (l : list A) (l' : list B)
    (x : A) :
  Forall2 R l l' -> In x l -> exists y, In y l' /\ R x y.
Proof.
  induction 1 as [|a b l l' Hab _ IH]; [intros []|].
  intros [<- | Hin].
  - exists b. split; [left; reflexivity | exact Hab].
  - destruct (IH Hin) as (y & Hy & Hr). exists y. split; [right|]; assumption.
Qed.

Lemma Forall2_In_r {A B : Type} (R : A -> B -> Prop) (l : list A) (l' : list B)
    (y : B) :
  Forall2 R l l' -> In y l' -> exists x, In x l /\ R x y.
Proof.
  induction 1 as [|a b l l' Hab _ IH]; [intros []|].
  intros [<- | Hin].
  - exists a. split; [left; reflexivity | exact Hab].
  - destruct (IH Hin) as (x & Hx & Hr). exists x. split; [right|]; assumption.
Qed.

Lemma insert_metric_row (m : MetricData) (now : Z) (w : database) :
  exists r,
    metrics (fst (insert_metric m now w)) = metrics w ++ [r] /\
    metric_stored now m r /\
    m_id r = next_id (map m_id (metrics w)).
Proof. eexists. split; [reflexivity|]. repeat split. Qed.

Lemma insert_alert_row (a : AlertData) (now : Z) (w : database) :
  exists r,
    alerts (fst (insert_alert a now w)) = alerts w ++ [r] /\
    alert_stored now a r /\
    a_id r = next_id (map a_id (alerts w)).
Proof. eexists. split; [reflexivity|]. repeat split. Qed.

Lemma insert_metrics_ids (now : Z) (ms : list MetricData) (w : database) :
  exists rows,
    metrics (fold_left (fun w m => fst (insert_metric m now w)) ms w)
      = metrics w ++ rows /\
    Forall2 (metric_stored now) ms rows /\
    (forall old new, In old (metrics w) -> In new rows -> m_id old < m_id new) /\
    StronglySorted (fun a b => m_id a < m_id b) rows.
Proof.
  revert w. induction ms as [|m ms IH]; intros w.
  - exists []. cbn [fold_left]. rewrite app_nil_r.
    repeat split; try constructor. intros old new _ [].
  - cbn [fold_left].
    destruct (IH (fst (insert_metric m now w))) as (rows & Hm & Hf & Hlt & Hs).
    destruct (insert_metric_row m now w) as (r & Er & Hr & Hid).
    rewrite Er in Hm, Hlt.
    exists (r :: rows). rewrite Hm, <- app_assoc. split; [reflexivity|].
    split; [constructor; [exact Hr | exact Hf]|].
    split.
    + intros old new Hold [<- | Hnew].
      * rewrite Hid. apply next_id_above, in_map, Hold.
      * apply Hlt; [apply in_or_app; left; exact Hold | exact Hnew].
    + constructor; [exact Hs|]. apply Forall_forall. intros new Hnew.
      apply Hlt; [apply in_or_app; right; left; reflexivity | exact Hnew].
Qed.

Lemma insert_alerts_ids (now : Z) (als : list AlertData) (w : database) :
  exists rows,
    alerts (fold_left (fun w a => fst (insert_alert a now w)) als w)
      = alerts w ++ rows /\
    Forall2 (alert_stored now) als rows /\
    (forall old new, In old (alerts w) -> In new rows -> a_id old < a_id new) /\
    StronglySorted (fun a b => a_id a < a_id b) rows.
Proof.
  revert w. induction als as [|a als IH]; intros w.
  - exists []. cbn [fold_left]. rewrite app_nil_r.
    repeat split; try constructor. intros old new _ [].
  - cbn [fold_left].
    destruct (IH (fst (insert_alert a now w))) as (rows & Hm & Hf & Hlt & Hs).
    destruct (insert_alert_row a now w) as (r & Er & Hr & Hid).
    rewrite Er in Hm, Hlt.
    exists (r :: rows). rewrite Hm, <- app_assoc. split; [reflexivity|].
    split; [constructor; [exact Hr | exact Hf]|].
    split.
    + intros old new Hold [<- | Hnew].
      * rewrite Hid. apply next_id_above, in_map, Hold.
      * apply Hlt; [apply in_or_app; left; exact Hold | exact Hnew].
    + constructor; [exact Hs|]. apply Forall_forall. intros new Hnew.
      apply Hlt; [apply in_or_app; right; left; reflexivity | exact Hnew].
Qed.

(** The tables of a committed batch, with the keys of the new rows. *)
Lemma batch_applied_ids (s : SystemInfo) (ms : list MetricData)
    (als : list AlertData) (now : Z) (db : database) :
  exists new_metrics new_alerts,
    systems (batch_applied s ms als now db)
      = systems (fst (upsert_system s now db)) /\
    metrics (batch_applied s ms als now db) = metrics db ++ new_metrics /\
    Forall2 (metric_stored now) ms new_metrics /\
    (forall old new, In old (metrics db) -> In new new_metrics ->
                     m_id old < m_id new) /\
    StronglySorted (fun a b => m_id a < m_id b) new_metrics /\
    alerts (batch_applied s ms als now db) = alerts db ++ new_alerts /\
    Forall2 (alert_stored now) als new_alerts /\
    (forall old new, In old (alerts db) -> In new new_alerts ->
                     a_id old < a_id new) /\
    StronglySorted (fun a b => a_id a < a_id b) new_alerts.
Proof.
  unfold batch_applied.
  destruct (upsert_system_recorded s now db) as (_ & _ & Hum & Hua).
  destruct (insert_metrics_ids now ms (fst (upsert_system s now db)))
    as (rm & Hm & Hfm & Hltm & Hsm).
  destruct (insert_metrics_shape now ms (fst (upsert_system s now db)))
    as (rm' & _ & _ & Hms & Hma).
  destruct (insert_alerts_ids now als
              (fold_left (fun w m => fst (insert_metric m now w)) ms
                 (fst (upsert_system s now db))))
    as (ra & Ha & Hfa & Hlta & Hsa).
  destruct (insert_alerts_shape now als
              (fold_left (fun w m => fst (insert_metric m now w)) ms
                 (fst (upsert_system s now db))))
    as (ra' & _ & _ & Has & Ham).
  exists rm, ra. rewrite Has, Ham, Ha, Hm, Hma, Hua.
  rewrite Hma, Hua in Hlta. rewrite Hum in Hltm, Hm. rewrite Hum.
  repeat split; assumption.
Qed.

Lemma sorted_lt_NoDup {A : Type} (f : A -> Z) (l : list A) :
  StronglySorted (fun a b => f a < f b) l -> NoDup (map f l).
Proof.
  induction 1 as [|a l Hs IH Ha]; [constructor|].
  cbn [map]. constructor; [|exact IH].
  intros Hin. apply in_map_iff in Hin as (b & E & Hb).
  rewrite Forall_forall in Ha. specialize (Ha b Hb). lia.
Qed.

Lemma NoDup_app_lt {A : Type} (f : A -> Z) (old new : list A) :
  NoDup (map f old) ->
  StronglySorted (fun a b => f a < f b) new ->
  (forall a b, In a old -> In b new -> f a < f b) ->
  NoDup (map f (old ++ new)).
Proof.
  intros Hold Hnew Hlt. induction old as [|a old IH]; cbn [app map].
  - apply sorted_lt_NoDup, Hnew.
  - cbn [map] in Hold. apply NoDup_cons_iff in Hold as [Ha Hold].
    constructor.
    + rewrite map_app. intros Hin. apply in_app_or in Hin as [Hin | Hin];
        [exact (Ha Hin)|].
      apply in_map_iff in Hin as (b & E & Hb).
      specialize (Hlt a b (or_introl eq_refl) Hb). lia.
    + apply IH; [exact Hold|].
      intros x y Hx Hy. apply Hlt; [right; exact Hx | exact Hy].
Qed.

Lemma upsert_system_ids (s : SystemInfo) (now : Z) (db : database) :
  map sys_id (systems (fst (upsert_system s now db))) =
  if existsb (fun r => (sys_id r =? si_id s)%string) (systems db)
  then map sys_id (systems db)
  else map sys_id (systems db) ++ [si_id s].
Proof.
  cbn [upsert_system fst systems].
  destruct (existsb _ (systems db)) eqn:E.
  - rewrite map_map. apply map_ext. intros r.
    destruct (String.eqb_spec (sys_id r) (si_id s)) as [-> | _]; reflexivity.
  - rewrite map_app. reflexivity.
Qed.

Lemma upsert_system_unique (s : SystemInfo) (now : Z) (db : database) :
  NoDup (map sys_id (systems db)) ->
  NoDup (map sys_id (systems (fst (upsert_system s now db)))).
Proof.
  intros H. rewrite upsert_system_ids.
  destruct (existsb _ (systems db)) eqn:E; [exact H|].
  apply NoDup_snoc; [exact H|].
  intros Hin. apply in_map_iff in Hin as (r & Hid & Hr).
  assert (Ht : existsb (fun r => (sys_id r =? si_id s)%string) (systems db) = true).
  { apply existsb_exists. exists r. split; [exact Hr|].
    apply String.eqb_eq. exact Hid. }
  congruence.
Qed.

Lemma updated_ids (j : Z) (set : alert_row -> alert_row) (l : list alert_row) :
  (forall a, a_id (set a) = a_id a) ->
  map a_id (map (updated j set) l) = map a_id l.
Proof.
  intros Hset. rewrite map_map. apply map_ext. intros a.
  unfold updated. destruct (a_id a =? j); [apply Hset | reflexivity].
Qed.

Lemma run_op_unique_keys (op : alert_op) (db : database) :
  unique_keys db -> unique_keys (run_op op db).
Proof.
  intros (Hs & Hm & Ha). unfold unique_keys.
  destruct op as [j | j psa | payload now]; cbn [run_op].
  - rewrite serve_acknowledge_alert.
    destruct (_ =? 0)%nat; cbn [snd]; [auto|].
    cbn [update_alert fst systems metrics alerts].
    rewrite updated_ids by reflexivity. auto.
  - rewrite serve_create_ticket.
    cbn [snd update_alert fst systems metrics alerts].
    rewrite updated_ids by reflexivity. auto.
  - rewrite serve_receive_metrics.
    destruct (payload_metrics payload) as [ms|];
      [destruct (payload_alerts payload) as [als|]|]; cbn [snd]; auto.
    destruct (batch_applied_ids (system payload) ms als now db)
      as (nm & na & Es & Em & _ & Hltm & Hsm & Ea & _ & Hlta & Hsa).
    rewrite Es, Em, Ea. split; [apply upsert_system_unique, Hs|].
    split; apply NoDup_app_lt; assumption.
Qed.

End FreshIds.

(** X8. A batch that is accepted appends one metric row for each metric
    and one alert row for each alert of the payload, in payload order: the
    i-th new row holds the i-th item.  The new keys are larger than every
    key already in the table and grow along the batch: the key is an
    insertion sequence. *)
Theorem ingest_keys_are_fresh_and_increasing (payload : WebhookPayload)
    (now : Z) (db : database) (ms : list MetricData) (als : list AlertData) :
  payload_metrics payload = Some ms ->
  payload_alerts payload = Some als ->
  exists new_metrics new_alerts,
    metrics (snd (Request.serve (receive_metrics payload now) db))
      = metrics db ++ new_metrics /\
    alerts (snd (Request.serve (receive_metrics payload now) db))
      = alerts db ++ new_alerts /\
    Forall2 (metric_stored now) ms new_metrics /\
    Forall2 (alert_stored now) als new_alerts /\
    (forall old new, In old (metrics db) -> In new new_metrics ->
                     m_id old < m_id new) /\
    StronglySorted (fun a b => m_id a < m_id b) new_metrics /\
    (forall old new, In old (alerts db) -> In new new_alerts ->
                     a_id old < a_id new) /\
    StronglySorted (fun a b => a_id a < a_id b) new_alerts.
Proof.
  intros Hms Hals. rewrite serve_receive_metrics, Hms, Hals. cbn [snd].
  destruct (batch_applied_ids (system payload) ms als now db)
    as (nm & na & _ & Em & Hfm & Hltm & Hsm & Ea & Hfa & Hlta & Hsa).
  exists nm, na. rewrite Em, Ea.
  split; [reflexivity|]. split; [reflexivity|].
  split; [exact Hfm|]. split; [exact Hfa|].
  repeat split; assumption.
Qed.

Lemma ingest_keys_are_fresh_and_increasing_witness :
  payload_metrics foreign_batch = Some [foreign_metric] /\
  payload_alerts foreign_batch = Some [] /\
  exists new_metrics new_alerts,
    metrics (snd (Request.serve (receive_metrics foreign_batch t_now) tie_db))
      = metrics tie_db ++ new_metrics /\
    alerts (snd (Request.serve (receive_metrics foreign_batch t_now) tie_db))
      = alerts tie_db ++ new_alerts /\
    Forall2 (metric_stored t_now) [foreign_metric] new_metrics /\
    Forall2 (alert_stored t_now) [] new_alerts /\
    (forall old new, In old (metrics tie_db) -> In new new_metrics ->
                     m_id old < m_id new) /\
    StronglySorted (fun a b => m_id a < m_id b) new_metrics /\
    (forall old new, In old (alerts tie_db) -> In new new_alerts ->
                     a_id old < a_id new) /\
    StronglySorted (fun a b => a_id a < a_id b) new_alerts.
Proof.
  split; [reflexivity|]. split; [reflexivity|].
  exact (ingest_keys_are_fresh_and_increasing foreign_batch t_now tie_db
           [foreign_metric] [] eq_refl eq_refl).
Defined.

(** X9. Keys stay unique: if no two systems, no two metric rows and no two
    alerts share a key, the same holds after any sequence of acknowledge,
    create-ticket and ingestion requests; in particular ingesting a known
    system again never adds a second row for it. *)
Theorem keys_stay_unique (ops : list alert_op) (db : database) :
  unique_keys db -> unique_keys (run_ops ops db).
Proof.
  unfold run_ops. revert db. induction ops as [|op ops IH]; intros db H.
  - exact H.
  - cbn [fold_left]. apply IH, run_op_unique_keys, H.
Qed.

Lemma keys_stay_unique_witness :
  unique_keys empty_db /\
  unique_keys (run_ops [OpIngest foreign_batch t_now;
                        OpIngest foreign_batch (t_now + 60);
                        OpAcknowledge 1] empty_db).
Proof.
  assert (H : unique_keys empty_db) by (repeat split; constructor).
  split; [exact H|].
  exact (keys_stay_unique _ empty_db H).
Defined.


Section RoundTrips.

Lemma upsert_system_members (s : SystemInfo) (now : Z) (db : database)
    (r : system_row) :
  In r (systems (fst (upsert_system s now db))) <->
  r = system_row_of s now \/ (In r (systems db) /\ sys_id r <> si_id s).
Proof.
  cbn [upsert_system fst systems]. fold (system_row_of s now).
  destruct (existsb _ (systems db)) eqn:E.
  - rewrite in_map_iff. split.
    + intros (r0 & <- & Hr0).
      destruct (String.eqb_spec (sys_id r0) (si_id s)); auto.
    + intros [-> | [Hr Hne]].
      * apply existsb_exists in E as (r0 & Hr0 & Hid).
        exists r0. rewrite Hid. auto.
      * exists r. split; [|exact Hr].
        destruct (String.eqb_spec (sys_id r) (si_id s)); [contradiction|].
        reflexivity.
  - rewrite in_app_iff. cbn [In]. split.
    + intros [Hr | [<- | []]]; [|left; reflexivity].
      right. split; [exact Hr|]. intros Hid.
      assert (Ht : existsb (fun r0 => (sys_id r0 =? si_id s)%string)
                     (systems db) = true).
      { apply existsb_exists. exists r. split; [exact Hr|].
        apply String.eqb_eq. exact Hid. }
      congruence.
    + intros [-> | [Hr _]]; auto.
Qed.

End RoundTrips.

(** X10. After a batch is accepted, [get_systems] lists the system of the
    batch with the fields of the payload and the time of the request as
    [last_seen]; every row of that id is this one, every row of another id
    is listed exactly as before, and ids stay distinct. *)
Theorem ingested_system_is_listed (payload : WebhookPayload) (now : Z)
    (db : database) (ms : list MetricData) (als : list AlertData)
    (rows : list system_row) :
  NoDup (map sys_id (systems db)) ->
  payload_metrics payload = Some ms ->
  payload_alerts payload = Some als ->
  get_systems (snd (Request.serve (receive_metrics payload now) db)) rows ->
  In (system_row_of (system payload) now) rows /\
  (forall r, In r rows -> sys_id r = si_id (system payload) ->
             r = system_row_of (system payload) now) /\
  (forall r, sys_id r <> si_id (system payload) ->
             (In r rows <-> In r (systems db))) /\
  NoDup (map sys_id rows).
Proof.
  intros Hnd Hms Hals Hq.
  rewrite serve_receive_metrics, Hms, Hals in Hq. cbn [snd] in Hq.
  destruct (batch_applied_shape (system payload) ms als now db)
    as (nm & na & Es & _).
  unfold get_systems in Hq. rewrite Es in Hq.
  assert (Hin : forall r, In r rows <->
            r = system_row_of (system payload) now \/
            (In r (systems db) /\ sys_id r <> si_id (system payload))).
  { intros r. rewrite (fetchall_In _ _ _ r Hq). apply upsert_system_members. }
  split; [apply Hin; left; reflexivity|]. split; [|split].
  - intros r Hr Hid. apply Hin in Hr as [-> | [_ Hne]];
      [reflexivity | contradiction].
  - intros r Hne. rewrite Hin. split.
    + intros [-> | [Hr _]]; [|exact Hr]. exfalso. apply Hne. reflexivity.
    + intros Hr. right. split; assumption.
  - destruct Hq as [Hp _].
    apply (Permutation_NoDup (Permutation_map sys_id Hp)).
    apply upsert_system_unique, Hnd.
Qed.

Lemma ingested_system_is_listed_witness :
  NoDup (map sys_id (systems empty_db)) /\
  payload_metrics own_batch = Some [own_metric] /\
  payload_alerts own_batch = Some [] /\
  get_systems (snd (Request.serve (receive_metrics own_batch t_now) empty_db))
    [system_row_of nas1_info t_now] /\
  In (system_row_of (system own_batch) t_now) [system_row_of nas1_info t_now].
Proof.
  assert (Hq : get_systems
                 (snd (Request.serve (receive_metrics own_batch t_now) empty_db))
                 [system_row_of nas1_info t_now]) by apply fetchall_singleton.
  split; [constructor|]. split; [reflexivity|]. split; [reflexivity|].
  split; [exact Hq|].
  exact (proj1 (ingested_system_is_listed own_batch t_now empty_db
                  [own_metric] [] _ (NoDup_nil _) eq_refl eq_refl Hq)).
Defined.

(** X11. A metric of an accepted batch is returned by [get_system_metrics]
    for the metric's own system id, in every window that reaches back to
    the time of the request, with the fact's type, name, value, unit and
    metadata. *)
Theorem ingested_metric_is_returned (payload : WebhookPayload) (now : Z)
    (db : database) (ms : list MetricData) (als : list AlertData)
    (md : MetricData) (now' hours : Z) (rows : list metric_row) :
  payload_metrics payload = Some ms ->
  payload_alerts payload = Some als ->
  In md ms ->
  now' - 3600 * hours < now ->
  get_system_metrics (snd (Request.serve (receive_metrics payload now) db))
    now' (md_system_id md) None hours rows ->
  exists row, In row rows /\ metric_stored now md row.
Proof.
  intros Hms Hals Hmd Hw Hq.
  rewrite serve_receive_metrics, Hms, Hals in Hq. cbn [snd] in Hq.
  destruct (batch_applied_shape (system payload) ms als now db)
    as (nm & na & _ & Em & Hfm & _).
  destruct (Forall2_In_l _ _ _ md Hfm Hmd) as (row & Hrow & Hst).
  exists row. split; [|exact Hst].
  apply (fetchall_In _ _ _ row Hq). apply filter_In. split.
  - rewrite Em. apply in_or_app. right. exact Hrow.
  - unfold system_metrics_where.
    destruct Hst as (Hs & Ht & _). rewrite Hs, String.eqb_refl.
    cbn [andb]. rewrite andb_true_r. apply newer_than_spec. lia.
Qed.

Lemma ingested_metric_is_returned_witness :
  payload_metrics own_batch = Some [own_metric] /\
  payload_alerts own_batch = Some [] /\
  In own_metric [own_metric] /\
  t_now - 3600 * 1 < t_now /\
  exists row,
    In row [own_row; tie_first; tie_second] /\ metric_stored t_now own_metric row.
Proof.
  split; [reflexivity|]. split; [reflexivity|].
  split; [left; reflexivity|]. split; [reflexivity|].
  apply (ingested_metric_is_returned own_batch t_now tie_db [own_metric] []
           own_metric t_now 1 [own_row; tie_first; tie_second]
           eq_refl eq_refl (or_introl eq_refl) eq_refl).
  split; [|repeat (constructor; try reflexivity)].
  apply Permutation_sym, (Permutation_cons_app [tie_first; tie_second] []).
  rewrite app_nil_r. apply Permutation_refl.
Defined.

(** X12. Read your write. When every row of the log is older than the
    request, a metric of an accepted batch, the only one of the batch with
    its system and name, is the value the per-system disk or pool view of
    its type reports for the pair its name decodes to (the attribute not
    being the sentinel) for as long as it lies inside the view's window,
    with its value, unit and whole metadata dictionary, whatever order the
    database answers in. *)
Theorem ingested_metric_is_latest (v : system_view)
    (payload : WebhookPayload) (now : Z) (db : database)
    (ms : list MetricData) (als : list AlertData) (md : MetricData)
    (now' hours : Z) (rows : list metric_row) (eid attr : string) :
  payload_metrics payload = Some ms ->
  payload_alerts payload = Some als ->
  In md ms ->
  (forall md', In md' ms -> md_system_id md' = md_system_id md ->
               md_metric_name md' = md_metric_name md -> md' = md) ->
  (forall old, In old (metrics db) -> m_timestamp old < now) ->
  In (md_metric_type md) (kind_types (view_kind v)) ->
  decode (view_kind v) (md_metric_name md) = (eid, attr) ->
  attr <> "value" ->
  now' - 3600 * view_hours v hours < now ->
  projection_query v
    (snd (Request.serve (receive_metrics payload now) db))
    now' (md_system_id md) hours rows ->
  latest_of (project v (md_system_id md) rows) eid attr =
  Some {| av_value := md_value md; av_unit := md_unit md;
          av_timestamp := now;
          av_metadata := stored_metadata (md_metadata md) |}.
Proof.
  intros Hms Hals Hmd Honly Hold Hty Hdec Hne Hw Hq.
  rewrite serve_receive_metrics, Hms, Hals in Hq. cbn [snd] in Hq.
  destruct (batch_applied_shape (system payload) ms als now db)
    as (nm & na & _ & Em & Hfm & _).
  destruct (Forall2_In_l _ _ _ md Hfm Hmd) as (row & Hrow & Hst).
  assert (Hsel : In row (selected v (batch_applied (system payload) ms als now db)
                           now' (md_system_id md) hours)).
  { apply filter_In. split.
    - rewrite Em. apply in_or_app. right. exact Hrow.
    - unfold kind_where. destruct Hst as (Hs & Ht & Hty' & _).
      rewrite Hs, String.eqb_refl. cbn [andb]. apply andb_true_iff. split.
      + apply existsb_exists. exists (md_metric_type md). split; [exact Hty|].
        rewrite Hty'. apply String.eqb_refl.
      + apply newer_than_spec. lia. }
  assert (Hrd : decode (view_kind v) (m_metric_name row) = (eid, attr)).
  { destruct Hst as (_ & _ & _ & Hn & _). rewrite Hn. exact Hdec. }
  destruct (latest_has_maximal_timestamp_named v _ now' (md_system_id md) hours
              rows eid attr Hq Hne (ex_intro _ row (conj Hsel Hrd)))
    as (m & Hm & Hmd' & Hlat & Hmax).
  rewrite Hlat. f_equal.
  pose proof (Hmax row Hsel Hrd) as Hge.
  apply filter_In in Hm as [Hm Hwhere]. rewrite Em in Hm.
  apply in_app_or in Hm as [Hm | Hm].
  - specialize (Hold m Hm). destruct Hst as (_ & Ht & _). lia.
  - destruct (Forall2_In_r _ _ _ m Hfm Hm) as (md' & Hmd'in & Hst').
    assert (Emd : md' = md).
    { apply Honly; [exact Hmd'in | |].
      - destruct Hst' as (Hs' & _). rewrite <- Hs'.
        unfold kind_where in Hwhere.
        apply andb_true_iff in Hwhere as [Hwhere _].
        apply andb_true_iff in Hwhere as [Hwhere _].
        apply String.eqb_eq. exact Hwhere.
      - destruct Hst' as (_ & _ & _ & Hn' & _). rewrite <- Hn'.
        rewrite (decode_not_sentinel (view_kind v) _ eid attr Hmd' Hne).
        rewrite (decode_not_sentinel (view_kind v) _ eid attr Hdec Hne). reflexivity. }
    subst md'. destruct Hst' as (_ & Ht & _ & _ & Hv & Hu & Hmeta).
    unfold point_of. rewrite Ht, Hv, Hu, Hmeta. reflexivity.
Qed.

Lemma ingested_metric_is_latest_witness :
  projection_query SystemDisks
    (snd (Request.serve (receive_metrics own_batch t_now) tie_db))
    t_now "nas1" 1 [own_row; tie_first; tie_second] /\
  latest_of (project SystemDisks "nas1" [own_row; tie_first; tie_second])
            "ada0" "temperature" =
  Some {| av_value := 44 # 1; av_unit := Some "C"; av_timestamp := t_now;
          av_metadata := None |}.
Proof.
  assert (Hq : projection_query SystemDisks
                 (snd (Request.serve (receive_metrics own_batch t_now) tie_db))
                 t_now "nas1" 1 [own_row; tie_first; tie_second]).
  { split; [|repeat (constructor; try reflexivity)].
    apply Permutation_sym, (Permutation_cons_app [tie_first; tie_second] []).
    rewrite app_nil_r. apply Permutation_refl. }
  split; [exact Hq|].
  apply (ingested_metric_is_latest SystemDisks own_batch t_now tie_db [own_metric] []
           own_metric t_now 1 [own_row; tie_first; tie_second]
           "ada0" "temperature" eq_refl eq_refl (or_introl eq_refl)).
  - intros md' [<- | []] _ _. reflexivity.
  - intros old [<- | [<- | []]]; reflexivity.
  - left; reflexivity.
  - reflexivity.
  - discriminate.
  - reflexivity.
  - exact Hq.
Defined.

Section SummaryBounds.

Lemma count_where_nonneg key cond (rows : list metric_row) :
  0 <= count_distinct_where key cond rows.
Proof. apply count_distinct_nonneg. Qed.

(** A rule that selects fewer rows counts fewer distinct keys. *)
Lemma count_where_mono key (c c' : metric_row -> bool)
    (rows : list metric_row) :
  (forall m, In m rows -> c m = true -> c' m = true) ->
  count_distinct_where key c rows <= count_distinct_where key c' rows.
Proof.
  intros H. unfold count_distinct_where, Sql.count_distinct.
  apply inj_le, NoDup_incl_length; [apply NoDup_nodup|].
  intros x Hx. apply nodup_In. apply nodup_In in Hx.
  apply in_map_iff in Hx as (m & <- & Hm). apply in_map.
  apply filter_In in Hm as [Hm Hc]. apply filter_In. auto.
Qed.

(** A key with a row the rule selects is one of the keys counted. *)
Lemma counted_keys (keys : list string) key cond (rows : list metric_row) :
  NoDup keys ->
  (forall x, In x keys -> exists m, In m rows /\ cond m = true /\ key m = x) ->
  Z.of_nat (List.length keys) <= count_distinct_where key cond rows.
Proof.
  intros Hnd H. unfold count_distinct_where, Sql.count_distinct.
  apply inj_le, NoDup_incl_length; [exact Hnd|].
  intros x Hx. apply nodup_In.
  destruct (H x Hx) as (m & Hm & Hc & <-).
  apply in_map, filter_In. auto.
Qed.

Lemma clamped_in_range (total a b : Z) :
  0 <= total -> 0 <= a -> 0 <= b ->
  0 <= (if total - a - b <? 0 then 0 else total - a - b) <= total.
Proof. intros. destruct (Z.ltb_spec (total - a - b) 0); lia. Qed.

End SummaryBounds.

(** X13. Every counter of the three fleet summaries is a count, never
    negative; the healthy count of the replication and pool summaries lies
    between zero and the total, and that of the disk summary is at most the
    total. *)
Theorem summary_counters_in_range (db : database) (now : Z) :
  (0 <= healthy_tasks (get_replication_summary db now)
     <= total_tasks (get_replication_summary db now) /\
   0 <= failed_tasks (get_replication_summary db now) /\
   0 <= stale_tasks (get_replication_summary db now)) /\
  (0 <= healthy_pools (get_pools_summary db now)
     <= total_pools (get_pools_summary db now) /\
   0 <= degraded_pools (get_pools_summary db now) /\
   0 <= needs_scrub (get_pools_summary db now) /\
   0 <= active_resilvers (get_pools_summary db now)) /\
  (healthy_disks (get_disks_summary db now)
     <= total_disks (get_disks_summary db now) /\
   0 <= total_disks (get_disks_summary db now) /\
   0 <= warnings (get_disks_summary db now) /\
   0 <= smart_failures (get_disks_summary db now)
     <= critical (get_disks_summary db now)).
Proof.
  cbv zeta beta delta [get_replication_summary get_pools_summary
                       get_disks_summary].
  cbn [healthy_tasks total_tasks failed_tasks stale_tasks healthy_pools
       total_pools degraded_pools needs_scrub active_resilvers healthy_disks
       total_disks warnings critical smart_failures].
  split; [|split].
  - split; [apply clamped_in_range|split]; apply count_where_nonneg.
  - split; [apply clamped_in_range|repeat split]; apply count_where_nonneg.
  - pose proof (count_where_nonneg prefix_key (total_disks_where now) (metrics db)).
    pose proof (count_where_nonneg row_key (temp_warnings_where now) (metrics db)).
    pose proof (count_where_nonneg row_key (temp_critical_where now) (metrics db)).
    pose proof (count_where_nonneg row_key (smart_failures_where now) (metrics db)).
    lia.
Qed.

(** X14. In the disk summary a key counted for a critical temperature is
    counted for a warning as well: the critical counter exceeds the SMART
    failures by at most the warning counter. *)
Theorem critical_temperature_is_a_warning (db : database) (now : Z) :
  critical (get_disks_summary db now) - smart_failures (get_disks_summary db now)
  <= warnings (get_disks_summary db now).
Proof.
  cbv zeta beta delta [get_disks_summary]. cbn [critical smart_failures warnings].
  assert (H : count_distinct_where row_key (temp_critical_where now) (metrics db)
              <= count_distinct_where row_key (temp_warnings_where now) (metrics db)).
  { apply count_where_mono. intros m _. unfold temp_critical_where,
      temp_warnings_where, Qgt_bool.
    rewrite !andb_true_iff, !negb_true_iff.
    intros [[[Ht Hl] Hv] Hn]. repeat split; try assumption.
    destruct (Qle_bool (m_value m) (45 # 1)) eqn:E; [|reflexivity].
    apply Qle_bool_iff in E.
    assert (Hle : (m_value m <= 55 # 1)%Q).
    { eapply Qle_trans; [exact E|]. unfold Qle. cbn. lia. }
    apply Qle_bool_iff in Hle. congruence. }
  lia.
Qed.

Section DetailAndSummary.

Lemma append_length (a b : string) :
  String.length (a ++ b) = (String.length a + String.length b)%nat.
Proof. induction a as [|c a IH]; cbn; [reflexivity | rewrite IH; reflexivity]. Qed.

Lemma append_inv_head (p a b : string) :
  (p ++ a)%string = (p ++ b)%string -> a = b.
Proof.
  induction p as [|c p IH]; cbn [append]; intros E; [exact E|].
  injection E as E. exact (IH E).
Qed.

Lemma append_inv_tail (a b s : string) :
  (a ++ s)%string = (b ++ s)%string -> a = b.
Proof.
  revert b. induction a as [|c a IH]; intros [|d b] E.
  - reflexivity.
  - apply (f_equal String.length) in E. cbn [append String.length] in E.
    rewrite append_length in E. lia.
  - apply (f_equal String.length) in E. cbn [append String.length] in E.
    rewrite append_length in E. lia.
  - cbn [append] in E. injection E as -> E. f_equal. exact (IH b E).
Qed.

(** A pattern that begins with [%] matches every string with a suffix
    the rest of the pattern matches. *)
Lemma like_percent (pat pre s : string) :
  Sql.like pat s = true -> Sql.like (String "%" pat) (pre ++ s) = true.
Proof.
  intros H. induction pre as [|c pre IH].
  - cbn [append]. destruct s; cbn; rewrite H; reflexivity.
  - cbn [append]. cbn in IH |- *. rewrite IH. apply orb_true_r.
Qed.

(** The row behind a value of the detail view: a row of the log, of the
    system, of a type of the kind and inside the window, whose name is the
    entity id, an underscore and the attribute. *)
Lemma latest_row (v : system_view) (db : database) (now : Z)
    (system_id : string) (hours : Z) (rows : list metric_row)
    (eid attr : string) (av : attr_value) :
  projection_query v db now system_id hours rows ->
  attr <> "value" ->
  latest_of (project v system_id rows) eid attr = Some av ->
  exists m, In m (metrics db) /\ m_system_id m = system_id /\
            In (m_metric_type m) (kind_types (view_kind v)) /\
            newer_than now (view_hours v hours) m = true /\
            m_metric_name m = (eid ++ "_" ++ attr)%string /\
            point_of m = av.
Proof.
  intros Hq Hne Hl. unfold project in Hl.
  rewrite latest_of_group_rows in Hl.
  destruct (find (decodes_to (decode (view_kind v)) eid attr) rows) as [m|] eqn:Ef;
    [|discriminate].
  injection Hl as Hv. exists m.
  apply find_some in Ef as [Hin Hd]. apply decodes_to_spec in Hd.
  apply (fetchall_In _ _ _ m Hq) in Hin.
  apply filter_In in Hin as [Hin Hw]. unfold kind_where in Hw.
  apply andb_true_iff in Hw as [Hw Hn]. apply andb_true_iff in Hw as [Hs Ht].
  split; [exact Hin|]. split; [apply String.eqb_eq, Hs|].
  split.
  { apply existsb_exists in Ht as (t & Ht & E). apply String.eqb_eq in E.
    rewrite E. exact Ht. }
  split; [exact Hn|]. split; [|exact Hv].
  exact (decode_not_sentinel (view_kind v) _ eid attr Hd Hne).
Qed.

(** Entities of one system and one attribute have distinct summary keys. *)
Lemma entity_keys_distinct (system_id attr : string) (eids : list string) :
  NoDup eids ->
  NoDup (map (fun eid => (system_id ++ "_" ++ eid ++ "_" ++ attr)%string) eids).
Proof.
  induction 1 as [|eid eids Hnot _ IH]; cbn [map]; constructor; [|exact IH].
  intros Hin. apply in_map_iff in Hin as (eid' & E & Hin). apply Hnot.
  apply append_inv_head in E. apply append_inv_head in E.
  apply append_inv_tail in E. subst eid'. exact Hin.
Qed.

End DetailAndSummary.

(** X15. The disk summary never under-reports the detail view: distinct
    disks of one system whose latest temperature on the one-hour detail view
    exceeds 45 are each counted by the fleet's warning counter. *)
Theorem hot_disks_are_counted (db : database) (now : Z) (system_id : string)
    (rows : list metric_row) (eids : list string) :
  system_disks_query db now system_id 1 rows ->
  NoDup eids ->
  (forall eid, In eid eids ->
     exists v, latest_of (get_system_disks system_id rows) eid "temperature"
               = Some v /\ Qgt_bool (av_value v) (45 # 1) = true) ->
  Z.of_nat (List.length eids) <= warnings (get_disks_summary db now).
Proof.
  intros Hq Hnd Hhot.
  cbv zeta beta delta [get_disks_summary]. cbn [warnings].
  rewrite <- (length_map (fun eid => (system_id ++ "_" ++ eid ++ "_" ++ "temperature")%string) eids).
  apply counted_keys; [apply entity_keys_distinct, Hnd|].
  intros x Hx. apply in_map_iff in Hx as (eid & <- & Heid).
  destruct (Hhot eid Heid) as (v & Hl & Hv).
  destruct (latest_row SystemDisks db now system_id 1 rows eid "temperature" v Hq
              ltac:(discriminate) Hl) as (m & Hin & Hs & Ht & Hn & Hname & Hp).
  cbn [view_hours view_kind kind_types] in Hn, Ht.
  exists m. split; [exact Hin|]. split.
  - unfold temp_warnings_where, is_type.
    destruct Ht as [Ht | []]. rewrite <- Ht, String.eqb_refl, Hn, Hname.
    rewrite <- Hp in Hv. cbn [point_of av_value] in Hv. rewrite Hv.
    change (eid ++ "_" ++ "temperature")%string with (eid ++ "_temperature")%string.
    rewrite (like_percent "_temperature" eid "_temperature" eq_refl).
    reflexivity.
  - unfold row_key. rewrite Hs, Hname. reflexivity.
Qed.

Section FleetDetail.

(** The row behind a value of a fleet view: a row of the log, of the
    system, of a type of the kind and of the last 24 hours, whose name is
    the entity id, an underscore and the attribute. *)
Lemma fleet_latest_row (k : resource_kind) (db : database) (now : Z)
    (rows : list joined_row) (system_id eid attr : string) (av : attr_value) :
  fleet_query (kind_types k) db now rows ->
  attr <> "value" ->
  fleet_latest_of (fleet_project k rows) system_id eid attr = Some av ->
  exists m, In m (metrics db) /\ m_system_id m = system_id /\
            In (m_metric_type m) (kind_types k) /\
            newer_than now 24 m = true /\
            m_metric_name m = (eid ++ "_" ++ attr)%string /\
            point_of m = av.
Proof.
  intros Hq Hne Hl. unfold fleet_project in Hl.
  rewrite fleet_latest_of_group in Hl.
  destruct (find (fleet_decodes_to (decode k) system_id eid attr) rows)
    as [r|] eqn:Ef; [|discriminate].
  injection Hl as Hv. exists (fst r).
  apply find_some in Ef as [Hin Hd]. unfold fleet_decodes_to in Hd.
  apply andb_true_iff in Hd as [Hs Hd]. apply decodes_to_spec in Hd.
  apply (fetchall_In _ _ _ r Hq) in Hin.
  apply filter_In in Hin as [Hin Hw]. unfold fleet_where in Hw.
  apply andb_true_iff in Hw as [Ht Hn].
  split.
  { unfold join_systems in Hin. apply in_flat_map in Hin as (m & Hm & Hr).
    apply in_map_iff in Hr as (s0 & <- & _). exact Hm. }
  split; [apply String.eqb_eq, Hs|]. split.
  { apply existsb_exists in Ht as (t & Ht & E). apply String.eqb_eq in E.
    rewrite E. exact Ht. }
  split; [exact Hn|]. split; [|exact Hv].
  exact (decode_not_sentinel k _ eid attr Hd Hne).
Qed.

End FleetDetail.

(** X16. The replication summary never under-reports the fleet view:
    distinct tasks of one system whose latest status on the fleet
    replication view is 0 are each counted by the fleet's failed-task
    counter. *)
Theorem failed_tasks_are_counted (db : database) (now : Z) (system_id : string)
    (rows : list joined_row) (eids : list string) :
  fleet_query ["replication"] db now rows ->
  NoDup eids ->
  (forall eid, In eid eids ->
     exists av, fleet_latest_of (get_all_replication rows) system_id eid "status"
                = Some av /\ Qeq_bool (av_value av) (0 # 1) = true) ->
  Z.of_nat (List.length eids) <= failed_tasks (get_replication_summary db now).
Proof.
  intros Hq Hnd Hbad.
  cbv zeta beta delta [get_replication_summary]. cbn [failed_tasks].
  rewrite <- (length_map (fun eid => (system_id ++ "_" ++ eid ++ "_" ++ "status")%string) eids).
  apply counted_keys; [apply entity_keys_distinct, Hnd|].
  intros x Hx. apply in_map_iff in Hx as (eid & <- & Heid).
  destruct (Hbad eid Heid) as (av & Hl & Hv).
  destruct (fleet_latest_row Replication db now rows system_id eid "status" av
              Hq ltac:(discriminate) Hl)
    as (m & Hin & Hs & Ht & Hn & Hname & Hp).
  exists m. split; [exact Hin|]. split.
  - unfold failed_tasks_where, is_type.
    destruct Ht as [Ht | []]. rewrite <- Ht, String.eqb_refl, Hn, Hname.
    rewrite <- Hp in Hv. cbn [point_of av_value] in Hv. rewrite Hv.
    change (eid ++ "_" ++ "status")%string with (eid ++ "_status")%string.
    rewrite (like_percent "_status" eid "_status" eq_refl).
    reflexivity.
  - unfold row_key. rewrite Hs, Hname. reflexivity.
Qed.

Lemma hot_disks_are_counted_witness :
  system_disks_query hot_failing_db t_now "nas1" 1
    (order_by by_name_time_desc (selected SystemDisks hot_failing_db t_now "nas1" 1)) /\
  NoDup ["ada0"] /\
  1 <= warnings (get_disks_summary hot_failing_db t_now).
Proof.
  pose proof (projection_query_answered SystemDisks hot_failing_db t_now "nas1" 1) as Hq.
  assert (Hnd : NoDup ["ada0"]) by (constructor; [intros [] | constructor]).
  split; [exact Hq|]. split; [exact Hnd|].
  apply (hot_disks_are_counted hot_failing_db t_now "nas1" _ ["ada0"] Hq Hnd).
  intros eid [<- | []].
  exists (point_of (mk_metric 1 "nas1" (t_now - 60) "disk" "ada0_temperature" (60 # 1))).
  split; reflexivity.
Defined.

Lemma failed_tasks_are_counted_witness :
  fleet_query ["replication"] failed_task_db t_now
    [(mk_metric 1 "nas1" (t_now - 60) "replication" "offsite_status" (0 # 1),
      nas1_row)] /\
  NoDup ["offsite"] /\
  1 <= failed_tasks (get_replication_summary failed_task_db t_now).
Proof.
  assert (Hq : fleet_query ["replication"] failed_task_db t_now
                 [(mk_metric 1 "nas1" (t_now - 60) "replication"
                             "offsite_status" (0 # 1), nas1_row)])
    by apply fetchall_singleton.
  assert (Hnd : NoDup ["offsite"]) by (constructor; [intros [] | constructor]).
  split; [exact Hq|]. split; [exact Hnd|].
  apply (failed_tasks_are_counted failed_task_db t_now "nas1" _ ["offsite"] Hq Hnd).
  intros eid [<- | []].
  exists (point_of (mk_metric 1 "nas1" (t_now - 60) "replication" "offsite_status" (0 # 1))).
  split; reflexivity.
Defined.

Section AlertViews.

Lemma no_match (x : string) (l : list system_row) :
  ~ In x (map sys_id l) ->
  filter (fun s => (sys_id s =? x)%string) l = [].
Proof.
  induction l as [|s l IH]; [reflexivity|].
  cbn [map In filter]. intros H.
  destruct (String.eqb_spec (sys_id s) x) as [E | _]; [tauto|].
  apply IH. tauto.
Qed.

(** A primary key on [systems.id]: the join finds at most one system. *)
Lemma unique_match (x : string) (l : list system_row) :
  NoDup (map sys_id l) ->
  filter (fun s => (sys_id s =? x)%string) l =
  match find (fun s => (sys_id s =? x)%string) l with
  | Some s => [s]
  | None => []
  end.
Proof.
  induction l as [|s l IH]; [reflexivity|].
  cbn [map]. intros Hnd. apply NoDup_cons_iff in Hnd as [Hnot Hnd].
  cbn [filter find]. destruct (String.eqb_spec (sys_id s) x) as [E | _];
    [|exact (IH Hnd)].
  subst x. rewrite (no_match _ _ Hnot). reflexivity.
Qed.

Lemma registered_find (db : database) (a : alert_row) :
  registered db a =
  match find (fun s => (sys_id s =? a_system_id a)%string) (systems db) with
  | Some _ => true
  | None => false
  end.
Proof.
  unfold registered. induction (systems db) as [|s l IH]; [reflexivity|].
  cbn [existsb find]. destruct (sys_id s =? a_system_id a)%string;
    [reflexivity | exact IH].
Qed.

(** Under the primary key the join keeps every alert of a registered
    system once, and drops the others. *)
Lemma join_alerts_once (db : database) :
  NoDup (map sys_id (systems db)) ->
  map fst (join_alert_systems db) = filter (registered db) (alerts db).
Proof.
  intros Hnd. unfold join_alert_systems.
  induction (alerts db) as [|a l IH]; [reflexivity|].
  cbn [flat_map filter]. rewrite map_app, IH, map_map. cbn [fst].
  rewrite (unique_match _ _ Hnd), registered_find.
  destruct (find _ (systems db)); reflexivity.
Qed.

Lemma join_alerts_pairs (db : database) (r : alert_joined_row) :
  In r (join_alert_systems db) ->
  In (fst r) (alerts db) /\ In (snd r) (systems db) /\
  sys_id (snd r) = a_system_id (fst r).
Proof.
  unfold join_alert_systems. rewrite in_flat_map.
  intros (a & Ha & Hr). apply in_map_iff in Hr as (s & <- & Hs).
  apply filter_In in Hs as [Hs E]. apply String.eqb_eq in E. auto.
Qed.

End AlertViews.

Section ListedAlerts.

Lemma filter_andb {A : Type} (p q : A -> bool) (l : list A) :
  filter (fun a => p a && q a) l = filter q (filter p l).
Proof.
  induction l as [|a l IH]; [reflexivity|].
  cbn [filter]. destruct (p a); cbn [andb filter];
    [destruct (q a)|]; rewrite IH; reflexivity.
Qed.

(** The flag test of [alerts_where], on the alert alone. *)
Lemma listed_alerts_perm (db : database) (acknowledged : option bool)
    (rows : list alert_joined_row) :
  NoDup (map sys_id (systems db)) ->
  alerts_query db acknowledged rows ->
  Permutation
    (map la_alert (get_alerts rows))
    (filter (fun a => registered db a &&
                      match acknowledged with
                      | Some b => Bool.eqb (a_acknowledged a) b
                      | None => true
                      end) (alerts db)).
Proof.
  intros Hnd [Hperm _].
  assert (E0 : map la_alert (get_alerts rows) = map fst rows).
  { unfold get_alerts. rewrite map_map. apply map_ext. reflexivity. }
  rewrite E0. apply Permutation_sym.
  apply (Permutation_map fst) in Hperm.
  eapply Permutation_trans; [|exact Hperm].
  assert (E : map fst (filter (alerts_where acknowledged)
                              (join_alert_systems db))
              = filter (fun a => match acknowledged with
                                 | Some b => Bool.eqb (a_acknowledged a) b
                                 | None => true
                                 end) (map fst (join_alert_systems db))).
  { rewrite filter_map_swap. reflexivity. }
  rewrite E, (join_alerts_once db Hnd), filter_andb. apply Permutation_refl.
Qed.

End ListedAlerts.

(** X17. With system ids unique, [get_alerts] lists exactly the alerts
    whose system is registered and whose flag passes the filter, each once,
    under the name of a registered system of the alert's id: an alert that
    names an unregistered system is never listed. *)
Theorem alerts_listed_once_if_registered (db : database)
    (acknowledged : option bool) (rows : list alert_joined_row) :
  NoDup (map sys_id (systems db)) ->
  alerts_query db acknowledged rows ->
  Permutation
    (map la_alert (get_alerts rows))
    (filter (fun a => registered db a &&
                      match acknowledged with
                      | Some b => Bool.eqb (a_acknowledged a) b
                      | None => true
                      end) (alerts db)) /\
  forall l, In l (get_alerts rows) ->
    exists s, In s (systems db) /\ sys_id s = a_system_id (la_alert l) /\
              la_system_name l = sys_name s.
Proof.
  intros Hnd Hq. split; [exact (listed_alerts_perm db acknowledged rows Hnd Hq)|].
  destruct Hq as [Hperm _].
  intros l Hl. unfold get_alerts in Hl.
  apply in_map_iff in Hl as (r & <- & Hr). cbn [la_alert la_system_name].
  eapply Permutation_in in Hr; [|apply Permutation_sym; exact Hperm].
  apply filter_In in Hr as [Hr _].
  destruct (join_alerts_pairs db r Hr) as (_ & Hs & E).
  exists (snd r). auto.
Qed.

Lemma alerts_listed_once_if_registered_witness :
  NoDup (map sys_id (systems alerts_fleet_db)) /\
  alerts_query alerts_fleet_db None [(mk_alert 1 false, nas1_row)] /\
  Permutation
    (map la_alert (get_alerts [(mk_alert 1 false, nas1_row)]))
    [mk_alert 1 false].
Proof.
  assert (Hnd : NoDup (map sys_id (systems alerts_fleet_db)))
    by (constructor; [intros [] | constructor]).
  assert (Hq : alerts_query alerts_fleet_db None [(mk_alert 1 false, nas1_row)])
    by apply fetchall_singleton.
  split; [exact Hnd|]. split; [exact Hq|].
  exact (proj1 (alerts_listed_once_if_registered alerts_fleet_db None _ Hnd Hq)).
Defined.

Section DashboardFacts.

Lemma dict_get_set {V : Type} (k k' : string) (v : V) (d : list (string * V)) :
  dict_get k (dict_set k' v d) =
  if (k' =? k)%string then Some v else dict_get k d.
Proof.
  unfold dict_set. rewrite dict_mem_get.
  destruct (dict_get k' d) as [v0|] eqn:E.
  - rewrite dict_get_update.
    destruct (String.eqb_spec k' k) as [<- | _]; [|reflexivity].
    rewrite E. reflexivity.
  - rewrite dict_get_app. cbn [dict_get].
    destruct (String.eqb_spec k' k) as [<- | _].
    + rewrite E. reflexivity.
    + destruct (dict_get k d); reflexivity.
Qed.

(** [dict(pairs)] maps a key to the value of its last pair. *)
Lemma dict_of_pairs_graph {V : Type} (f : string -> V) (keys : list string)
    (k : string) (d : list (string * V)) :
  dict_get k (fold_left (fun d kv => dict_set (fst kv) (snd kv) d)
                        (map (fun k => (k, f k)) keys) d) =
  if in_dec string_dec k keys then Some (f k) else dict_get k d.
Proof.
  revert d. induction keys as [|k0 keys IH]; intros d; [reflexivity|].
  cbn [map fold_left fst snd]. rewrite IH, dict_get_set.
  destruct (in_dec string_dec k keys) as [Hin | Hnot];
    destruct (in_dec string_dec k (k0 :: keys)) as [Hin' | Hnot'];
    try reflexivity.
  - exfalso. apply Hnot'. right. exact Hin.
  - destruct Hin' as [-> | Hin]; [|contradiction].
    rewrite String.eqb_refl. reflexivity.
  - destruct (String.eqb_spec k0 k) as [-> | _]; [|reflexivity].
    exfalso. apply Hnot'. left. reflexivity.
Qed.

Lemma count_occ_severity (sev : string) (l : list alert_row) :
  count_occ string_dec (map a_severity l) sev =
  List.length (filter (fun a => (a_severity a =? sev)%string) l).
Proof.
  induction l as [|a l IH]; [reflexivity|].
  cbn [map count_occ filter].
  destruct (string_dec (a_severity a) sev) as [E | Hne];
    destruct (String.eqb_spec (a_severity a) sev); try contradiction;
    cbn [List.length]; rewrite IH; reflexivity.
Qed.

(** What the dashboard reads at [alerts_by_severity.get(sev, 0)] is the
    number of unacknowledged alerts of that severity. *)
Lemma dashboard_alert_counter (sev : string) (db : database) :
  dict_get_default sev 0 (alerts_by_severity db) = unacknowledged sev db.
Proof.
  unfold dict_get_default, alerts_by_severity, dict_of_pairs, group_count,
    unacknowledged.
  rewrite (dict_of_pairs_graph
             (fun k => Z.of_nat (count_occ string_dec
                (map a_severity (filter (fun a => negb (a_acknowledged a))
                                        (alerts db))) k))).
  assert (F : List.length
                (filter (fun a => negb (a_acknowledged a) &&
                                  (a_severity a =? sev)%string) (alerts db))
              = count_occ string_dec
                  (map a_severity (filter (fun a => negb (a_acknowledged a))
                                          (alerts db))) sev).
  { rewrite count_occ_severity.
    induction (alerts db) as [|a l IH]; [reflexivity|].
    cbn [filter]. destruct (negb (a_acknowledged a)); cbn [andb filter];
      [destruct (a_severity a =? sev)%string; cbn [List.length]|];
      rewrite IH; reflexivity. }
  rewrite F.
  destruct (in_dec string_dec sev _) as [_ | Hnot]; [reflexivity|].
  cbn [dict_get]. rewrite nodup_In in Hnot.
  rewrite (proj1 (count_occ_not_In string_dec _ sev) Hnot). reflexivity.
Qed.

Lemma filter_length_le {A : Type} (p q : A -> bool) (l : list A) :
  (forall a, In a l -> p a = true -> q a = true) ->
  (List.length (filter p l) <= List.length (filter q l))%nat.
Proof.
  induction l as [|a l IH]; intros H; [apply Nat.le_refl|].
  assert (IH' := IH (fun x Hx => H x (or_intror Hx))).
  cbn [filter]. destruct (p a) eqn:Ep.
  - rewrite (H a (or_introl eq_refl) Ep). cbn [List.length]. lia.
  - destruct (q a); cbn [List.length]; lia.
Qed.

Lemma filter_perm {A : Type} (f : A -> bool) (l l' : list A) :
  Permutation l l' -> Permutation (filter f l) (filter f l').
Proof.
  induction 1 as [|x l l' _ IH|x y l|l l' l'' _ IH1 _ IH2].
  - constructor.
  - cbn [filter]. destruct (f x); [constructor|]; exact IH.
  - cbn [filter]. destruct (f x), (f y);
      try apply Permutation_refl. apply perm_swap.
  - eapply Permutation_trans; eassumption.
Qed.

Lemma listed_count_perm (sev : string) (rows : list alert_joined_row)
    (l : list alert_row) :
  Permutation (map la_alert (get_alerts rows)) l ->
  listed_count sev (get_alerts rows) =
  Z.of_nat (List.length (filter (fun a => (a_severity a =? sev)%string) l)).
Proof.
  intros Hp. unfold listed_count. f_equal.
  rewrite <- (Permutation_length
                (filter_perm (fun a => (a_severity a =? sev)%string) _ _ Hp)).
  rewrite filter_map_swap, length_map. reflexivity.
Qed.

End DashboardFacts.

Section DashboardCounters.

Lemma listed_le_unacknowledged (sev : string) (db : database)
    (rows : list alert_joined_row) :
  NoDup (map sys_id (systems db)) ->
  alerts_query db (Some false) rows ->
  listed_count sev (get_alerts rows) <= unacknowledged sev db /\
  ((forall a, In a (alerts db) -> registered db a = true) ->
   listed_count sev (get_alerts rows) = unacknowledged sev db).
Proof.
  intros Hnd Hq.
  rewrite (listed_count_perm sev rows _ (listed_alerts_perm db _ rows Hnd Hq)).
  rewrite <- filter_andb. unfold unacknowledged. split.
  - apply inj_le, filter_length_le. intros a _ H.
    apply andb_true_iff in H as [H Hs]. apply andb_true_iff in H as [_ H].
    rewrite Hs, andb_true_r. destruct (a_acknowledged a); [discriminate H|].
    reflexivity.
  - intros Hreg. f_equal. f_equal. apply filter_ext_in. intros a Ha.
    rewrite (Hreg a Ha). destruct (a_acknowledged a); reflexivity.
Qed.

Lemma map_updated_absent (j : Z) set (l : list alert_row) :
  ~ In j (map a_id l) -> map (updated j set) l = l.
Proof.
  induction l as [|x l IH]; [reflexivity|].
  cbn [map In]. intros H. rewrite IH by tauto.
  unfold updated. destruct (Z.eqb_spec (a_id x) j); [tauto | reflexivity].
Qed.

(** An UPDATE that sets the flag of one alert takes it out of the count of
    its severity when it was open, and changes no other count. *)
Lemma unacknowledged_after_update (set : alert_row -> alert_row)
    (sev : string) (a : alert_row) (l : list alert_row) :
  (forall x, a_acknowledged (set x) = true) ->
  NoDup (map a_id l) -> In a l ->
  (List.length
     (filter (fun x => negb (a_acknowledged x) && (a_severity x =? sev)%string)
             (map (updated (a_id a) set) l))
   + (if negb (a_acknowledged a) && (a_severity a =? sev)%string
      then 1 else 0))%nat
  = List.length
      (filter (fun x => negb (a_acknowledged x) && (a_severity x =? sev)%string)
              l).
Proof.
  intros Hack. induction l as [|x l IH]; [intros _ []|].
  cbn [map]. intros Hnd Hin. apply NoDup_cons_iff in Hnd as [Hnot Hnd].
  destruct Hin as [-> | Hin].
  - rewrite (map_updated_absent _ set l Hnot).
    unfold updated. rewrite Z.eqb_refl. cbn [filter]. rewrite Hack.
    cbn [negb andb].
    destruct (negb (a_acknowledged a) && (a_severity a =? sev)%string);
      cbn [List.length]; lia.
  - assert (Hne : a_id x <> a_id a).
    { intros E. apply Hnot. rewrite E. apply in_map, Hin. }
    unfold updated at 1. destruct (Z.eqb_spec (a_id x) (a_id a)); [contradiction|].
    cbn [filter].
    destruct (negb (a_acknowledged x) && (a_severity x =? sev)%string);
      cbn [List.length]; rewrite <- (IH Hnd Hin); lia.
Qed.

Lemma rowcount_of_member (a : alert_row) set (db : database) :
  In a (alerts db) ->
  (snd (update_alert (a_id a) set db) =? 0)%nat = false.
Proof.
  intros Hin. unfold update_alert. cbn [snd].
  assert (H : In a (filter (fun x => a_id x =? a_id a) (alerts db))).
  { apply filter_In. split; [exact Hin | apply Z.eqb_refl]. }
  destruct (filter _ (alerts db)); [destruct H | reflexivity].
Qed.

Lemma unacknowledged_after_op (op : alert_op) (sev : string) (a : alert_row)
    (db : database) :
  NoDup (map a_id (alerts db)) -> In a (alerts db) ->
  (op = OpAcknowledge (a_id a) \/
   exists psa, op = OpCreateTicket (a_id a) psa) ->
  unacknowledged sev (run_op op db) =
  unacknowledged sev db -
  (if negb (a_acknowledged a) && (a_severity a =? sev)%string then 1 else 0).
Proof.
  intros Hnd Hin Hop.
  assert (Hupd : forall set, (forall x, a_acknowledged (set x) = true) ->
            unacknowledged sev (fst (update_alert (a_id a) set db)) =
            unacknowledged sev db -
            (if negb (a_acknowledged a) && (a_severity a =? sev)%string
             then 1 else 0)).
  { intros set Hack. unfold unacknowledged. rewrite update_alert_alerts.
    pose proof (unacknowledged_after_update set sev a (alerts db) Hack Hnd Hin)
      as H.
    destruct (negb (a_acknowledged a) && (a_severity a =? sev)%string); lia. }
  destruct Hop as [-> | [psa ->]]; cbn [run_op].
  - rewrite serve_acknowledge_alert, (rowcount_of_member a _ db Hin).
    cbn [snd]. apply Hupd. reflexivity.
  - rewrite serve_create_ticket. cbn [snd]. apply Hupd. reflexivity.
Qed.

End DashboardCounters.

(** X18. The dashboard counts what [get_alerts] cannot list: with system
    ids unique, the entries of each severity in the answer to
    [acknowledged = false] are at most the dashboard's counter of that
    severity, and as many when every alert names a registered system. *)
Theorem dashboard_counts_unlisted_alerts (db : database) (now : Z)
    (rows : list alert_joined_row) :
  NoDup (map sys_id (systems db)) ->
  alerts_query db (Some false) rows ->
  (listed_count "critical" (get_alerts rows)
     <= alerts_critical (get_dashboard_summary db now) /\
   listed_count "warning" (get_alerts rows)
     <= alerts_warning (get_dashboard_summary db now) /\
   listed_count "info" (get_alerts rows)
     <= alerts_info (get_dashboard_summary db now)) /\
  ((forall a, In a (alerts db) -> registered db a = true) ->
   listed_count "critical" (get_alerts rows)
     = alerts_critical (get_dashboard_summary db now) /\
   listed_count "warning" (get_alerts rows)
     = alerts_warning (get_dashboard_summary db now) /\
   listed_count "info" (get_alerts rows)
     = alerts_info (get_dashboard_summary db now)).
Proof.
  intros Hnd Hq.
  cbv zeta beta delta [get_dashboard_summary].
  cbn [alerts_critical alerts_warning alerts_info].
  rewrite !dashboard_alert_counter.
  pose proof (listed_le_unacknowledged "critical" db rows Hnd Hq) as [Hc Hc'].
  pose proof (listed_le_unacknowledged "warning" db rows Hnd Hq) as [Hw Hw'].
  pose proof (listed_le_unacknowledged "info" db rows Hnd Hq) as [Hi Hi'].
  split; [auto|]. intros Hreg. auto.
Qed.

Lemma dashboard_counts_unlisted_alerts_witness :
  NoDup (map sys_id (systems alerts_fleet_db)) /\
  alerts_query alerts_fleet_db (Some false) [(mk_alert 1 false, nas1_row)] /\
  listed_count "critical" (get_alerts [(mk_alert 1 false, nas1_row)])
    <= alerts_critical (get_dashboard_summary alerts_fleet_db t_now).
Proof.
  assert (Hnd : NoDup (map sys_id (systems alerts_fleet_db)))
    by (constructor; [intros [] | constructor]).
  assert (Hq : alerts_query alerts_fleet_db (Some false)
                 [(mk_alert 1 false, nas1_row)])
    by apply fetchall_singleton.
  split; [exact Hnd|]. split; [exact Hq|].
  exact (proj1 (proj1 (dashboard_counts_unlisted_alerts alerts_fleet_db t_now
                         _ Hnd Hq))).
Defined.

(** X19. With alert ids unique, acknowledging an alert or creating its
    ticket lowers the dashboard's counter of the alert's severity by one
    when the alert was open, and changes no other alert counter; on an
    alert that is acknowledged already it changes none. *)
Theorem acknowledging_lowers_one_counter (op : alert_op) (a : alert_row)
    (db : database) (now now' : Z) :
  NoDup (map a_id (alerts db)) -> In a (alerts db) ->
  (op = OpAcknowledge (a_id a) \/
   exists psa, op = OpCreateTicket (a_id a) psa) ->
  let opened (sev : string) : Z :=
    if negb (a_acknowledged a) && (a_severity a =? sev)%string then 1 else 0 in
  alerts_critical (get_dashboard_summary (run_op op db) now')
    = alerts_critical (get_dashboard_summary db now) - opened "critical" /\
  alerts_warning (get_dashboard_summary (run_op op db) now')
    = alerts_warning (get_dashboard_summary db now) - opened "warning" /\
  alerts_info (get_dashboard_summary (run_op op db) now')
    = alerts_info (get_dashboard_summary db now) - opened "info".
Proof.
  intros Hnd Hin Hop opened. subst opened.
  cbv zeta beta delta [get_dashboard_summary].
  cbn [alerts_critical alerts_warning alerts_info].
  rewrite !dashboard_alert_counter.
  repeat split; apply unacknowledged_after_op; assumption.
Qed.

Lemma acknowledging_lowers_one_counter_witness :
  NoDup (map a_id (alerts alerts_fleet_db)) /\
  In ghost_alert (alerts alerts_fleet_db) /\
  alerts_critical (get_dashboard_summary
                     (run_op (OpAcknowledge 2) alerts_fleet_db) t_now)
    = alerts_critical (get_dashboard_summary alerts_fleet_db t_now) - 1.
Proof.
  assert (Hnd : NoDup (map a_id (alerts alerts_fleet_db))).
  { constructor; [intros [H | []]; discriminate H|].
    constructor; [intros [] | constructor]. }
  assert (Hin : In ghost_alert (alerts alerts_fleet_db))
    by (right; left; reflexivity).
  split; [exact Hnd|]. split; [exact Hin|].
  exact (proj1 (acknowledging_lowers_one_counter (OpAcknowledge 2) ghost_alert
                  alerts_fleet_db t_now t_now Hnd Hin (or_introl eq_refl))).
Defined.

(** X20. A system seen within the last hour is never counted stale: the
    healthy counter is at least the number of systems whose [last_seen] is
    less than an hour old, at most the total, and stale is their
    difference. *)
Theorem recently_seen_systems_are_healthy (db : database) (now : Z) :
  Z.of_nat (List.length
    (filter (fun s => now - 3600 <? sys_last_seen s) (systems db)))
    <= healthy_systems (get_dashboard_summary db now)
    <= total_systems (get_dashboard_summary db now) /\
  stale_systems (get_dashboard_summary db now)
    = total_systems (get_dashboard_summary db now)
      - healthy_systems (get_dashboard_summary db now) /\
  0 <= stale_systems (get_dashboard_summary db now).
Proof.
  cbv zeta beta delta [get_dashboard_summary].
  cbn [healthy_systems total_systems stale_systems].
  assert (H1 : (List.length (filter (fun s => (now - 3600 <? sys_last_seen s)%Z)
                                    (systems db))
                <= List.length (filter (seen_after now) (systems db)))%nat).
  { apply filter_length_le. intros s _ H. apply Z.ltb_lt in H.
    unfold seen_after, Sql.hours_ago. apply Z.leb_le.
    apply Z.div_le_mono; lia. }
  pose proof (filter_length_le (seen_after now) (fun _ => true) (systems db)
                (fun _ _ _ => eq_refl)) as H2.
  assert (E : forall l : list system_row, filter (fun _ => true) l = l).
  { induction l as [|s l IH]; [reflexivity|].
    cbn [filter]. rewrite IH. reflexivity. }
  rewrite E in H2. lia.
Qed.

(** The healthy counter reads the date alone: a system last seen ten
    minutes past midnight still counts as healthy in the afternoon of the
    same day. *)
Example system_seen_this_morning_counts_healthy :
  t_now - sys_last_seen seen_at_midnight = 49000 /\
  healthy_systems
    (get_dashboard_summary
       {| systems := [seen_at_midnight]; metrics := []; alerts := [] |} t_now)
  = 1.
Proof. split; reflexivity. Qed.

Section UserFacts.

Variable checkpw : string -> string -> bool.

Lemma Forall2_map_same {A : Type} (R : A -> A -> Prop) (g : A -> A)
    (l : list A) :
  (forall a, In a l -> R a (g a)) -> Forall2 R l (map g l).
Proof.
  induction l as [|a l IH]; intros H; [constructor|].
  cbn [map]. constructor; [apply H; left; reflexivity|].
  apply IH. intros x Hx. apply H. right. exact Hx.
Qed.

Lemma Forall2_refl_on {A : Type} (R : A -> A -> Prop) (l : list A) :
  (forall a, R a a) -> Forall2 R l l.
Proof. intros H. induction l; constructor; auto. Qed.

Lemma update_users_change sub users req (user_id : Z) set :
  (forall u, u_id u = user_id -> row_change sub users req u (set u)) ->
  Forall2 (row_change sub users req) users (update_users user_id set users).
Proof.
  intros H. unfold update_users. apply Forall2_map_same. intros u _.
  destruct (Z.eqb_spec (u_id u) user_id); [auto | constructor].
Qed.

Lemma role_checked (role : string) :
  negb (existsb (String.eqb role) ["admin"; "operator"; "viewer"]) = false ->
  In role ["admin"; "operator"; "viewer"].
Proof.
  intros H. apply negb_false_iff in H. apply existsb_exists in H as (r & Hr & E).
  apply String.eqb_eq in E. subst r. exact Hr.
Qed.

(** The shape of the table after any request. *)
Lemma serve_user_shape (sub : option string) (req : user_request)
    (users : list user_row) :
  exists kept new,
    snd (serve_user checkpw sub req users) = kept ++ new /\
    Forall2 (row_change sub users req) users kept /\
    (new = [] \/ exists row, new = [row] /\ added_by sub users req row).
Proof.
  assert (Hsame : exists kept new, users = kept ++ new /\
            Forall2 (row_change sub users req) users kept /\
            (new = [] \/ exists row, new = [row] /\ added_by sub users req row)).
  { exists users, []. rewrite app_nil_r. split; [reflexivity|].
    split; [apply Forall2_refl_on; constructor | left; reflexivity]. }
  destruct req as [pd new_hash | user_data hashed now | user_id user_data
                   | user_id | user_id hashed]; cbn [serve_user]; unfold as_admin.
  - destruct (get_current_user sub users) as [cu|e] eqn:Ecu; [|exact Hsame].
    unfold change_password.
    destruct (negb _); [exact Hsame|].
    destruct (_ <? 8)%nat; [exact Hsame|]. cbn [status snd].
    exists (update_users (u_id cu) (set_changed_password new_hash) users), [].
    rewrite app_nil_r. split; [reflexivity|]. split; [|left; reflexivity].
    apply update_users_change. intros u Hu. econstructor; eassumption.
  - destruct (require_role ["admin"] sub users) as [cu|e] eqn:Ecu;
      [|exact Hsame].
    unfold create_user.
    destruct (get_user_by_email (uc_email user_data) users) eqn:Eem;
      [exact Hsame|].
    destruct (negb _) eqn:Erole; [exact Hsame|].
    cbv zeta.
    assert (Hkept : Forall2 (row_change sub users
                               (CreateUser user_data hashed now)) users users)
      by (apply Forall2_refl_on; constructor).
    destruct (get_user_by_id _ _); cbn [status snd];
      (eexists users, [_]; split; [reflexivity|]; split; [exact Hkept|];
       right; eexists; split; [reflexivity|];
       exists user_data, hashed, now, cu;
       repeat split; auto using role_checked).
  - destruct (require_role ["admin"] sub users) as [cu|e] eqn:Ecu;
      [|exact Hsame].
    unfold update_user.
    destruct (get_user_by_id user_id users); [|exact Hsame].
    destruct (_ && _) eqn:Eself; [exact Hsame|].
    destruct (check_role user_id user_data cu) eqn:Erole; [exact Hsame|].
    destruct (no_updates user_data); [exact Hsame|]. cbv zeta.
    assert (Hkept : Forall2 (row_change sub users (UpdateUser user_id user_data))
                      users (update_users user_id (apply_update user_data) users)).
    { apply update_users_change. intros x Hx.
      apply (change_update sub users user_id user_data cu x Ecu Hx); [|exact Erole].
      intros -> Hact. rewrite Z.eqb_refl, Hact in Eself. discriminate Eself. }
    destruct (get_user_by_id _ _); cbn [status snd];
      (eexists _, []; rewrite app_nil_r; split; [reflexivity|];
       split; [exact Hkept | left; reflexivity]).
  - destruct (require_role ["admin"] sub users) as [cu|e] eqn:Ecu;
      [|exact Hsame].
    unfold delete_user.
    destruct (get_user_by_id user_id users); [|exact Hsame].
    destruct (Z.eqb_spec user_id (u_id cu)) as [_ | Hne]; [exact Hsame|].
    cbn [status snd]. eexists _, []. rewrite app_nil_r.
    split; [reflexivity|]. split; [|left; reflexivity].
    apply update_users_change. intros x Hx. econstructor; eassumption.
  - destruct (require_role ["admin"] sub users) as [cu|e] eqn:Ecu;
      [|exact Hsame].
    unfold reset_user_password.
    destruct (get_user_by_id user_id users); [|exact Hsame].
    cbn [status snd]. eexists _, []. rewrite app_nil_r.
    split; [reflexivity|]. split; [|left; reflexivity].
    apply update_users_change. intros x Hx. constructor. exact Hx.
Qed.

Lemma row_change_keys sub users req u u' :
  row_change sub users req u u' ->
  u_id u' = u_id u /\ u_email u' = u_email u.
Proof. inversion 1; subst; split; reflexivity. Qed.

Lemma Forall2_map_eq {A B : Type} (R : A -> A -> Prop) (f : A -> B)
    (l l' : list A) :
  (forall a a', R a a' -> f a' = f a) ->
  Forall2 R l l' -> map f l' = map f l.
Proof.
  intros H. induction 1 as [|a a' l l' Ha _ IH]; [reflexivity|].
  cbn [map]. rewrite (H a a' Ha), IH. reflexivity.
Qed.

End UserFacts.

Section UserInvariants.

Variable checkpw : string -> string -> bool.

Lemma NoDup_add_last {A : Type} (k : A) (l : list A) :
  NoDup l -> ~ In k l -> NoDup (l ++ [k]).
Proof.
  induction 1 as [|x l Hx Hl IH]; intros Hk.
  - constructor; [intros [] | constructor].
  - cbn [app]. constructor.
    + intros Hin. apply in_app_or in Hin as [Hin | [-> | []]];
        [exact (Hx Hin) | apply Hk; left; reflexivity].
    + apply IH. intros Hin. apply Hk. right. exact Hin.
Qed.

Lemma get_user_by_email_none (email : string) (users : list user_row) :
  get_user_by_email email users = None -> ~ In email (map u_email users).
Proof.
  unfold get_user_by_email. intros H Hin.
  apply in_map_iff in Hin as (u & E & Hu).
  apply (find_none _ _ H) in Hu. rewrite E, String.eqb_refl in Hu.
  discriminate Hu.
Qed.

Lemma row_change_role sub users req u u' :
  row_change sub users req u u' ->
  In (u_role u) ["admin"; "operator"; "viewer"] ->
  In (u_role u') ["admin"; "operator"; "viewer"].
Proof.
  inversion 1; subst; cbn [u_role set_changed_password apply_update
                             set_inactive set_password]; try (intros; assumption).
  intros Hr. unfold check_role in *.
  destruct (uu_role user_data) as [role|]; [|exact Hr].
  destruct (negb (existsb (String.eqb role) ["admin"; "operator"; "viewer"]))
    eqn:E; [discriminate|].
  apply role_checked, E.
Qed.

Lemma serve_user_ok (sub : option string) (req : user_request)
    (users : list user_row) :
  users_ok users -> users_ok (snd (serve_user checkpw sub req users)).
Proof.
  intros (Hid & Hem & Hrole).
  destruct (serve_user_shape checkpw sub req users)
    as (kept & new & -> & Hkept & Hnew).
  assert (Eid : map u_id kept = map u_id users).
  { apply (Forall2_map_eq _ _ _ _
             (fun a a' H => proj1 (row_change_keys _ _ _ _ _ H)) Hkept). }
  assert (Eem : map u_email kept = map u_email users).
  { apply (Forall2_map_eq _ _ _ _
             (fun a a' H => proj2 (row_change_keys _ _ _ _ _ H)) Hkept). }
  assert (Hrk : Forall (fun u => In (u_role u) ["admin"; "operator"; "viewer"])
                  kept).
  { apply Forall_forall. intros u' Hu'.
    destruct (Forall2_In_r _ _ _ u' Hkept Hu') as (u & Hu & Hch).
    rewrite Forall_forall in Hrole.
    exact (row_change_role _ _ _ _ _ Hch (Hrole u Hu)). }
  destruct Hnew as [-> | (row & -> & Hadd)].
  - rewrite app_nil_r. unfold users_ok. rewrite Eid, Eem. auto.
  - destruct Hadd as (ud & h & now & cu & _ & _ & Hfree & Hr & ->).
    unfold users_ok. rewrite !map_app, Eid, Eem. cbn [map u_id u_email].
    split; [|split].
    + apply NoDup_add_last; [exact Hid|]. intros Hin.
      apply next_id_above in Hin. lia.
    + apply NoDup_add_last; [exact Hem|].
      apply get_user_by_email_none, Hfree.
    + apply Forall_app. split; [exact Hrk|]. constructor; [exact Hr|constructor].
Qed.

Lemma require_role_admin (sub : option string) (users : list user_row)
    (cu : user_row) :
  require_role ["admin"] sub users = Returned cu ->
  exists email, sub = Some email /\ get_user_by_email email users = Some cu /\
                In cu users /\ u_email cu = email /\
                u_is_active cu = true /\ u_role cu = "admin".
Proof.
  unfold require_role, get_current_user.
  destruct sub as [email|]; [|discriminate].
  destruct (get_user_by_email email users) as [u|] eqn:E; [|discriminate].
  destruct (u_is_active u) eqn:Ea; cbn [negb]; [|discriminate].
  cbn [existsb]. rewrite orb_false_r.
  destruct (String.eqb_spec (u_role u) "admin") as [Er | _]; cbn [negb];
    [|discriminate].
  intros [= <-]. exists email. unfold get_user_by_email in E.
  pose proof (find_some _ _ E) as [Hin He]. apply String.eqb_eq in He.
  repeat split; assumption.
Qed.

Lemma current_user_found (sub : option string) (users : list user_row)
    (cu : user_row) :
  get_current_user sub users = Returned cu ->
  exists email, sub = Some email /\ get_user_by_email email users = Some cu /\
                In cu users /\ u_email cu = email /\ u_is_active cu = true.
Proof.
  unfold get_current_user.
  destruct sub as [email|]; [|discriminate].
  destruct (get_user_by_email email users) as [u|] eqn:E; [|discriminate].
  destruct (u_is_active u) eqn:Ea; cbn [negb]; [|discriminate].
  intros [= <-]. exists email. unfold get_user_by_email in E.
  pose proof (find_some _ _ E) as [Hin He]. apply String.eqb_eq in He.
  repeat split; assumption.
Qed.

(** The acting admin is an active admin after their own request. *)
Lemma row_change_self sub users req cu u' :
  require_role ["admin"] sub users = Returned cu ->
  row_change sub users req cu u' ->
  u_is_active u' = true /\ u_role u' = "admin".
Proof.
  intros Hcu Hch.
  destruct (require_role_admin _ _ _ Hcu) as (email & -> & _ & _ & _ & Ha & Hr).
  inversion Hch; subst;
    cbn [u_is_active u_role set_changed_password apply_update set_inactive
         set_password]; auto.
  - match goal with H : require_role _ _ _ = Returned ?c |- _ =>
      rewrite Hcu in H; injection H as <- end.
    match goal with H : _ = _ -> uu_is_active _ <> _ |- _ =>
      specialize (H eq_refl); rename H into Hact end.
    match goal with H : check_role _ _ _ = None |- _ =>
      unfold check_role in H; rename H into Hcheck end.
    rewrite Z.eqb_refl in Hcheck. split.
    + destruct (uu_is_active user_data) as [[|]|];
        [reflexivity | congruence | exact Ha].
    + destruct (uu_role user_data) as [role|]; [|exact Hr].
      destruct (negb (existsb _ _)); [discriminate|].
      cbn [andb] in Hcheck.
      destruct (String.eqb_spec role "admin"); [assumption | discriminate].
  - match goal with H : require_role _ _ _ = Returned ?c |- _ =>
      rewrite Hcu in H; injection H as <- end.
    congruence.
Qed.

(** Requests that do not name the row's own statement keep its standing. *)
Lemma row_change_other sub users req u u' :
  row_change sub users req u u' ->
  (forall user_id user_data, req <> UpdateUser user_id user_data) ->
  (forall user_id, req <> DeleteUser user_id) ->
  active_admin u' = active_admin u.
Proof.
  inversion 1; subst; intros Hu Hd; try reflexivity.
  - exfalso. eapply Hu. reflexivity.
  - exfalso. eapply Hd. reflexivity.
Qed.

Lemma row_change_needs_admin sub users req u u' :
  row_change sub users req u u' ->
  ((exists user_id user_data, req = UpdateUser user_id user_data) \/
   (exists user_id, req = DeleteUser user_id)) ->
  u' = u \/ exists cu, require_role ["admin"] sub users = Returned cu.
Proof.
  inversion 1; subst; intros Hreq; eauto.
  - destruct Hreq as [(? & ? & E) | (? & E)]; discriminate E.
  - destruct Hreq as [(? & ? & E) | (? & E)]; discriminate E.
Qed.

Lemma serve_user_keeps_admin (sub : option string) (req : user_request)
    (users : list user_row) :
  (exists u, In u users /\ active_admin u = true) ->
  exists u, In u (snd (serve_user checkpw sub req users)) /\
            active_admin u = true.
Proof.
  intros (u & Hu & Ha).
  destruct (serve_user_shape checkpw sub req users)
    as (kept & new & -> & Hkept & _).
  destruct (Forall2_In_l _ _ _ u Hkept Hu) as (u' & Hu' & Hch).
  assert (Hother :
            (forall user_id user_data, req <> UpdateUser user_id user_data) ->
            (forall user_id, req <> DeleteUser user_id) ->
            exists x, In x (kept ++ new) /\ active_admin x = true).
  { intros H1 H2. exists u'. split; [apply in_or_app; left; exact Hu'|].
    rewrite (row_change_other _ _ _ _ _ Hch H1 H2). exact Ha. }
  assert (Hadmin :
            ((exists user_id user_data, req = UpdateUser user_id user_data) \/
             (exists user_id, req = DeleteUser user_id)) ->
            exists x, In x (kept ++ new) /\ active_admin x = true).
  { intros Hreq.
    destruct (row_change_needs_admin _ _ _ _ _ Hch Hreq) as [-> | (cu & Hcu)].
    - exists u. split; [apply in_or_app; left; exact Hu' | exact Ha].
    - destruct (require_role_admin _ _ _ Hcu) as (_ & _ & _ & Hin & _).
      destruct (Forall2_In_l _ _ _ cu Hkept Hin) as (cu' & Hcu' & Hch').
      destruct (row_change_self _ _ _ _ _ Hcu Hch') as [Hact Hrole].
      exists cu'. split; [apply in_or_app; left; exact Hcu'|].
      unfold active_admin. rewrite Hact, Hrole. reflexivity. }
  destruct req; first
    [ apply Hother; intros; discriminate
    | apply Hadmin; eauto ].
Qed.

Lemma find_Forall2 {A : Type} (R : A -> A -> Prop) (f : A -> bool)
    (l l' : list A) (a : A) :
  (forall x x', R x x' -> f x' = f x) ->
  Forall2 R l l' -> find f l = Some a ->
  exists a', find f l' = Some a' /\ R a a'.
Proof.
  intros Hf. induction 1 as [|x x' l l' Hx _ IH]; [discriminate|].
  cbn [find]. rewrite (Hf x x' Hx). destruct (f x).
  - intros [= <-]. exists x'. auto.
  - exact IH.
Qed.

Lemma serve_user_keeps_access (sub : option string) (req : user_request)
    (users : list user_row) (me : user_row) :
  require_role ["admin"] sub users = Returned me ->
  exists me', require_role ["admin"] sub
                (snd (serve_user checkpw sub req users)) = Returned me' /\
              u_id me' = u_id me.
Proof.
  intros Hme.
  destruct (require_role_admin _ _ _ Hme) as (email & -> & Hfind & _).
  destruct (serve_user_shape checkpw (Some email) req users)
    as (kept & new & -> & Hkept & _).
  unfold get_user_by_email in Hfind.
  destruct (find_Forall2 _ (fun u => (u_email u =? email)%string) _ _ me
              (fun x x' H => f_equal (fun e => (e =? email)%string)
                               (proj2 (row_change_keys _ _ _ _ _ H)))
              Hkept Hfind) as (me' & Hfind' & Hch).
  exists me'. split; [|exact (proj1 (row_change_keys _ _ _ _ _ Hch))].
  destruct (row_change_self _ _ _ _ _ Hme Hch) as [Hact Hrole].
  unfold require_role, get_current_user, get_user_by_email.
  rewrite (find_app_some _ _ new _ Hfind'), Hact. cbn [negb existsb].
  rewrite Hrole. reflexivity.
Qed.

End UserInvariants.

(** X21. The users table stays well formed: ids and emails stay pairwise
    distinct and every role stays one of admin, operator and viewer under
    any sequence of requests to the endpoints that write the table,
    whoever sends them; the table [seed_admin_user] creates is well
    formed. *)
Theorem users_table_stays_well_formed
    (checkpw : string -> string -> bool)
    (reqs : list (option string * user_request)) (users : list user_row) :
  users_ok users -> users_ok (serve_users checkpw reqs users).
Proof.
  revert users. induction reqs as [|[sub req] reqs IH]; intros users Hok;
    [exact Hok|].
  cbn [serve_users fold_left fst snd]. apply IH. apply serve_user_ok, Hok.
Qed.

Lemma users_table_stays_well_formed_witness :
  users_ok (seed_admin_user "h:admin" t_now []) /\
  users_ok (serve_users plain_checkpw
              [(Some "admin@truenas-mon.local",
                CreateUser {| uc_email := "ops@example.org";
                              uc_full_name := None; uc_role := "viewer";
                              uc_password := "viewer-pass" |}
                           "h:viewer-pass" t_now);
               (Some "admin@truenas-mon.local", DeleteUser 2)]
              (seed_admin_user "h:admin" t_now [])).
Proof.
  assert (Hseed : users_ok (seed_admin_user "h:admin" t_now [])).
  { split; [|split].
    - constructor; [intros [] | constructor].
    - constructor; [intros [] | constructor].
    - constructor; [left; reflexivity | constructor]. }
  split; [exact Hseed|].
  exact (users_table_stays_well_formed plain_checkpw _ _ Hseed).
Defined.

(** X22. The endpoints cannot remove the last administrator: if some user
    is an active admin, some user is an active admin after any sequence of
    requests, whoever sends them. *)
Theorem an_active_admin_always_remains
    (checkpw : string -> string -> bool)
    (reqs : list (option string * user_request)) (users : list user_row) :
  (exists u, In u users /\ active_admin u = true) ->
  exists u, In u (serve_users checkpw reqs users) /\ active_admin u = true.
Proof.
  revert users. induction reqs as [|[sub req] reqs IH]; intros users H;
    [exact H|].
  cbn [serve_users fold_left fst snd]. apply IH.
  apply serve_user_keeps_admin, H.
Qed.

Lemma an_active_admin_always_remains_witness :
  (exists u, In u two_users /\ active_admin u = true) /\
  exists u,
    In u (serve_users plain_checkpw
            [(Some "admin@truenas-mon.local",
              UpdateUser 1 {| uu_full_name := None; uu_role := Some "viewer";
                              uu_is_active := None |});
             (Some "admin@truenas-mon.local", DeleteUser 1)]
            two_users) /\
    active_admin u = true.
Proof.
  assert (H : exists u, In u two_users /\ active_admin u = true).
  { exists root_user. split; [left; reflexivity | reflexivity]. }
  split; [exact H|].
  exact (an_active_admin_always_remains plain_checkpw _ _ H).
Defined.

(** X23. An administrator cannot lock themselves out: a token that passes
    [require_role(["admin"])] still passes it, for the same user, after any
    sequence of requests sent with that token. *)
Theorem own_requests_keep_admin_access
    (checkpw : string -> string -> bool) (sub : option string)
    (reqs : list user_request) (users : list user_row) (me : user_row) :
  require_role ["admin"] sub users = Returned me ->
  exists me',
    require_role ["admin"] sub
      (serve_users checkpw (map (pair sub) reqs) users) = Returned me' /\
    u_id me' = u_id me.
Proof.
  revert users me. induction reqs as [|req reqs IH]; intros users me Hme.
  - exists me. auto.
  - cbn [map serve_users fold_left fst snd].
    destruct (serve_user_keeps_access checkpw sub req users me Hme)
      as (me1 & Hme1 & E1).
    destruct (IH _ me1 Hme1) as (me' & Hme' & E').
    exists me'. split; [exact Hme' | congruence].
Qed.

Lemma own_requests_keep_admin_access_witness :
  require_role ["admin"] (Some "admin@truenas-mon.local") two_users
    = Returned root_user /\
  exists me',
    require_role ["admin"] (Some "admin@truenas-mon.local")
      (serve_users plain_checkpw
         (map (pair (Some "admin@truenas-mon.local"))
              [DeleteUser 1;
               UpdateUser 1 {| uu_full_name := None; uu_role := None;
                               uu_is_active := Some false |}])
         two_users) = Returned me' /\
    u_id me' = u_id root_user.
Proof.
  split; [reflexivity|].
  exact (own_requests_keep_admin_access plain_checkpw
           (Some "admin@truenas-mon.local")
           [DeleteUser 1;
            UpdateUser 1 {| uu_full_name := None; uu_role := None;
                            uu_is_active := Some false |}]
           two_users root_user eq_refl).
Defined.

Section UserRoundTrips.

Variable checkpw : string -> string -> bool.

Lemma find_map_same {A : Type} (f : A -> bool) (g : A -> A) (l : list A) :
  (forall a, f (g a) = f a) ->
  find f (map g l) = option_map g (find f l).
Proof.
  intros H. induction l as [|a l IH]; [reflexivity|].
  cbn [map find]. rewrite H. destruct (f a); [reflexivity | exact IH].
Qed.

Lemma find_email_updated (email : string) (user_id : Z)
    (set : user_row -> user_row) (users : list user_row) :
  (forall u, u_email (set u) = u_email u) ->
  get_user_by_email email (update_users user_id set users) =
  option_map (fun u => if u_id u =? user_id then set u else u)
             (get_user_by_email email users).
Proof.
  intros H. unfold get_user_by_email, update_users.
  apply find_map_same. intros u. destruct (u_id u =? user_id); [|reflexivity].
  rewrite H. reflexivity.
Qed.

Lemma find_id_updated (i user_id : Z) (set : user_row -> user_row)
    (users : list user_row) :
  (forall u, u_id (set u) = u_id u) ->
  get_user_by_id i (update_users user_id set users) =
  option_map (fun u => if u_id u =? user_id then set u else u)
             (get_user_by_id i users).
Proof.
  intros H. unfold get_user_by_id, update_users.
  apply find_map_same. intros u. destruct (u_id u =? user_id); [|reflexivity].
  rewrite H. reflexivity.
Qed.

(** [email TEXT UNIQUE]: the row of an email is the only row with it. *)
Lemma unique_email_row (users : list user_row) (u : user_row) :
  NoDup (map u_email users) -> In u users ->
  get_user_by_email (u_email u) users = Some u.
Proof.
  unfold get_user_by_email. induction users as [|x l IH]; [intros _ []|].
  cbn [map]. intros Hnd Hin. apply NoDup_cons_iff in Hnd as [Hnot Hnd].
  cbn [find]. destruct (String.eqb_spec (u_email x) (u_email u)) as [E | Hneq].
  - destruct Hin as [-> | Hin]; [reflexivity|].
    exfalso. apply Hnot. rewrite E. apply in_map, Hin.
  - destruct Hin as [-> | Hin]; [exfalso; apply Hneq; reflexivity|].
    exact (IH Hnd Hin).
Qed.

Lemma find_last {A : Type} (f : A -> bool) (l : list A) (x : A) :
  f x = true -> find f (l ++ [x]) <> None.
Proof.
  intros Hx. induction l as [|a l IH]; cbn [app find].
  - rewrite Hx. discriminate.
  - destruct (f a); [discriminate | exact IH].
Qed.

Lemma serve_delete_user (sub : option string) (user_id : Z)
    (users : list user_row) (cu target : user_row) :
  require_role ["admin"] sub users = Returned cu ->
  get_user_by_id user_id users = Some target ->
  user_id <> u_id cu ->
  serve_user checkpw sub (DeleteUser user_id) users =
  (None, update_users user_id set_inactive users).
Proof.
  intros Hcu Ht Hne. cbn [serve_user]. unfold as_admin, delete_user.
  rewrite Hcu, Ht.
  destruct (Z.eqb_spec user_id (u_id cu)); [contradiction | reflexivity].
Qed.

Lemma serve_change_password (email : string) (pd : PasswordChange)
    (new_hash : string) (users : list user_row) (cu : user_row) :
  get_current_user (Some email) users = Returned cu ->
  checkpw (pc_current_password pd) (u_hashed_password cu) = true ->
  (8 <= Py.len (pc_new_password pd))%nat ->
  serve_user checkpw (Some email) (ChangePassword pd new_hash) users =
  (None, update_users (u_id cu) (set_changed_password new_hash) users).
Proof.
  intros Hcu Hpw Hlen. cbn [serve_user]. rewrite Hcu.
  unfold change_password, verify_password. rewrite Hpw. cbn [negb].
  destruct (Nat.ltb_spec (Py.len (pc_new_password pd)) 8); [lia|].
  reflexivity.
Qed.

End UserRoundTrips.

(** X24. Deleting a user is a soft delete that locks the user out: with
    emails unique, after an admin deletes another user the row is still
    there, inactive and otherwise unchanged, no password logs the user in,
    and a token the user still holds is refused as inactive. *)
Theorem deactivated_user_is_locked_out
    (checkpw : string -> string -> bool) (sub : option string)
    (user_id : Z) (users : list user_row) (cu target : user_row) :
  NoDup (map u_email users) ->
  require_role ["admin"] sub users = Returned cu ->
  get_user_by_id user_id users = Some target ->
  user_id <> u_id cu ->
  fst (serve_user checkpw sub (DeleteUser user_id) users) = None /\
  get_user_by_email (u_email target)
    (snd (serve_user checkpw sub (DeleteUser user_id) users))
    = Some (set_inactive target) /\
  (forall password,
     login checkpw (u_email target) password
       (snd (serve_user checkpw sub (DeleteUser user_id) users))
     = Raised (HTTPException 401 "Incorrect email or password")) /\
  get_current_user (Some (u_email target))
    (snd (serve_user checkpw sub (DeleteUser user_id) users))
    = Raised (HTTPException 400 "Inactive user") /\
  map u_id (snd (serve_user checkpw sub (DeleteUser user_id) users))
    = map u_id users.
Proof.
  intros Hnd Hcu Ht Hne.
  rewrite (serve_delete_user checkpw sub user_id users cu target Hcu Ht Hne).
  cbn [fst snd].
  assert (Hfind : get_user_by_email (u_email target)
                    (update_users user_id set_inactive users)
                  = Some (set_inactive target)).
  { rewrite find_email_updated by reflexivity.
    unfold get_user_by_id in Ht. pose proof (find_some _ _ Ht) as [Hin Hid].
    rewrite (unique_email_row users target Hnd Hin). cbn [option_map].
    rewrite Hid. reflexivity. }
  split; [reflexivity|]. split; [exact Hfind|]. split; [|split].
  - intros password. unfold login, authenticate_user. rewrite Hfind.
    cbn [u_is_active set_inactive negb]. destruct (negb _); reflexivity.
  - unfold get_current_user. rewrite Hfind. reflexivity.
  - unfold update_users. rewrite map_map. apply map_ext. intros u.
    destruct (u_id u =? user_id); reflexivity.
Qed.

Lemma deactivated_user_is_locked_out_witness :
  NoDup (map u_email two_users) /\
  require_role ["admin"] (Some "admin@truenas-mon.local") two_users
    = Returned root_user /\
  get_user_by_id 2 two_users = Some viewer_user /\
  2 <> u_id root_user /\
  login plain_checkpw "ops@example.org" "viewer-pass" two_users
    = Returned {| token_sub := "ops@example.org"; token_role := "viewer";
                  lr_must_change_password := false |} /\
  login plain_checkpw "ops@example.org" "viewer-pass"
    (snd (serve_user plain_checkpw (Some "admin@truenas-mon.local")
            (DeleteUser 2) two_users))
    = Raised (HTTPException 401 "Incorrect email or password").
Proof.
  assert (Hnd : NoDup (map u_email two_users)).
  { constructor; [intros [H | []]; discriminate H|].
    constructor; [intros [] | constructor]. }
  assert (Hne : 2 <> u_id root_user) by discriminate.
  split; [exact Hnd|]. split; [reflexivity|]. split; [reflexivity|].
  split; [exact Hne|]. split; [reflexivity|].
  exact (proj1 (proj2 (proj2
           (deactivated_user_is_locked_out plain_checkpw
              (Some "admin@truenas-mon.local") 2 two_users root_user
              viewer_user Hnd eq_refl eq_refl Hne))) "viewer-pass").
Defined.

(** X25. A request that is refused changes nothing: whenever an endpoint
    that writes the users table ends with an exception, the table is what
    it was. *)
Theorem refused_user_request_changes_nothing
    (checkpw : string -> string -> bool) (sub : option string)
    (req : user_request) (users : list user_row) (e : exn) :
  fst (serve_user checkpw sub req users) = Some e ->
  snd (serve_user checkpw sub req users) = users.
Proof.
  destruct req as [pd new_hash | user_data hashed now | user_id user_data
                   | user_id | user_id hashed]; cbn [serve_user]; unfold as_admin.
  - destruct (get_current_user sub users); [|reflexivity].
    unfold change_password. destruct (negb _); [reflexivity|].
    destruct (_ <? 8)%nat; [reflexivity | discriminate].
  - destruct (require_role ["admin"] sub users) as [cu|]; [|reflexivity].
    unfold create_user.
    destruct (get_user_by_email _ users); [reflexivity|].
    destruct (negb _); [reflexivity|]. cbv zeta.
    destruct (get_user_by_id _ _) eqn:E; [discriminate|].
    exfalso. revert E. apply find_last. apply Z.eqb_refl.
  - destruct (require_role ["admin"] sub users) as [cu|]; [|reflexivity].
    unfold update_user.
    destruct (get_user_by_id user_id users) eqn:Eu; [|reflexivity].
    destruct (_ && _); [reflexivity|].
    destruct (check_role _ _ _); [reflexivity|].
    destruct (no_updates _); [reflexivity|]. cbv zeta.
    rewrite find_id_updated by reflexivity. rewrite Eu. discriminate.
  - destruct (require_role ["admin"] sub users) as [cu|]; [|reflexivity].
    unfold delete_user.
    destruct (get_user_by_id user_id users); [|reflexivity].
    destruct (_ =? _); [reflexivity | discriminate].
  - destruct (require_role ["admin"] sub users) as [cu|]; [|reflexivity].
    unfold reset_user_password.
    destruct (get_user_by_id user_id users); [reflexivity || discriminate
                                              | reflexivity].
Qed.

Lemma refused_user_request_changes_nothing_witness :
  fst (serve_user plain_checkpw (Some "ops@example.org") (DeleteUser 1)
         two_users)
    = Some (HTTPException 403 "Insufficient permissions") /\
  snd (serve_user plain_checkpw (Some "ops@example.org") (DeleteUser 1)
         two_users) = two_users.
Proof.
  split; [reflexivity|].
  exact (refused_user_request_changes_nothing plain_checkpw
           (Some "ops@example.org") (DeleteUser 1) two_users _ eq_refl).
Defined.

(** X26. After a user changes their password, the new hash is the only one
    that logs them in, and login no longer asks for a change: the request
    succeeds when the current password checks and the new one has eight
    characters or more, and afterwards a password logs the user in exactly
    when it checks against the new hash. *)
Theorem changed_password_is_the_login_password
    (checkpw : string -> string -> bool) (email : string)
    (pd : PasswordChange) (new_hash : string) (users : list user_row)
    (cu : user_row) :
  get_current_user (Some email) users = Returned cu ->
  checkpw (pc_current_password pd) (u_hashed_password cu) = true ->
  (8 <= Py.len (pc_new_password pd))%nat ->
  fst (serve_user checkpw (Some email) (ChangePassword pd new_hash) users)
    = None /\
  forall password,
    login checkpw email password
      (snd (serve_user checkpw (Some email) (ChangePassword pd new_hash) users))
    = if checkpw password new_hash
      then Returned {| token_sub := email; token_role := u_role cu;
                       lr_must_change_password := false |}
      else Raised (HTTPException 401 "Incorrect email or password").
Proof.
  intros Hcu Hpw Hlen.
  rewrite (serve_change_password checkpw email pd new_hash users cu Hcu Hpw Hlen).
  cbn [fst snd]. split; [reflexivity|]. intros password.
  destruct (current_user_found _ _ _ Hcu) as (e0 & [= <-] & Hfind & _ & Hem & Hact).
  unfold login, authenticate_user, verify_password.
  rewrite find_email_updated by reflexivity. rewrite Hfind. cbn [option_map].
  rewrite Z.eqb_refl.
  cbn [u_hashed_password u_is_active u_email u_role u_must_change_password
       set_changed_password].
  rewrite Hact. cbn [negb].
  destruct (checkpw password new_hash); cbn [negb]; [|reflexivity].
  cbn [u_email u_role u_must_change_password set_changed_password].
  rewrite Hem. reflexivity.
Qed.

Lemma changed_password_is_the_login_password_witness :
  get_current_user (Some "admin@truenas-mon.local") two_users
    = Returned root_user /\
  plain_checkpw "admin" (u_hashed_password root_user) = true /\
  (8 <= Py.len "correct horse")%nat /\
  login plain_checkpw "admin@truenas-mon.local" "admin"
    (snd (serve_user plain_checkpw (Some "admin@truenas-mon.local")
            (ChangePassword {| pc_current_password := "admin";
                               pc_new_password := "correct horse" |}
                            "h:correct horse") two_users))
    = Raised (HTTPException 401 "Incorrect email or password").
Proof.
  assert (Hlen : (8 <= Py.len "correct horse")%nat) by (vm_compute; lia).
  split; [reflexivity|]. split; [reflexivity|]. split; [exact Hlen|].
  exact (proj2 (changed_password_is_the_login_password plain_checkpw
                  "admin@truenas-mon.local"
                  {| pc_current_password := "admin";
                     pc_new_password := "correct horse" |}
                  "h:correct horse" two_users root_user eq_refl eq_refl Hlen)
               "admin").
Defined.

(** The length test counts characters: a new password of four two-byte
    letters is refused although it has eight bytes. *)
Example short_wide_password_is_refused :
  String.length short_wide_password = 8%nat /\
  Py.len short_wide_password = 4%nat /\
  serve_user plain_checkpw (Some "admin@truenas-mon.local")
    (ChangePassword {| pc_current_password := "admin";
                       pc_new_password := short_wide_password |}
                    "h:new") two_users
  = (Some (HTTPException 400 "Password must be at least 8 characters long"),
     two_users).
Proof. repeat split. Qed.

Section FleetOrigins.

Variable split : string -> string * string.

Lemma fleet_project_disks rows : get_all_disks rows = fleet_project Disk rows.
Proof. reflexivity. Qed.

Lemma fleet_project_replication rows :
  get_all_replication rows = fleet_project Replication rows.
Proof. reflexivity. Qed.

Lemma fleet_project_pools rows : get_all_pools rows = fleet_project Pool rows.
Proof. reflexivity. Qed.

Lemma fleet_step_keys (acc : list (string * fleet_system)) (r : joined_row) :
  map fst (fleet_step split acc r) =
  if dict_mem (m_system_id (fst r)) acc then map fst acc
  else map fst acc ++ [m_system_id (fst r)].
Proof.
  unfold fleet_step. destruct (split (m_metric_name (fst r))) as [e0 a0].
  rewrite !dict_update_keys.
  destruct (dict_mem (m_system_id (fst r)) acc); [reflexivity|].
  rewrite map_app. reflexivity.
Qed.

Lemma dict_mem_true {V : Type} (k : string) (d : list (string * V)) :
  dict_mem k d = true -> In k (map fst d).
Proof.
  unfold dict_mem. induction d as [|[k0 v] d IH]; [discriminate|].
  cbn [dict_get map fst In]. destruct (String.eqb_spec k0 k); [auto|].
  intros H. right. exact (IH H).
Qed.

Lemma fleet_fold_keys (rows : list joined_row)
    (acc : list (string * fleet_system)) (k : string) :
  In k (map fst (fold_left (fleet_step split) rows acc)) <->
  In k (map fst acc) \/ exists r, In r rows /\ m_system_id (fst r) = k.
Proof.
  revert acc. induction rows as [|r rows IH]; intros acc.
  - cbn [fold_left]. split; [auto | intros [H | (r & [] & _)]; exact H].
  - cbn [fold_left]. rewrite IH, fleet_step_keys. split.
    + intros [H | (r' & Hr' & E)].
      * destruct (dict_mem (m_system_id (fst r)) acc); [auto|].
        apply in_app_or in H as [H | [<- | []]]; [auto|].
        right. exists r. split; [left; reflexivity | reflexivity].
      * right. exists r'. split; [right; exact Hr' | exact E].
    + intros [H | (r' & [<- | Hr'] & E)].
      * left. destruct (dict_mem _ acc); [exact H|].
        apply in_or_app. left. exact H.
      * left. subst k.
        destruct (dict_mem (m_system_id (fst r)) acc) eqn:Em.
        -- apply dict_mem_true, Em.
        -- apply in_or_app. right. left. reflexivity.
      * right. exists r'. auto.
Qed.

Lemma fleet_fold_NoDup (rows : list joined_row)
    (acc : list (string * fleet_system)) :
  NoDup (map fst acc) ->
  NoDup (map fst (fold_left (fleet_step split) rows acc)).
Proof.
  revert acc. induction rows as [|r rows IH]; intros acc Hnd; [exact Hnd|].
  cbn [fold_left]. apply IH. rewrite fleet_step_keys.
  destruct (dict_mem (m_system_id (fst r)) acc) eqn:Em; [exact Hnd|].
  apply NoDup_snoc; [exact Hnd | apply dict_mem_false, Em].
Qed.

Lemma fleet_step_origin (all : list joined_row)
    (acc : list (string * fleet_system)) (r : joined_row) :
  In r all ->
  Forall (fun kf => fleet_origin all (snd kf)) acc ->
  Forall (fun kf => fleet_origin all (snd kf)) (fleet_step split acc r).
Proof.
  intros Hr Hacc. unfold fleet_step.
  destruct (split (m_metric_name (fst r))) as [e0 a0].
  apply (dict_update_Forall (fleet_origin all)); [intros fs H; exact H|].
  apply (dict_update_Forall (fleet_origin all)).
  { intros fs H. unfold ensure_entity.
    destruct (dict_mem e0 (fs_entities fs)); exact H. }
  destruct (dict_mem (m_system_id (fst r)) acc); [exact Hacc|].
  apply Forall_app. split; [exact Hacc|].
  constructor; [|constructor]. exists r. cbn. auto.
Qed.

Lemma fleet_fold_origin (all rows : list joined_row)
    (acc : list (string * fleet_system)) :
  (forall r, In r rows -> In r all) ->
  Forall (fun kf => fleet_origin all (snd kf)) acc ->
  Forall (fun kf => fleet_origin all (snd kf))
         (fold_left (fleet_step split) rows acc).
Proof.
  revert acc. induction rows as [|r rows IH]; intros acc Hin Hacc; [exact Hacc|].
  cbn [fold_left]. apply IH.
  - intros x Hx. apply Hin. right. exact Hx.
  - apply fleet_step_origin; [apply Hin; left; reflexivity | exact Hacc].
Qed.

Lemma fleet_keyed_ids (acc : list (string * fleet_system)) :
  fleet_keyed acc -> map fs_system_id (map snd acc) = map fst acc.
Proof.
  induction 1 as [|[k fs] acc Hk _ IH]; [reflexivity|].
  cbn [map snd fst]. cbn in Hk. rewrite Hk, IH. reflexivity.
Qed.

Lemma join_systems_pairs (db : database) (r : joined_row) :
  In r (join_systems db) <->
  In (fst r) (metrics db) /\ In (snd r) (systems db) /\
  sys_id (snd r) = m_system_id (fst r).
Proof.
  unfold join_systems. rewrite in_flat_map. split.
  - intros (m & Hm & Hr). apply in_map_iff in Hr as (s & <- & Hs).
    apply filter_In in Hs as [Hs E]. apply String.eqb_eq in E. auto.
  - intros (Hm & Hs & E). exists (fst r). split; [exact Hm|].
    apply in_map_iff. exists (snd r). split; [destruct r; reflexivity|].
    apply filter_In. split; [exact Hs | apply String.eqb_eq, E].
Qed.

End FleetOrigins.

(** X27. The fleet views report a newest value as well: for a system, a
    kind and a pair (entity, attribute) with an attribute other than the
    sentinel that has a row of a registered system in the last 24 hours,
    the fleet view of the kind reports one of those rows, of maximal
    timestamp among them, whatever order the database breaks ties in. *)
Theorem fleet_view_reports_newest (k : resource_kind) (db : database)
    (now : Z) (rows : list joined_row) (system_id eid attr : string) :
  fleet_query (kind_types k) db now rows ->
  attr <> "value" ->
  (exists r0,
     In r0 (filter (fleet_where now (kind_types k)) (join_systems db)) /\
     m_system_id (fst r0) = system_id /\
     decode k (m_metric_name (fst r0)) = (eid, attr)) ->
  exists r,
    In r (filter (fleet_where now (kind_types k)) (join_systems db)) /\
    m_system_id (fst r) = system_id /\
    decode k (m_metric_name (fst r)) = (eid, attr) /\
    fleet_latest_of (fleet_project k rows) system_id eid attr
      = Some (point_of (fst r)) /\
    forall r',
      In r' (filter (fleet_where now (kind_types k)) (join_systems db)) ->
      m_system_id (fst r') = system_id ->
      decode k (m_metric_name (fst r')) = (eid, attr) ->
      m_timestamp (fst r') <= m_timestamp (fst r).
Proof.
  intros Hq Hne (r0 & Hr0 & Hs0 & Hd0).
  assert (Hspec : forall r, fleet_decodes_to (decode k) system_id eid attr r = true
                   <-> m_system_id (fst r) = system_id /\
                       decode k (m_metric_name (fst r)) = (eid, attr)).
  { intros r. unfold fleet_decodes_to.
    rewrite andb_true_iff, String.eqb_eq, decodes_to_spec. reflexivity. }
  destruct (fleet_latest_has_maximal_timestamp (decode k) (kind_types k) db now
              rows system_id eid attr Hq)
    as (r & Hr & Hd & Hl & Hmax).
  - exists r0. split; [exact Hr0 | apply Hspec; auto].
  - intros r r' Hr Hr'. apply Hspec in Hr as [_ Hr]. apply Hspec in Hr' as [_ Hr'].
    rewrite (decode_not_sentinel k _ eid attr Hr Hne).
    rewrite (decode_not_sentinel k _ eid attr Hr' Hne). reflexivity.
  - apply Hspec in Hd as [Hs Hd]. exists r.
    split; [exact Hr|]. split; [exact Hs|]. split; [exact Hd|].
    split; [exact Hl|].
    intros r' Hr' Hs' Hd'. apply Hmax; [exact Hr' | apply Hspec; auto].
Qed.

Lemma fleet_view_reports_newest_witness :
  fleet_query (kind_types Disk) tie_fleet_db t_now
    [(tie_first, nas1_row); (tie_second, nas1_row)] /\
  exists r,
    In r (filter (fleet_where t_now (kind_types Disk))
                 (join_systems tie_fleet_db)) /\
    fleet_latest_of
      (fleet_project Disk [(tie_first, nas1_row); (tie_second, nas1_row)])
      "nas1" "ada0" "temperature" = Some (point_of (fst r)).
Proof.
  assert (Hq : fleet_query (kind_types Disk) tie_fleet_db t_now
                 [(tie_first, nas1_row); (tie_second, nas1_row)])
    by solve_fetchall.
  split; [exact Hq|].
  destruct (fleet_view_reports_newest Disk tie_fleet_db t_now _
              "nas1" "ada0" "temperature" Hq ltac:(discriminate))
    as (r & Hr & _ & _ & Hl & _).
  - exists (tie_first, nas1_row).
    split; [left; reflexivity | split; reflexivity].
  - exists r. split; [exact Hr | exact Hl].
Defined.

(** X28. A system appears in a fleet view exactly when it is registered
    and has a metric of the kind in the last 24 hours; it appears once,
    under the name and client of a registered system of its id.  Metrics
    of a system that was never registered are not shown. *)
Theorem fleet_view_lists_registered_systems (k : resource_kind)
    (db : database) (now : Z) (rows : list joined_row) :
  fleet_query (kind_types k) db now rows ->
  NoDup (map fs_system_id (fleet_project k rows)) /\
  (forall fs, In fs (fleet_project k rows) ->
     exists s, In s (systems db) /\ sys_id s = fs_system_id fs /\
               fs_system_name fs = sys_name s /\
               fs_client_name fs = sys_client_name s) /\
  (forall system_id,
     In system_id (map fs_system_id (fleet_project k rows)) <->
     (exists s, In s (systems db) /\ sys_id s = system_id) /\
     (exists m, In m (metrics db) /\ m_system_id m = system_id /\
                In (m_metric_type m) (kind_types k) /\
                newer_than now 24 m = true)).
Proof.
  intros Hq. unfold fleet_project.
  pose proof (fleet_keyed_group (decode k) rows) as Hkeyed.
  rewrite (fleet_keyed_ids _ Hkeyed). unfold fleet_group.
  assert (Hrow : forall r, In r rows <->
            In (fst r) (metrics db) /\ In (snd r) (systems db) /\
            sys_id (snd r) = m_system_id (fst r) /\
            In (m_metric_type (fst r)) (kind_types k) /\
            newer_than now 24 (fst r) = true).
  { intros r. rewrite (fetchall_In _ _ _ r Hq), filter_In, join_systems_pairs.
    unfold fleet_where. rewrite andb_true_iff, existsb_exists. split.
    - intros ((Hm & Hs & E) & (t & Ht & Et) & Hn). apply String.eqb_eq in Et.
      subst t. auto.
    - intros (Hm & Hs & E & Ht & Hn). repeat split; auto.
      exists (m_metric_type (fst r)). split; [exact Ht | apply String.eqb_refl]. }
  split; [|split].
  - apply fleet_fold_NoDup. constructor.
  - intros fs Hfs. apply in_map_iff in Hfs as (kf & <- & Hkf).
    pose proof (fleet_fold_origin (decode k) rows rows [] (fun r H => H)
                  (Forall_nil _)) as Ho.
    rewrite Forall_forall in Ho.
    destruct (Ho kf Hkf) as (r & Hr & Hs & Hn & Hc).
    apply Hrow in Hr as (_ & Hsys & E & _).
    exists (snd r). rewrite E. auto.
  - intros system_id. rewrite fleet_fold_keys. cbn [map In]. split.
    + intros [[] | (r & Hr & <-)]. apply Hrow in Hr as (Hm & Hs & E & Ht & Hn).
      split; [exists (snd r) | exists (fst r)]; auto.
    + intros ((s & Hs & Es) & (m & Hm & Em & Ht & Hn)). right.
      exists (m, s). split; [|exact Em].
      apply Hrow. cbn [fst snd]. rewrite Es, Em. auto.
Qed.

Lemma fleet_view_lists_registered_systems_witness :
  fleet_query (kind_types Disk) tie_fleet_db t_now
    [(tie_first, nas1_row); (tie_second, nas1_row)] /\
  NoDup (map fs_system_id
           (fleet_project Disk [(tie_first, nas1_row); (tie_second, nas1_row)])).
Proof.
  assert (Hq : fleet_query (kind_types Disk) tie_fleet_db t_now
                 [(tie_first, nas1_row); (tie_second, nas1_row)])
    by solve_fetchall.
  split; [exact Hq|].
  exact (proj1 (fleet_view_lists_registered_systems Disk tie_fleet_db t_now _ Hq)).
Defined.

Section SingleRowQueries.

(** The first row of an ordered answer is a selected row that the order
    puts before every other selected row; the answer is empty exactly when
    nothing is selected. *)
Lemma fetchall_head {A : Type} (sel rows : list A) (order : A -> A -> bool) :
  (forall a, order a a = true) ->
  fetchall sel order rows ->
  match rows with
  | [] => sel = []
  | m :: _ => In m sel /\ forall m', In m' sel -> order m m' = true
  end.
Proof.
  intros Hrefl Hq. destruct rows as [|m rows].
  - destruct Hq as [Hp _]. apply Permutation_sym, Permutation_nil in Hp.
    exact Hp.
  - split; [apply (fetchall_In _ _ _ m Hq); left; reflexivity|].
    intros m' Hm'. apply (fetchall_In _ _ _ m' Hq) in Hm'.
    destruct Hm' as [<- | Hm']; [apply Hrefl|].
    destruct Hq as [_ Hs]. apply StronglySorted_inv in Hs as [_ Hs].
    rewrite Forall_forall in Hs. exact (Hs m' Hm').
Qed.

Lemma counted_row key cond (rows : list metric_row) :
  1 <= count_distinct_where key cond rows <->
  exists m, In m rows /\ cond m = true.
Proof.
  unfold count_distinct_where, Sql.count_distinct. split.
  - intros H.
    destruct (nodup string_dec (map key (filter cond rows))) as [|x l] eqn:E;
      [cbn in H; lia|].
    assert (Hx : In x (nodup string_dec (map key (filter cond rows))))
      by (rewrite E; left; reflexivity).
    apply nodup_In, in_map_iff in Hx as (m & _ & Hm).
    apply filter_In in Hm. exists m. exact Hm.
  - intros (m & Hm & Hc).
    assert (Hx : In (key m) (nodup string_dec (map key (filter cond rows)))).
    { apply nodup_In, in_map, filter_In. auto. }
    destruct (nodup string_dec (map key (filter cond rows))); [destruct Hx|].
    cbn [List.length]. lia.
Qed.

Lemma warning_is_hot_reading (now : Z) (m : metric_row) :
  temp_warnings_where now m = true <->
  hottest_where now m = true /\ (45 # 1 < m_value m)%Q.
Proof.
  unfold temp_warnings_where, hottest_where, Qgt_bool.
  rewrite !andb_true_iff, negb_true_iff.
  assert (Hv : Qle_bool (m_value m) (45 # 1) = false <-> (45 # 1 < m_value m)%Q).
  { split.
    - intros H. apply Qnot_le_lt. intros Hle.
      apply Qle_bool_iff in Hle. congruence.
    - intros H. destruct (Qle_bool (m_value m) (45 # 1)) eqn:E; [|reflexivity].
      apply Qle_bool_iff in E. exfalso. exact (Qlt_not_le _ _ H E). }
  rewrite Hv. tauto.
Qed.

End SingleRowQueries.

(** X29. The hottest disk of the disk summary is a temperature reading of
    the last hour that no reading of the last hour exceeds, absent exactly
    when there is no such reading; and the warning counter is positive
    exactly when the hottest disk is above 45. *)
Theorem hottest_disk_is_the_maximum (db : database) (now : Z)
    (rows : list metric_row) :
  hottest_query db now rows ->
  (hottest_disk rows = None <->
   forall m, In m (metrics db) -> hottest_where now m = false) /\
  (forall h, hottest_disk rows = Some h ->
     (exists m, In m (metrics db) /\ hottest_where now m = true /\
                hd_temperature h = m_value m /\
                hd_system_id h = m_system_id m) /\
     forall m', In m' (metrics db) -> hottest_where now m' = true ->
                (m_value m' <= hd_temperature h)%Q) /\
  (1 <= warnings (get_disks_summary db now) <->
   exists h, hottest_disk rows = Some h /\ (45 # 1 < hd_temperature h)%Q).
Proof.
  intros Hq.
  pose proof (fetchall_head _ _ by_value_desc
                (fun a => proj2 (Qle_bool_iff _ _) (Qle_refl _)) Hq) as Hhead.
  assert (Hsel : forall m, In m (filter (hottest_where now) (metrics db)) <->
                           In m (metrics db) /\ hottest_where now m = true)
    by (intros m; apply filter_In).
  assert (Hwarn : 1 <= warnings (get_disks_summary db now) <->
                  exists m, In m (metrics db) /\ hottest_where now m = true /\
                            (45 # 1 < m_value m)%Q).
  { cbv zeta beta delta [get_disks_summary]. cbn [warnings].
    rewrite counted_row. split; intros (m & Hm & H); exists m.
    - apply warning_is_hot_reading in H. tauto.
    - split; [exact Hm | apply warning_is_hot_reading; exact H]. }
  destruct rows as [|m0 rows]; cbn [hottest_disk].
  - split; [|split].
    + split; [|reflexivity]. intros _ m Hm.
      destruct (hottest_where now m) eqn:E; [|reflexivity].
      assert (Hin : In m (filter (hottest_where now) (metrics db)))
        by (apply Hsel; auto).
      rewrite Hhead in Hin. destruct Hin.
    + intros h [=].
    + rewrite Hwarn. split.
      * intros (m & Hm & Hw & _).
        assert (Hin : In m (filter (hottest_where now) (metrics db)))
          by (apply Hsel; auto).
        rewrite Hhead in Hin. destruct Hin.
      * intros (h & [=] & _).
  - destruct Hhead as [Hm0 Hmax]. apply Hsel in Hm0 as [Hm0 Hw0].
    split; [|split].
    + split; [discriminate|]. intros H. rewrite (H m0 Hm0) in Hw0.
      discriminate Hw0.
    + intros h [= <-]. cbn [hd_temperature hd_system_id]. split.
      * exists m0. auto.
      * intros m' Hm' Hw'. apply Qle_bool_iff.
        apply (Hmax m'). apply Hsel. auto.
    + rewrite Hwarn. split.
      * intros (m & Hm & Hw & Hv). eexists. split; [reflexivity|].
        cbn [hd_temperature]. eapply Qlt_le_trans; [exact Hv|].
        apply Qle_bool_iff. apply (Hmax m). apply Hsel. auto.
      * intros (h & [= <-] & Hv). cbn [hd_temperature] in Hv.
        exists m0. auto.
Qed.

Lemma hottest_disk_is_the_maximum_witness :
  hottest_query two_systems_db t_now
    [mk_metric 2 "nas2" (t_now - 60) "disk" "ada0_temperature" (58 # 1);
     mk_metric 1 "nas1" (t_now - 60) "disk" "ada0_temperature" (50 # 1)] /\
  1 <= warnings (get_disks_summary two_systems_db t_now).
Proof.
  assert (Hq : hottest_query two_systems_db t_now
                 [mk_metric 2 "nas2" (t_now - 60) "disk" "ada0_temperature" (58 # 1);
                  mk_metric 1 "nas1" (t_now - 60) "disk" "ada0_temperature" (50 # 1)])
    by (split; [apply perm_swap | repeat (constructor; try reflexivity)]).
  split; [exact Hq|].
  apply (proj2 (proj2 (hottest_disk_is_the_maximum two_systems_db t_now _ Hq))).
  eexists. split; reflexivity.
Defined.

(** X30. [last_success] of the replication summary does not depend on how
    the database breaks ties: it is the newest timestamp among the status
    rows of value 2 of the last seven days, and absent exactly when there
    is none. *)
Theorem last_success_is_the_newest (db : database) (now : Z)
    (rows : list metric_row) :
  last_success_query db now rows ->
  (last_success rows = None <->
   forall m, In m (metrics db) -> last_success_where now m = false) /\
  (forall t, last_success rows = Some t ->
     now - 7 * 86400 < t /\
     (exists m, In m (metrics db) /\ last_success_where now m = true /\
                m_timestamp m = t) /\
     forall m', In m' (metrics db) -> last_success_where now m' = true ->
                m_timestamp m' <= t) /\
  (forall rows', last_success_query db now rows' ->
                 last_success rows' = last_success rows).
Proof.
  intros Hq.
  assert (Hsel : forall m, In m (filter (last_success_where now) (metrics db)) <->
                           In m (metrics db) /\ last_success_where now m = true)
    by (intros m; apply filter_In).
  assert (Hhead : forall l, last_success_query db now l ->
            match l with
            | [] => filter (last_success_where now) (metrics db) = []
            | m :: _ =>
                (In m (metrics db) /\ last_success_where now m = true) /\
                forall m', In m' (metrics db) ->
                           last_success_where now m' = true ->
                           m_timestamp m' <= m_timestamp m
            end).
  { intros l Hl.
    pose proof (fetchall_head _ _ by_time_desc (fun a => Z.leb_refl _) Hl) as H.
    destruct l as [|m l]; [exact H|]. destruct H as [Hm Hmax].
    split; [apply Hsel, Hm|]. intros m' Hm' Hw'.
    apply Z.leb_le. apply (Hmax m'). apply Hsel. auto. }
  pose proof (Hhead rows Hq) as H.
  split; [|split].
  - destruct rows as [|m0 rows]; cbn [last_success].
    + split; [|reflexivity]. intros _ m Hm.
      destruct (last_success_where now m) eqn:E; [|reflexivity].
      assert (Hin : In m (filter (last_success_where now) (metrics db)))
        by (apply Hsel; auto).
      rewrite H in Hin. destruct Hin.
    + destruct H as [[Hm0 Hw0] _]. split; [discriminate|].
      intros Hnone. rewrite (Hnone m0 Hm0) in Hw0. discriminate Hw0.
  - intros t Ht. destruct rows as [|m0 rows]; [discriminate|].
    injection Ht as <-. destruct H as [[Hm0 Hw0] Hmax].
    split; [|split; [exists m0; auto | exact Hmax]].
    unfold last_success_where, Sql.days_ago in Hw0.
    apply andb_true_iff in Hw0 as [_ Hn]. apply Z.ltb_lt in Hn. lia.
  - intros rows' Hq'. pose proof (Hhead rows' Hq') as H'.
    destruct rows as [|m0 rows], rows' as [|m1 rows']; cbn [last_success].
    + reflexivity.
    + destruct H' as [[Hm1 Hw1] _].
      assert (Hin : In m1 (filter (last_success_where now) (metrics db)))
        by (apply Hsel; auto).
      rewrite H in Hin. destruct Hin.
    + destruct H as [[Hm0 Hw0] _].
      assert (Hin : In m0 (filter (last_success_where now) (metrics db)))
        by (apply Hsel; auto).
      rewrite H' in Hin. destruct Hin.
    + destruct H as [[Hm0 Hw0] Hmax0]. destruct H' as [[Hm1 Hw1] Hmax1].
      pose proof (Hmax0 m1 Hm1 Hw1). pose proof (Hmax1 m0 Hm0 Hw0).
      f_equal. lia.
Qed.

Lemma last_success_is_the_newest_witness :
  last_success_query success_db t_now
    [mk_metric 2 "nas1" (t_now - 60) "replication" "offsite_status" (2 # 1);
     mk_metric 3 "nas2" (t_now - 60) "replication" "mirror_status" (2 # 1);
     mk_metric 1 "nas1" (t_now - 7200) "replication" "offsite_status" (2 # 1)] /\
  forall rows', last_success_query success_db t_now rows' ->
                last_success rows' = Some (t_now - 60).
Proof.
  assert (Hq : last_success_query success_db t_now
    [mk_metric 2 "nas1" (t_now - 60) "replication" "offsite_status" (2 # 1);
     mk_metric 3 "nas2" (t_now - 60) "replication" "mirror_status" (2 # 1);
     mk_metric 1 "nas1" (t_now - 7200) "replication" "offsite_status" (2 # 1)]).
  { split; [|repeat (constructor; try reflexivity)].
    apply (Permutation_cons_append
             [mk_metric 2 "nas1" (t_now - 60) "replication" "offsite_status" (2 # 1);
              mk_metric 3 "nas2" (t_now - 60) "replication" "mirror_status" (2 # 1)]). }
  split; [exact Hq|]. intros rows' Hq'.
  rewrite (proj2 (proj2 (last_success_is_the_newest success_db t_now _ Hq))
             rows' Hq').
  reflexivity.
Defined.

(** The summary names the hottest disk by its metric name without the
    suffix. *)
Example hottest_disk_of_two_systems :
  hottest_disk
    [mk_metric 2 "nas2" (t_now - 60) "disk" "ada0_temperature" (58 # 1);
     mk_metric 1 "nas1" (t_now - 60) "disk" "ada0_temperature" (50 # 1)]
  = Some {| hd_disk := "ada0"; hd_temperature := 58 # 1;
            hd_system_id := "nas2" |}.
Proof. reflexivity. Qed.

(* ================================================================= *)
(** * The rules and windows of the queries *)

Section RuleFacts.

Lemma Qgt_bool_spec (v c : Q) : Qgt_bool v c = true <-> (c < v)%Q.
Proof.
  unfold Qgt_bool. rewrite negb_true_iff. split.
  - intros H. apply Qnot_le_lt. intros Hle.
    apply Qle_bool_iff in Hle. congruence.
  - intros H. destruct (Qle_bool v c) eqn:E; [|reflexivity].
    apply Qle_bool_iff in E. exfalso. exact (Qlt_not_le _ _ H E).
Qed.


Lemma is_type_spec (t : string) (m : metric_row) :
  is_type t m = true <-> In (m_metric_type m) [t].
Proof.
  unfold is_type. rewrite String.eqb_eq. cbn [In]. split.
  - intros ->. left. reflexivity.
  - intros [-> | []]. reflexivity.
Qed.



Ltac open_rule :=
  unfold satisfies, any_value;
  cbn [rule_types rule_pattern rule_value rule_hours];
  rewrite ?andb_true_iff, ?orb_true_iff, ?is_type_spec, ?newer_than_spec,
    ?Qgt_bool_spec, ?Qeq_bool_iff; cbn [In]; tauto.

Lemma total_disks_rule now m :
  total_disks_where now m = true <->
  satisfies now {| rule_types := ["disk"]; rule_pattern := None;
                   rule_value := any_value; rule_hours := 24 |} m.
Proof. unfold total_disks_where. open_rule. Qed.

Lemma temp_warnings_rule now m :
  temp_warnings_where now m = true <->
  satisfies now {| rule_types := ["disk"];
                   rule_pattern := Some "%_temperature";
                   rule_value := fun v => (45 # 1 < v)%Q;
                   rule_hours := 1 |} m.
Proof. unfold temp_warnings_where. open_rule. Qed.

Lemma temp_critical_rule now m :
  temp_critical_where now m = true <->
  satisfies now {| rule_types := ["disk"];
                   rule_pattern := Some "%_temperature";
                   rule_value := fun v => (55 # 1 < v)%Q;
                   rule_hours := 1 |} m.
Proof. unfold temp_critical_where. open_rule. Qed.

Lemma smart_failures_rule now m :
  smart_failures_where now m = true <->
  satisfies now {| rule_types := ["disk"];
                   rule_pattern := Some "%_smart_status";
                   rule_value := fun v => (v == 0 # 1)%Q;
                   rule_hours := 24 |} m.
Proof. unfold smart_failures_where. open_rule. Qed.

Lemma hottest_rule now m :
  hottest_where now m = true <->
  satisfies now {| rule_types := ["disk"];
                   rule_pattern := Some "%_temperature";
                   rule_value := any_value; rule_hours := 1 |} m.
Proof. unfold hottest_where. open_rule. Qed.

Lemma total_tasks_rule now m :
  total_tasks_where now m = true <->
  satisfies now {| rule_types := ["replication"];
                   rule_pattern := Some "%_status";
                   rule_value := any_value; rule_hours := 24 |} m.
Proof. unfold total_tasks_where. open_rule. Qed.

Lemma failed_tasks_rule now m :
  failed_tasks_where now m = true <->
  satisfies now {| rule_types := ["replication"];
                   rule_pattern := Some "%_status";
                   rule_value := fun v => (v == 0 # 1)%Q;
                   rule_hours := 24 |} m.
Proof. unfold failed_tasks_where. open_rule. Qed.

Lemma last_success_rule now m :
  last_success_where now m = true <->
  satisfies now {| rule_types := ["replication"];
                   rule_pattern := Some "%_status";
                   rule_value := fun v => (v == 2 # 1)%Q;
                   rule_hours := 7 * 24 |} m.
Proof.
  unfold last_success_where, Sql.days_ago.
  unfold satisfies, any_value.
  cbn [rule_types rule_pattern rule_value rule_hours].
  rewrite !andb_true_iff, is_type_spec, Qeq_bool_iff, Z.ltb_lt. cbn [In].
  replace (now - 3600 * (7 * 24)) with (now - 86400 * 7) by lia. tauto.
Qed.

Lemma total_pools_rule now m :
  total_pools_where now m = true <->
  satisfies now {| rule_types := ["pool"; "pool_health"];
                   rule_pattern := Some "%_total";
                   rule_value := any_value; rule_hours := 24 |} m.
Proof. unfold total_pools_where. open_rule. Qed.

Lemma degraded_pools_rule now m :
  degraded_pools_where now m = true <->
  satisfies now {| rule_types := ["pool_health"];
                   rule_pattern := Some "%_state";
                   rule_value := fun v => (v == 0 # 1)%Q;
                   rule_hours := 24 |} m.
Proof. unfold degraded_pools_where. open_rule. Qed.

Lemma active_resilvers_rule now m :
  active_resilvers_where now m = true <->
  satisfies now {| rule_types := ["pool_health"];
                   rule_pattern := Some "%_resilver_status";
                   rule_value := fun v => (v == 1 # 1)%Q;
                   rule_hours := 1 |} m.
Proof. unfold active_resilvers_where. open_rule. Qed.

Lemma capacity_rows_rule now m :
  capacity_rows_where now m = true <->
  satisfies now {| rule_types := ["pool"]; rule_pattern := Some "%_used";
                   rule_value := any_value; rule_hours := 1 |} m.
Proof. unfold capacity_rows_where. open_rule. Qed.



End RuleFacts.

Section WindowClauses.

Lemma in_types_spec (t : string) (types : list string) :
  existsb (String.eqb t) types = true <-> In t types.
Proof.
  rewrite existsb_exists. split.
  - intros (x & Hx & E). apply String.eqb_eq in E. subst x. exact Hx.
  - intros H. exists t. split; [exact H | apply String.eqb_refl].
Qed.

Lemma kind_where_spec now system_id types hours m :
  kind_where now system_id types hours m = true <->
  m_system_id m = system_id /\ In (m_metric_type m) types /\
  now - 3600 * hours < m_timestamp m.
Proof.
  unfold kind_where.
  rewrite !andb_true_iff, String.eqb_eq, in_types_spec, newer_than_spec. tauto.
Qed.

Lemma fleet_where_spec now types (r : joined_row) :
  fleet_where now types r = true <->
  In (m_metric_type (fst r)) types /\ now - 3600 * 24 < m_timestamp (fst r).
Proof.
  unfold fleet_where.
  rewrite andb_true_iff, in_types_spec, newer_than_spec. tauto.
Qed.

Lemma system_metrics_where_spec now system_id metric_type hours m :
  system_metrics_where now system_id metric_type hours m = true <->
  m_system_id m = system_id /\
  (forall t, metric_type = Some t -> t <> "" -> m_metric_type m = t) /\
  now - 3600 * hours < m_timestamp m.
Proof.
  unfold system_metrics_where.
  rewrite !andb_true_iff, String.eqb_eq, newer_than_spec.
  assert (Ht : match metric_type with
               | Some t => if (t =? "")%string then true
                           else (m_metric_type m =? t)%string
               | None => true
               end = true <->
               (forall t, metric_type = Some t -> t <> "" -> m_metric_type m = t)).
  { destruct metric_type as [t|].
    - destruct (String.eqb_spec t "") as [E | Hne].
      + split; [|reflexivity]. intros _ t' Ht' Hne. injection Ht' as <-.
        contradiction.
      + rewrite String.eqb_eq. split.
        * intros E t' Ht' _. injection Ht' as <-. exact E.
        * intros H. exact (H t eq_refl Hne).
    - split; [|reflexivity]. intros _ t Ht. discriminate Ht. }
  rewrite Ht. tauto.
Qed.

End WindowClauses.

(** C4, as the code has it. Every windowed query on the metric log keeps
    a point exactly when, besides the query's other conditions, its
    timestamp is strictly later than now minus the window: a point at
    exactly now minus the window is left out, as is every older point.
    This holds of the answer of [get_system_metrics], of the rows the
    per-system disk and pool views fetch, of the rows the statement of the
    per-system replication view selects, of the rows the three fleet views
    fetch (24 hours), and of every windowed rule of the three summaries:
    1 hour for the temperature rules, the hottest disk, the active
    resilvers and the capacity sub-select, 24 hours for the totals, the
    SMART failures, the failed tasks and the degraded pools, 7 days for
    the last success. *)
Theorem window_lower_bound_is_strict (db : database) (now : Z) :
  (forall system_id metric_type hours rows m,
     get_system_metrics db now system_id metric_type hours rows ->
     (In m rows <->
      In m (metrics db) /\ m_system_id m = system_id /\
      (forall t, metric_type = Some t -> t <> "" -> m_metric_type m = t) /\
      now - 3600 * hours < m_timestamp m)) /\
  (forall v system_id hours rows m,
     projection_query v db now system_id hours rows ->
     (In m rows <->
      In m (metrics db) /\ m_system_id m = system_id /\
      In (m_metric_type m) (kind_types (view_kind v)) /\
      now - 3600 * view_hours v hours < m_timestamp m)) /\
  (forall system_id hours m,
     In m (filter (kind_where now system_id ["replication"] hours) (metrics db))
     <->
     In m (metrics db) /\ m_system_id m = system_id /\
     m_metric_type m = "replication" /\
     now - 3600 * hours < m_timestamp m) /\
  (forall k rows r,
     fleet_query (kind_types k) db now rows ->
     (In r rows <->
      In r (join_systems db) /\ In (m_metric_type (fst r)) (kind_types k) /\
      now - 3600 * 24 < m_timestamp (fst r))) /\
  (forall m,
     (total_disks_where now m = true <->
      satisfies now {| rule_types := ["disk"]; rule_pattern := None;
                       rule_value := any_value; rule_hours := 24 |} m) /\
     (temp_warnings_where now m = true <->
      satisfies now {| rule_types := ["disk"];
                       rule_pattern := Some "%_temperature";
                       rule_value := fun v => (45 # 1 < v)%Q;
                       rule_hours := 1 |} m) /\
     (temp_critical_where now m = true <->
      satisfies now {| rule_types := ["disk"];
                       rule_pattern := Some "%_temperature";
                       rule_value := fun v => (55 # 1 < v)%Q;
                       rule_hours := 1 |} m) /\
     (smart_failures_where now m = true <->
      satisfies now {| rule_types := ["disk"];
                       rule_pattern := Some "%_smart_status";
                       rule_value := fun v => (v == 0 # 1)%Q;
                       rule_hours := 24 |} m) /\
     (hottest_where now m = true <->
      satisfies now {| rule_types := ["disk"];
                       rule_pattern := Some "%_temperature";
                       rule_value := any_value; rule_hours := 1 |} m) /\
     (total_tasks_where now m = true <->
      satisfies now {| rule_types := ["replication"];
                       rule_pattern := Some "%_status";
                       rule_value := any_value; rule_hours := 24 |} m) /\
     (failed_tasks_where now m = true <->
      satisfies now {| rule_types := ["replication"];
                       rule_pattern := Some "%_status";
                       rule_value := fun v => (v == 0 # 1)%Q;
                       rule_hours := 24 |} m) /\
     (last_success_where now m = true <->
      satisfies now {| rule_types := ["replication"];
                       rule_pattern := Some "%_status";
                       rule_value := fun v => (v == 2 # 1)%Q;
                       rule_hours := 7 * 24 |} m) /\
     (total_pools_where now m = true <->
      satisfies now {| rule_types := ["pool"; "pool_health"];
                       rule_pattern := Some "%_total";
                       rule_value := any_value; rule_hours := 24 |} m) /\
     (degraded_pools_where now m = true <->
      satisfies now {| rule_types := ["pool_health"];
                       rule_pattern := Some "%_state";
                       rule_value := fun v => (v == 0 # 1)%Q;
                       rule_hours := 24 |} m) /\
     (active_resilvers_where now m = true <->
      satisfies now {| rule_types := ["pool_health"];
                       rule_pattern := Some "%_resilver_status";
                       rule_value := fun v => (v == 1 # 1)%Q;
                       rule_hours := 1 |} m) /\
     (capacity_rows_where now m = true <->
      satisfies now {| rule_types := ["pool"]; rule_pattern := Some "%_used";
                       rule_value := any_value; rule_hours := 1 |} m)).
Proof.
  split; [|split; [|split; [|split]]].
  - intros system_id metric_type hours rows m Hq.
    rewrite (fetchall_In _ _ _ m Hq), filter_In, system_metrics_where_spec.
    tauto.
  - intros v system_id hours rows m Hq.
    unfold projection_query, selected in Hq.
    rewrite (fetchall_In _ _ _ m Hq), filter_In, kind_where_spec. tauto.
  - intros system_id hours m. rewrite filter_In, kind_where_spec.
    cbn [In]. split.
    + intros (Hin & Hs & [Ht | []] & Hw). auto.
    + intros (Hin & Hs & Ht & Hw). auto.
  - intros k rows r Hq. unfold fleet_query in Hq.
    rewrite (fetchall_In _ _ _ r Hq), filter_In, fleet_where_spec. tauto.
  - intros m.
    split; [apply total_disks_rule|].
    split; [apply temp_warnings_rule|].
    split; [apply temp_critical_rule|].
    split; [apply smart_failures_rule|].
    split; [apply hottest_rule|].
    split; [apply total_tasks_rule|].
    split; [apply failed_tasks_rule|].
    split; [apply last_success_rule|].
    split; [apply total_pools_rule|].
    split; [apply degraded_pools_rule|].
    split; [apply active_resilvers_rule|].
    apply capacity_rows_rule.
Qed.

Lemma window_lower_bound_is_strict_witness :
  get_system_metrics boundary_db t_now "nas1" (Some "disk") 1 [inside_row] /\
  t_now - 3600 * 1 < m_timestamp inside_row /\
  ~ In boundary_row [inside_row] /\
  ~ t_now - 3600 * 1 < m_timestamp boundary_row.
Proof.
  assert (Hq : get_system_metrics boundary_db t_now "nas1" (Some "disk") 1
                 [inside_row]) by apply fetchall_singleton.
  split; [exact Hq|].
  destruct (window_lower_bound_is_strict boundary_db t_now) as (Hm & _).
  split.
  - apply (Hm "nas1" (Some "disk") 1 [inside_row] inside_row Hq).
    left. reflexivity.
  - split.
    + intros Hin.
      apply (Hm "nas1" (Some "disk") 1 [inside_row] boundary_row Hq) in Hin.
      destruct Hin as (_ & _ & _ & Hw). vm_compute in Hw. discriminate Hw.
    + vm_compute. intros H. discriminate H.
Defined.

(** C4 as stated fails: with a one hour window the only answer of
    [get_system_metrics] holds the row written one second inside the window
    and not the row written exactly one hour ago. *)
Lemma window_boundary_point_excluded :
  get_system_metrics boundary_db t_now "nas1" None 1 [inside_row] /\
  In boundary_row (metrics boundary_db) /\
  m_system_id boundary_row = "nas1" /\
  m_timestamp boundary_row = t_now - 3600 * 1 /\
  ~ In boundary_row [inside_row].
Proof.
  split; [apply fetchall_singleton|].
  split; [left; reflexivity|].
  split; [reflexivity|].
  split; [reflexivity|].
  intros [H | []]. discriminate H.
Qed.

(* ================================================================= *)
(** * Fleet summaries and the detail view *)

Section DetailClassification.





End DetailClassification.





(** Why system ids must hold no underscore: the systems ["site"] and
    ["site_a"] each have one hot disk, yet the fleet counts one key. *)
Example summary_keys_collide_across_systems :
  warnings (get_disks_summary colliding_db t_now) = 1 /\
  warnings (get_disks_summary (restrict_to "site" colliding_db) t_now) = 1 /\
  warnings (get_disks_summary (restrict_to "site_a" colliding_db) t_now) = 1 /\
  ~ sums_over_systems (fun d => warnings (get_disks_summary d t_now))
      colliding_db ["site"; "site_a"].
Proof.
  repeat (split; [vm_compute; reflexivity|]).
  unfold sums_over_systems. vm_compute. discriminate.
Qed.
